(** * Voucher management backend: validation and batch ingestion

    A shallow embedding of [internal/service] (the voucher service),
    [internal/repository] (the gorm repository) and the entities and
    requests they exchange, followed by the properties of the
    specification stated over it.

    Layout: the Go values the service computes with (byte strings,
    [time.Time], [float64], [error]), the entities, the collaborator calls
    as events of a small program monad, the service functions, the
    relational store behind the repository, and then the lemmas. *)

From Stdlib Require Import ZArith NArith List String Ascii Bool Lia.
From Stdlib Require Import Floats.SpecFloat.
From Stdlib Require Import Sorting.Permutation Sorting.Sorted.
Import ListNotations.

Local Open Scope string_scope.
Local Open Scope list_scope.
Local Open Scope Z_scope.

(** Concatenation of Go strings, kept apart from list append. *)
Infix "+++" := String.append (right associativity, at level 60).

(* ================================================================== *)
(** * Go strings

    A Go [string] is a sequence of bytes; [len] counts bytes. *)

Module strings.

Definition len (s : string) : Z := Z.of_nat (String.length s).

Definition code (c : ascii) : N := N_of_ascii c.

(** The six ASCII white-space bytes: tab, line feed, vertical tab, form
    feed, carriage return and space. *)
Definition isASCIISpace (c : ascii) : bool :=
  ((9 <=? code c) && (code c <=? 13) || (code c =? 32))%N.

(** The two-byte UTF-8 encodings of white space: U+0085 and U+00A0. *)
Definition isSpace2 (c0 c1 : ascii) : bool :=
  ((code c0 =? 0xC2) && ((code c1 =? 0x85) || (code c1 =? 0xA0)))%N.

(** The three-byte encodings: U+1680, U+2000..U+200A, U+2028, U+2029,
    U+202F, U+205F and U+3000. *)
Definition isSpace3 (c0 c1 c2 : ascii) : bool :=
  ((code c0 =? 0xE1) && (code c1 =? 0x9A) && (code c2 =? 0x80)
   || (code c0 =? 0xE2) && (code c1 =? 0x80)
      && ((0x80 <=? code c2) && (code c2 <=? 0x8A)
          || (code c2 =? 0xA8) || (code c2 =? 0xA9) || (code c2 =? 0xAF))
   || (code c0 =? 0xE2) && (code c1 =? 0x81) && (code c2 =? 0x9F)
   || (code c0 =? 0xE3) && (code c1 =? 0x80) && (code c2 =? 0x80))%N.

(** [unicode.IsSpace] of the first rune of [s]. *)
Definition startsWithSpace (s : string) : bool :=
  match s with
  | EmptyString => false
  | String c0 r0 =>
      isASCIISpace c0
      || match r0 with
         | EmptyString => false
         | String c1 r1 =>
             isSpace2 c0 c1
             || match r1 with
                | EmptyString => false
                | String c2 _ => isSpace3 c0 c1 c2
                end
         end
  end.

(** [strings.TrimLeftFunc(s, unicode.IsSpace)]. *)
Fixpoint trimLeft (s : string) : string :=
  match s with
  | EmptyString => EmptyString
  | String c0 r0 =>
      if isASCIISpace c0 then trimLeft r0 else
      match r0 with
      | EmptyString => s
      | String c1 r1 =>
          if isSpace2 c0 c1 then trimLeft r1 else
          match r1 with
          | EmptyString => s
          | String c2 r2 => if isSpace3 c0 c1 c2 then trimLeft r2 else s
          end
      end
  end.

(** [strings.TrimRightFunc(s, unicode.IsSpace)] on the reversed bytes:
    the head of the list is the last byte of the string. *)
Fixpoint trimRightRev (l : list ascii) : list ascii :=
  match l with
  | [] => []
  | c0 :: r0 =>
      if isASCIISpace c0 then trimRightRev r0 else
      match r0 with
      | [] => l
      | c1 :: r1 =>
          if isSpace2 c1 c0 then trimRightRev r1 else
          match r1 with
          | [] => l
          | c2 :: r2 => if isSpace3 c2 c1 c0 then trimRightRev r2 else l
          end
      end
  end.

Definition trimRight (s : string) : string :=
  string_of_list_ascii (rev (trimRightRev (rev (list_ascii_of_string s)))).

(** [strings.TrimSpace]: leading and trailing Unicode white space removed. *)
Definition TrimSpace (s : string) : string := trimRight (trimLeft s).

(** Decimal digits. *)
Definition digitChar (n : N) : ascii := ascii_of_N (48 + n mod 10).

Definition digitVal (c : ascii) : option Z :=
  if ((48 <=? code c) && (code c <=? 57))%N
  then Some (Z.of_N (code c) - 48) else None.

Definition isDigit (c : ascii) : bool :=
  ((48 <=? code c) && (code c <=? 57))%N.

Fixpoint digitsFuel (fuel : nat) (n : N) (acc : string) : string :=
  match fuel with
  | O => acc
  | S f =>
      let acc' := String (digitChar n) acc in
      if (n <? 10)%N then acc' else digitsFuel f (n / 10)%N acc'
  end.

(** The decimal numeral of [n], without leading zeros ([0] prints as one
    digit).  A number has no more decimal digits than binary ones. *)
Definition itoa (n : N) : string :=
  digitsFuel (S (N.to_nat (N.log2 n))) n EmptyString.

Fixpoint zeros (k : nat) : string :=
  match k with
  | O => EmptyString
  | S k' => String "0"%char (zeros k')
  end.

(** The [appendInt] of package time: the numeral of [x], zero-padded on
    the left to [width] digits, after a minus sign when negative. *)
Definition appendInt (x : Z) (width : nat) : string :=
  let ds := itoa (Z.abs_N x) in
  (if x <? 0 then "-" else "")
    +++ zeros (width - String.length ds) +++ ds.

Definition allDigits (s : string) : bool :=
  forallb isDigit (list_ascii_of_string s).

End strings.

(* ================================================================== *)
(** * Go time

    A [time.Time] is an instant (here nanoseconds since the Unix epoch)
    presented in a location.  Locations are zones with one fixed offset
    from UTC; zones with daylight saving transitions are outside the
    model. *)

Module time.

Record Location := { zoneOffset : Z (* seconds east of UTC *) }.

Definition UTC : Location := {| zoneOffset := 0 |}.

Record Time := { unixNano : Z; location : Location }.

Definition Second : Z := 1000000000.
Definition Hour : Z := 3600 * Second.
Definition secondsPerDay : Z := 86400.

(** Seconds from the zero time (1 January of year 1, 00:00 UTC) to the
    Unix epoch: 719162 days. *)
Definition unixToInternal : Z := 62135596800.

(** The zero value [time.Time{}]. *)
Definition zeroTime : Time :=
  {| unixNano := - unixToInternal * Second; location := UTC |}.

Definition IsZero (t : Time) : bool :=
  unixNano t =? - unixToInternal * Second.

(** Proleptic Gregorian calendar: day number (0 = 1970-01-01) of a civil
    date, and back. *)
Definition daysFromCivil (y m d : Z) : Z :=
  let y' := if m <=? 2 then y - 1 else y in
  let era := y' / 400 in
  let yoe := y' - era * 400 in
  let doy := (153 * (if m >? 2 then m - 3 else m + 9) + 2) / 5 + d - 1 in
  let doe := yoe * 365 + yoe / 4 - yoe / 100 + doy in
  era * 146097 + doe - 719468.

Definition civilFromDays (z : Z) : Z * Z * Z :=
  let z := z + 719468 in
  let era := z / 146097 in
  let doe := z - era * 146097 in
  let yoe := (doe - doe / 1460 + doe / 36524 - doe / 146096) / 365 in
  let doy := doe - (365 * yoe + yoe / 4 - yoe / 100) in
  let mp := (5 * doy + 2) / 153 in
  let d := doy - (153 * mp + 2) / 5 + 1 in
  let m := if mp <? 10 then mp + 3 else mp - 9 in
  (yoe + era * 400 + (if m <=? 2 then 1 else 0), m, d).

Definition isLeap (y : Z) : bool :=
  (y mod 4 =? 0) && (negb (y mod 100 =? 0) || (y mod 400 =? 0)).

Definition daysIn (m y : Z) : Z :=
  if m =? 2 then (if isLeap y then 29 else 28)
  else if (m =? 4) || (m =? 6) || (m =? 9) || (m =? 11) then 30 else 31.

(** The day number of the calendar day [t] falls on in its location. *)
Definition localDay (t : Time) : Z :=
  (unixNano t / Second + zoneOffset (location t)) / secondsPerDay.

(** [t.Date()]: year, month and day in the location of [t]. *)
Definition civil (t : Time) : Z * Z * Z := civilFromDays (localDay t).

Definition Year (t : Time) : Z := fst (fst (civil t)).
Definition Month (t : Time) : Z := snd (fst (civil t)).
Definition Day (t : Time) : Z := snd (civil t).

(** [time.Date(year, month, day, 0, 0, 0, 0, loc)] for an in-range month
    and day: midnight of that date in [loc]. *)
Definition Date (year month day : Z) (loc : Location) : Time :=
  {| unixNano :=
       (daysFromCivil year month day * secondsPerDay - zoneOffset loc) * Second;
     location := loc |}.

(** [t.Before(u)]: the instants are compared, not their presentations. *)
Definition Before (t u : Time) : bool := unixNano t <? unixNano u.

(** [t.Truncate(d)]: [t] rounded down to a multiple of [d] counted from
    the zero time; the location plays no part. *)
Definition Truncate (t : Time) (d : Z) : Time :=
  if d <=? 0 then t
  else {| unixNano := unixNano t - (unixNano t + unixToInternal * Second) mod d;
          location := location t |}.

(** [time.Parse("2006-01-02", value)]: four digits, a dash, two digits, a
    dash, two digits and nothing else; the month within 1..12 and the day
    within the month.  The result is midnight UTC; [None] stands for a
    non-nil error. *)
Definition Parse_2006_01_02 (value : string) : option Time :=
  match value with
  | String y3 (String y2 (String y1 (String y0 (String s1
      (String m1 (String m0 (String s2
        (String d1 (String d0 EmptyString))))))))) =>
      match strings.digitVal y3, strings.digitVal y2,
            strings.digitVal y1, strings.digitVal y0,
            strings.digitVal m1, strings.digitVal m0,
            strings.digitVal d1, strings.digitVal d0 with
      | Some a3, Some a2, Some a1, Some a0,
        Some b1, Some b0, Some c1, Some c0 =>
          let year := 1000 * a3 + 100 * a2 + 10 * a1 + a0 in
          let month := 10 * b1 + b0 in
          let day := 10 * c1 + c0 in
          if negb (Ascii.eqb s1 "-") || negb (Ascii.eqb s2 "-") then None
          else if (month <=? 0) || (12 <? month) then None
          else if (day <? 1) || (daysIn month year <? day) then None
          else Some (Date year month day UTC)
      | _, _, _, _, _, _, _, _ => None
      end
  | _ => None
  end.

(** [t.Format("2006-01-02")]. *)
Definition Format_2006_01_02 (t : Time) : string :=
  strings.appendInt (Year t) 4 +++ "-"
    +++ strings.appendInt (Month t) 2 +++ "-"
    +++ strings.appendInt (Day t) 2.

End time.

(* ================================================================== *)
(** * Go float64 and its [%.2f] rendering

    A [float64] is an IEEE 754 binary64 value: the [spec_float] of the
    standard library at precision 53 and maximal exponent 1024. *)

Module float64.

Definition prec : Z := 53.
Definition emax : Z := 1024.

Definition valid (x : spec_float) : bool := valid_binary prec emax x.

(** The float64 nearest to an integer (exact below 2^53). *)
Definition ofZ (n : Z) : spec_float := binary_normalize prec emax n 0 false.

(** Go's [x < y] and [x > y]: false as soon as one side is NaN. *)
Definition lt (x y : spec_float) : bool := SFltb x y.
Definition gt (x y : spec_float) : bool := SFltb y x.
Definition le (x y : spec_float) : bool := SFleb x y.

(** [n / d] rounded to the nearest integer, ties to even ([d] positive). *)
Definition roundHalfEven (n d : Z) : Z :=
  let q := n / d in
  match 2 * (n mod d) ?= d with
  | Lt => q
  | Gt => q + 1
  | Eq => if Z.even q then q else q + 1
  end.

(** The magnitude [m * 2^e] in hundredths, correctly rounded. *)
Definition hundredths (m : positive) (e : Z) : Z :=
  if 0 <=? e then Zpos m * 100 * 2 ^ e
  else roundHalfEven (Zpos m * 100) (2 ^ (- e)).

Definition fixed2 (h : N) : string :=
  strings.itoa (h / 100) +++ "."
    +++ String (strings.digitChar (h / 10))
          (String (strings.digitChar h) EmptyString).

(** [fmt.Sprintf("%.2f", x)]. *)
Definition Sprintf_2f (x : spec_float) : string :=
  match x with
  | S754_nan => "NaN"
  | S754_infinity false => "+Inf"
  | S754_infinity true => "-Inf"
  | S754_zero s => (if s then "-" else "") +++ "0.00"
  | S754_finite s m e =>
      (if s then "-" else "") +++ fixed2 (Z.to_N (hundredths m e))
  end.

End float64.

(* ================================================================== *)
(** * Go errors *)

Module errors.

Inductive error : Type :=
| ErrRecordNotFound                       (* the sentinel gorm.ErrRecordNotFound *)
| ErrDriver (msg : string)                (* any other error of a collaborator *)
| New (msg : string)                      (* errors.New(msg), fmt.Errorf without %w *)
| Wrap (msg : string) (err : error).      (* fmt.Errorf(msg + "%w", err) *)

(** The method [Error()]. *)
Fixpoint Error (e : error) : string :=
  match e with
  | ErrRecordNotFound => "record not found"
  | ErrDriver msg => msg
  | New msg => msg
  | Wrap msg err => msg +++ Error err
  end.

(** [err == gorm.ErrRecordNotFound]: identity with the sentinel. *)
Definition isRecordNotFound (e : error) : bool :=
  match e with
  | ErrRecordNotFound => true
  | _ => false
  end.

End errors.

(** A Go result pair [(value, err)] of which exactly one side is set. *)
Inductive result (A : Type) : Type :=
| Ok (a : A)
| Err (e : errors.error).

Arguments Ok {A} a.
Arguments Err {A} e.

Definition isOk {A : Type} (r : result A) : bool :=
  match r with
  | Ok _ => true
  | Err _ => false
  end.

(* ================================================================== *)
(** * Entities, requests and reports *)

Module entity.

Record Voucher := {
  ID : N;
  VoucherCode : string;
  DiscountPercent : spec_float;
  ExpiryDate : time.Time;
  CreatedAt : time.Time;
  UpdatedAt : time.Time;
  DeletedAt : option time.Time
}.

(** The literal [&entity.Voucher{VoucherCode: c, DiscountPercent: d,
    ExpiryDate: e}]: the other fields hold their zero values. *)
Definition literal (c : string) (d : spec_float) (e : time.Time) : Voucher :=
  {| ID := 0%N; VoucherCode := c; DiscountPercent := d; ExpiryDate := e;
     CreatedAt := time.zeroTime; UpdatedAt := time.zeroTime;
     DeletedAt := None |}.

End entity.

Module request.

Record CreateVoucherRequest := {
  VoucherCode : string;
  DiscountPercent : spec_float;
  ExpiryDate : string
}.

(** [UpdateVoucherRequest] has the same three fields. *)
Definition UpdateVoucherRequest : Type := CreateVoucherRequest.

End request.

Module domainService.

Record ImportError := { Row : Z; Error : string }.

Record ImportResult := {
  TotalRows : Z;
  Success : Z;
  Failed : Z;
  Errors : list ImportError
}.

(** The field [Errors] of [BatchImportResult] is [BatchErrors] here. *)
Record BatchImportResult := {
  TotalReceived : Z;
  Inserted : Z;
  Duplicates : Z;
  DuplicateCodes : list string;
  BatchErrors : list string
}.

End domainService.

(** [len] of a slice. *)
Definition len {A : Type} (l : list A) : Z := Z.of_nat (List.length l).

(** A Go [map[string]bool]: reading a missing key yields [false]. *)
Module stringSet.

Definition t : Type := string -> bool.

Definition make : t := fun _ => false.

Definition set (m : t) (k : string) (v : bool) : t :=
  fun k' => if String.eqb k k' then v else m k'.

Definition get (m : t) (k : string) : bool := m k.

End stringSet.

(* ================================================================== *)
(** * encoding/csv: the writer with its default comma *)

Module csv.

Definition quote : ascii := ascii_of_N 34.
Definition comma : ascii := ",".
Definition lf : ascii := ascii_of_N 10.
Definition cr : ascii := ascii_of_N 13.

Fixpoint hasSpecial (s : string) : bool :=
  match s with
  | EmptyString => false
  | String c r =>
      Ascii.eqb c lf || Ascii.eqb c cr || Ascii.eqb c quote
      || Ascii.eqb c comma || hasSpecial r
  end.

Definition fieldNeedsQuotes (field : string) : bool :=
  if String.eqb field EmptyString then false
  else if String.eqb field "\." then true
  else hasSpecial field || strings.startsWithSpace field.

(** Inside quotes every quote is doubled; the other bytes are copied. *)
Fixpoint escape (s : string) : string :=
  match s with
  | EmptyString => EmptyString
  | String c r =>
      if Ascii.eqb c quote then String quote (String quote (escape r))
      else String c (escape r)
  end.

Definition writeField (field : string) : string :=
  if fieldNeedsQuotes field
  then String quote (escape field +++ String quote EmptyString)
  else field.

Fixpoint writeFields (record : list string) : string :=
  match record with
  | [] => EmptyString
  | [f] => writeField f
  | f :: rest => writeField f +++ String comma (writeFields rest)
  end.

(** [w.Write(record)]: the fields separated by commas, then a line feed. *)
Definition Write (record : list string) : string :=
  writeFields record +++ String lf EmptyString.

(** The buffer after writing the records in order and flushing. *)
Fixpoint WriteAll (records : list (list string)) : string :=
  match records with
  | [] => EmptyString
  | r :: rest => Write r +++ WriteAll rest
  end.

End csv.

(* ================================================================== *)
(** * Collaborators

    The service reaches the outside through the methods of
    [repository.VoucherRepository] and through [time.Now()].  A service
    function is a program: a tree that issues these calls and continues
    with their answers.  An answer follows what the repository of this
    code base returns: a value with a nil error, or a nil value with an
    error; [FindByVoucherCode] may also answer nil, nil. *)

Module repository.

Inductive Call : Type :=
| TimeNow
| FindAll (page limit : Z) (search sortBy sortOrder : string)
| FindByID (id : N)
| Create (voucher : entity.Voucher)
| Update (voucher : entity.Voucher)
| Delete (id : N)
| FindByVoucherCode (code : string)
| BulkCreate (vouchers : list entity.Voucher)
| CheckDuplicateCodes (codes : list string).

(** The answer to a call.  [Create] and [Update] receive a pointer: their
    answer carries the struct as the callee left it. *)
Definition Resp (c : Call) : Type :=
  match c with
  | TimeNow => time.Time
  | FindAll _ _ _ _ _ => result (list entity.Voucher * Z)
  | FindByID _ => result entity.Voucher
  | Create _ => result entity.Voucher
  | Update _ => result entity.Voucher
  | Delete _ => result unit
  | FindByVoucherCode _ => result (option entity.Voucher)
  | BulkCreate _ => result unit
  | CheckDuplicateCodes _ => result (list string)
  end.

End repository.

Inductive Prog (A : Type) : Type :=
| Ret (a : A)
| Vis (c : repository.Call) (k : repository.Resp c -> Prog A).

Arguments Ret {A} a.
Arguments Vis {A} c k.

Fixpoint bind {A B : Type} (p : Prog A) (f : A -> Prog B) : Prog B :=
  match p with
  | Ret a => f a
  | Vis c k => Vis c (fun r => bind (k r) f)
  end.

Definition call (c : repository.Call) : Prog (repository.Resp c) :=
  Vis c (fun r => Ret r).

Notation "x <- p ;; q" := (bind p (fun x => q))
  (at level 61, p at next level, right associativity).

(** One call with its answer, as observed during a run. *)
Record Event := { evCall : repository.Call; evResp : repository.Resp evCall }.

(** A collaborator: it answers every call and moves to its next state. *)
Definition Handler (W : Type) : Type :=
  forall c : repository.Call, W -> repository.Resp c * W.

(** Running a program against a collaborator: the value returned, the
    final state, and the calls made in order. *)
Fixpoint run {W A : Type} (h : Handler W) (p : Prog A) (w : W)
  : A * W * list Event :=
  match p with
  | Ret a => (a, w, [])
  | Vis c k =>
      let (r, w1) := h c w in
      let '(a, w2, tr) := run h (k r) w1 in
      (a, w2, {| evCall := c; evResp := r |} :: tr)
  end.

Definition value {W A : Type} (o : A * W * list Event) : A := fst (fst o).
Definition final {W A : Type} (o : A * W * list Event) : W := snd (fst o).
Definition trace {W A : Type} (o : A * W * list Event) : list Event := snd o.

(** The calls of a trace, without their answers. *)
Definition calls (tr : list Event) : list repository.Call := map evCall tr.

Definition isFindByVoucherCode (c : repository.Call) : bool :=
  match c with
  | repository.FindByVoucherCode _ => true
  | _ => false
  end.

Definition isCheckDuplicateCodes (c : repository.Call) : bool :=
  match c with
  | repository.CheckDuplicateCodes _ => true
  | _ => false
  end.

Definition isBulkCreate (c : repository.Call) : bool :=
  match c with
  | repository.BulkCreate _ => true
  | _ => false
  end.

Definition isWrite (c : repository.Call) : bool :=
  match c with
  | repository.Create _ | repository.Update _ | repository.Delete _
  | repository.BulkCreate _ => true
  | _ => false
  end.

(* ================================================================== *)
(** * The voucher service ([voucherServiceImpl]) *)

Module service.

Import domainService.

(** [errors.New("voucher not found")] replaces the not-found sentinel. *)
Definition notFound (e : errors.error) : errors.error :=
  if errors.isRecordNotFound e then errors.New "voucher not found" else e.

(** The pair [existing, err] of a FindByVoucherCode call after the test
    [err != nil && err != gorm.ErrRecordNotFound]: the error the caller
    returns with, or else the pointer [existing] it goes on to test. *)
Definition exceptNotFound (r : result (option entity.Voucher))
  : result (option entity.Voucher) :=
  match r with
  | Err err => if errors.isRecordNotFound err then Ok None else Err err
  | Ok existing => Ok existing
  end.

(** GetAll retrieves all vouchers with pagination and filters. *)
Definition GetAll (page limit : Z) (search sortBy sortOrder : string)
  : Prog (result (list entity.Voucher * Z)) :=
  call (repository.FindAll page limit search sortBy sortOrder).

(** GetByID retrieves a voucher by ID. *)
Definition GetByID (id : N) : Prog (result entity.Voucher) :=
  found <- call (repository.FindByID id) ;;
  match found with
  | Err err => Ret (Err (notFound err))
  | Ok voucher => Ret (Ok voucher)
  end.

(** Create creates a new voucher with validation. *)
Definition Create (req : request.CreateVoucherRequest)
  : Prog (result entity.Voucher) :=
  existing <- call (repository.FindByVoucherCode (request.VoucherCode req)) ;;
  match exceptNotFound existing with
  | Err err => Ret (Err err)
  | Ok (Some _) => Ret (Err (errors.New "voucher code already exists"))
  | Ok None =>
      match time.Parse_2006_01_02 (request.ExpiryDate req) with
      | None =>
          Ret (Err (errors.New "invalid date format, expected YYYY-MM-DD"))
      | Some expiryDate =>
          now <- call repository.TimeNow ;;
          let today :=
            time.Date (time.Year now) (time.Month now) (time.Day now)
                      (time.location now) in
          let expiryDateLocal :=
            time.Date (time.Year expiryDate) (time.Month expiryDate)
                      (time.Day expiryDate) (time.location now) in
          if time.Before expiryDateLocal today then
            Ret (Err (errors.New "expiry date must be today or in the future"))
          else
            let voucher :=
              entity.literal (request.VoucherCode req)
                             (request.DiscountPercent req) expiryDate in
            saved <- call (repository.Create voucher) ;;
            match saved with
            | Err err => Ret (Err err)
            | Ok voucher' => Ret (Ok voucher')
            end
      end
  end.

(** The tail of Update once the code check has passed. *)
Definition updateChecked (voucher : entity.Voucher)
  (req : request.UpdateVoucherRequest) : Prog (result entity.Voucher) :=
  match time.Parse_2006_01_02 (request.ExpiryDate req) with
  | None => Ret (Err (errors.New "invalid date format, expected YYYY-MM-DD"))
  | Some expiryDate =>
      now <- call repository.TimeNow ;;
      let today :=
        time.Date (time.Year now) (time.Month now) (time.Day now)
                  (time.location now) in
      let expiryDateLocal :=
        time.Date (time.Year expiryDate) (time.Month expiryDate)
                  (time.Day expiryDate) (time.location now) in
      if time.Before expiryDateLocal today then
        Ret (Err (errors.New "expiry date must be today or in the future"))
      else
        let voucher1 :=
          {| entity.ID := entity.ID voucher;
             entity.VoucherCode := request.VoucherCode req;
             entity.DiscountPercent := request.DiscountPercent req;
             entity.ExpiryDate := expiryDate;
             entity.CreatedAt := entity.CreatedAt voucher;
             entity.UpdatedAt := entity.UpdatedAt voucher;
             entity.DeletedAt := entity.DeletedAt voucher |} in
        saved <- call (repository.Update voucher1) ;;
        match saved with
        | Err err => Ret (Err err)
        | Ok voucher' => Ret (Ok voucher')
        end
  end.

(** Update updates an existing voucher with validation. *)
Definition Update (id : N) (req : request.UpdateVoucherRequest)
  : Prog (result entity.Voucher) :=
  found <- call (repository.FindByID id) ;;
  match found with
  | Err err => Ret (Err (notFound err))
  | Ok voucher =>
      if negb (String.eqb (request.VoucherCode req) (entity.VoucherCode voucher))
      then
        existing <- call (repository.FindByVoucherCode (request.VoucherCode req)) ;;
        match exceptNotFound existing with
        | Err err => Ret (Err err)
        | Ok (Some _) => Ret (Err (errors.New "voucher code already exists"))
        | Ok None => updateChecked voucher req
        end
      else updateChecked voucher req
  end.

(** Delete deletes a voucher by ID (soft delete). *)
Definition Delete (id : N) : Prog (option errors.error) :=
  found <- call (repository.FindByID id) ;;
  match found with
  | Err err => Ret (Some (notFound err))
  | Ok _ =>
      deleted <- call (repository.Delete id) ;;
      match deleted with
      | Err err => Ret (Some err)
      | Ok _ => Ret None
      end
  end.

(** validateAndConvert validates a voucher request and converts it to
    entity. *)
Definition validateAndConvert (req : request.CreateVoucherRequest)
  : Prog (result entity.Voucher) :=
  if String.eqb (request.VoucherCode req) EmptyString then
    Ret (Err (errors.New "voucher code is required"))
  else if 50 <? strings.len (request.VoucherCode req) then
    Ret (Err (errors.New "voucher code exceeds 50 characters"))
  else if float64.lt (request.DiscountPercent req) (float64.ofZ 1)
          || float64.gt (request.DiscountPercent req) (float64.ofZ 100) then
    Ret (Err (errors.New
      ("discount percent " +++ float64.Sprintf_2f (request.DiscountPercent req)
         +++ " out of range (must be 1-100)")))
  else
    match time.Parse_2006_01_02 (request.ExpiryDate req) with
    | None =>
        Ret (Err (errors.New
          ("invalid date format '" +++ request.ExpiryDate req
             +++ "': expected YYYY-MM-DD")))
    | Some expiryDate =>
        now <- call repository.TimeNow ;;
        let today := time.Truncate now (24 * time.Hour) in
        if time.Before expiryDate today then
          Ret (Err (errors.New
            ("expiry date " +++ request.ExpiryDate req
               +++ " must be today or in the future")))
        else
          Ret (Ok (entity.literal (request.VoucherCode req)
                                  (request.DiscountPercent req) expiryDate))
    end.

(** The loop of ImportBatch over the candidates (step 4). *)
Fixpoint filterValid (duplicateMap : stringSet.t)
  (vouchers : list request.CreateVoucherRequest)
  (result0 : BatchImportResult) (validVouchers : list entity.Voucher)
  : Prog (BatchImportResult * list entity.Voucher) :=
  match vouchers with
  | [] => Ret (result0, validVouchers)
  | voucherReq :: rest =>
      if stringSet.get duplicateMap (request.VoucherCode voucherReq) then
        filterValid duplicateMap rest
          {| TotalReceived := TotalReceived result0;
             Inserted := Inserted result0;
             Duplicates := Duplicates result0 + 1;
             DuplicateCodes :=
               DuplicateCodes result0 ++ [request.VoucherCode voucherReq];
             BatchErrors := BatchErrors result0 |}
          validVouchers
      else
        converted <- validateAndConvert voucherReq ;;
        match converted with
        | Err err =>
            filterValid duplicateMap rest
              {| TotalReceived := TotalReceived result0;
                 Inserted := Inserted result0;
                 Duplicates := Duplicates result0;
                 DuplicateCodes := DuplicateCodes result0;
                 BatchErrors :=
                   BatchErrors result0
                     ++ ["Code " +++ request.VoucherCode voucherReq +++ ": "
                           +++ errors.Error err] |}
              validVouchers
        | Ok voucher =>
            filterValid duplicateMap rest result0 (validVouchers ++ [voucher])
        end
  end.

(** Step 3: the lookup map of the codes found in storage. *)
Definition duplicateMapOf (existingCodes : list string) : stringSet.t :=
  fold_left (fun m code => stringSet.set m code true) existingCodes
            stringSet.make.

(** ImportBatch imports a batch of vouchers with duplicate checking. *)
Definition ImportBatch (vouchers : list request.CreateVoucherRequest)
  : Prog (result BatchImportResult) :=
  let result0 :=
    {| TotalReceived := len vouchers; Inserted := 0; Duplicates := 0;
       DuplicateCodes := []; BatchErrors := [] |} in
  let voucherCodes := map request.VoucherCode vouchers in
  checked <- call (repository.CheckDuplicateCodes voucherCodes) ;;
  match checked with
  | Err err => Ret (Err err)
  | Ok existingCodes =>
      let duplicateMap := duplicateMapOf existingCodes in
      filtered <- filterValid duplicateMap vouchers result0 [] ;;
      let (result1, validVouchers) := filtered in
      if 0 <? len validVouchers then
        created <- call (repository.BulkCreate validVouchers) ;;
        match created with
        | Err err => Ret (Err err)
        | Ok _ =>
            Ret (Ok {| TotalReceived := TotalReceived result1;
                       Inserted := len validVouchers;
                       Duplicates := Duplicates result1;
                       DuplicateCodes := DuplicateCodes result1;
                       BatchErrors := BatchErrors result1 |})
        end
      else Ret (Ok result1)
  end.

(** The record written for one voucher by ExportVouchers. *)
Definition exportRecord (voucher : entity.Voucher) : list string :=
  [ entity.VoucherCode voucher;
    float64.Sprintf_2f (entity.DiscountPercent voucher);
    time.Format_2006_01_02 (entity.ExpiryDate voucher) ].

Definition exportHeader : list string :=
  ["voucher_code"; "discount_percent"; "expiry_date"].

(** The records handed to the CSV writer, in order. *)
Definition exportRecords (vouchers : list entity.Voucher) : list (list string) :=
  exportHeader :: map exportRecord vouchers.

(** ExportVouchers exports all vouchers to CSV format.  Writing to the
    in-memory buffer does not fail. *)
Definition ExportVouchers : Prog (result string) :=
  fetched <- call (repository.FindAll 1 100000 "" "created_at" "asc") ;;
  match fetched with
  | Err err => Ret (Err (errors.Wrap "failed to fetch vouchers: " err))
  | Ok (vouchers, _) => Ret (Ok (csv.WriteAll (exportRecords vouchers)))
  end.

Section CSVImport.

(** [strconv.ParseFloat(s, 64)] of the Go library; [None] stands for a
    non-nil error. *)
Variable ParseFloat : string -> option spec_float.

(** parseCSVRow parses a single CSV row and returns a Voucher entity. *)
Definition parseCSVRow (record : list string) (rowNum : Z)
  : Prog (result entity.Voucher) :=
  if len record <? 3 then
    Ret (Err (errors.New
      "insufficient columns (expected 3: voucher_code, discount_percent, expiry_date)"))
  else
    let voucherCode := strings.TrimSpace (nth 0 record EmptyString) in
    if String.eqb voucherCode EmptyString then
      Ret (Err (errors.New "voucher code is required"))
    else if 50 <? strings.len voucherCode then
      Ret (Err (errors.New "voucher code exceeds 50 characters"))
    else
      existing <- call (repository.FindByVoucherCode voucherCode) ;;
      match exceptNotFound existing with
      | Err err =>
          Ret (Err (errors.Wrap "failed to check voucher code: " err))
      | Ok (Some _) =>
          Ret (Err (errors.New
            ("voucher code '" +++ voucherCode +++ "' already exists")))
      | Ok None =>
          let discountStr := strings.TrimSpace (nth 1 record EmptyString) in
          match ParseFloat discountStr with
          | None =>
              Ret (Err (errors.New
                ("invalid discount percent '" +++ discountStr
                   +++ "': must be a number")))
          | Some discountPercent =>
              if float64.lt discountPercent (float64.ofZ 1)
                 || float64.gt discountPercent (float64.ofZ 100) then
                Ret (Err (errors.New
                  ("discount percent " +++ float64.Sprintf_2f discountPercent
                     +++ " out of range (must be 1-100)")))
              else
                let expiryDateStr :=
                  strings.TrimSpace (nth 2 record EmptyString) in
                match time.Parse_2006_01_02 expiryDateStr with
                | None =>
                    Ret (Err (errors.New
                      ("invalid date format '" +++ expiryDateStr
                         +++ "': expected YYYY-MM-DD")))
                | Some expiryDate =>
                    now <- call repository.TimeNow ;;
                    let today := time.Truncate now (24 * time.Hour) in
                    if time.Before expiryDate today then
                      Ret (Err (errors.New
                        ("expiry date " +++ expiryDateStr
                           +++ " must be today or in the future")))
                    else
                      Ret (Ok (entity.literal voucherCode discountPercent
                                              expiryDate))
                end
          end
      end.

(** The loop of ImportVouchers over the data rows; [i] is the index of
    the row in [records[1:]]. *)
Fixpoint importRows (rows : list (list string)) (i : Z)
  (result0 : ImportResult) (vouchers : list entity.Voucher)
  : Prog (ImportResult * list entity.Voucher) :=
  match rows with
  | [] => Ret (result0, vouchers)
  | record :: rest =>
      let rowNum := i + 2 in
      parsed <- parseCSVRow record rowNum ;;
      match parsed with
      | Err err =>
          importRows rest (i + 1)
            {| TotalRows := TotalRows result0;
               Success := Success result0;
               Failed := Failed result0 + 1;
               Errors :=
                 Errors result0
                   ++ [{| Row := rowNum; Error := errors.Error err |}] |}
            vouchers
      | Ok voucher => importRows rest (i + 1) result0 (vouchers ++ [voucher])
      end
  end.

(** ImportVouchers imports vouchers from CSV file.  [readAll] is what
    [csv.NewReader(file).ReadAll()] returned: the records of the file, or
    the reader's error. *)
Definition ImportVouchers (readAll : result (list (list string)))
  : Prog (result ImportResult) :=
  match readAll with
  | Err err => Ret (Err (errors.Wrap "failed to read CSV file: " err))
  | Ok records =>
      if len records <? 2 then
        Ret (Err (errors.New "CSV file is empty or has no data rows"))
      else
        let result0 :=
          {| TotalRows := len records - 1; Success := 0; Failed := 0;
             Errors := [] |} in
        looped <- importRows (tl records) 0 result0 [] ;;
        let (result1, vouchers) := looped in
        if 0 <? len vouchers then
          created <- call (repository.BulkCreate vouchers) ;;
          match created with
          | Err err =>
              Ret (Err (errors.Wrap "failed to insert vouchers: " err))
          | Ok _ =>
              Ret (Ok {| TotalRows := TotalRows result1;
                         Success := len vouchers;
                         Failed := Failed result1;
                         Errors := Errors result1 |})
          end
        else Ret (Ok result1)
  end.

End CSVImport.

End service.

(* ================================================================== *)
(** * The repository over its table ([voucherRepositoryImpl])

    The table [vouchers] of the migration: [id] is the primary key,
    [voucher_code] is unique over all rows (soft-deleted ones included),
    at most 50 characters long, and [discount_percent] is checked to lie
    within 1 and 100.  Every query on the model carries gorm's soft-delete
    condition [deleted_at IS NULL].  The table keeps values as they are
    handed over: the scale of the DECIMAL column and the precision of its
    timestamps are not modelled.  The clock answers [time.Now()], for the
    service and for gorm's own time stamps alike. *)

Module store.

Record World := {
  rows : list entity.Voucher;     (* the table, in insertion order *)
  nextID : N;                     (* the sequence behind BIGSERIAL *)
  clock : nat -> time.Time;       (* the successive readings of the clock *)
  ticks : nat                     (* how many readings were made *)
}.

Definition now (w : World) : time.Time := clock w (ticks w).

Definition tick (w : World) : World :=
  {| rows := rows w; nextID := nextID w; clock := clock w;
     ticks := S (ticks w) |}.

Definition withRows (w : World) (rs : list entity.Voucher) (next : N) : World :=
  {| rows := rs; nextID := next; clock := clock w; ticks := ticks w |}.

(** [deleted_at IS NULL]. *)
Definition active (v : entity.Voucher) : bool :=
  match entity.DeletedAt v with
  | None => true
  | Some _ => false
  end.

Definition hasCode (code : string) (v : entity.Voucher) : bool :=
  String.eqb (entity.VoucherCode v) code.

Definition hasID (id : N) (v : entity.Voucher) : bool :=
  N.eqb (entity.ID v) id.

(** The number of characters of a UTF-8 string: its bytes that are not
    continuation bytes. *)
Definition runeCount (s : string) : Z :=
  len (filter (fun c => negb ((0x80 <=? strings.code c)
                              && (strings.code c <? 0xC0))%N)
              (list_ascii_of_string s)).

(** The column constraints of one row. *)
Definition checkRow (v : entity.Voucher) : bool :=
  float64.le (float64.ofZ 1) (entity.DiscountPercent v)
  && float64.le (entity.DiscountPercent v) (float64.ofZ 100)
  && (runeCount (entity.VoucherCode v) <=? 50).

Definition violation : errors.error :=
  errors.ErrDriver "constraint violation".

(** gorm fills the time stamps that are still zero. *)
Definition stamp (t : time.Time) (v : entity.Voucher) : entity.Voucher :=
  {| entity.ID := entity.ID v;
     entity.VoucherCode := entity.VoucherCode v;
     entity.DiscountPercent := entity.DiscountPercent v;
     entity.ExpiryDate := entity.ExpiryDate v;
     entity.CreatedAt :=
       if time.IsZero (entity.CreatedAt v) then t else entity.CreatedAt v;
     entity.UpdatedAt :=
       if time.IsZero (entity.UpdatedAt v) then t else entity.UpdatedAt v;
     entity.DeletedAt := entity.DeletedAt v |}.

Definition withID (id : N) (v : entity.Voucher) : entity.Voucher :=
  {| entity.ID := id;
     entity.VoucherCode := entity.VoucherCode v;
     entity.DiscountPercent := entity.DiscountPercent v;
     entity.ExpiryDate := entity.ExpiryDate v;
     entity.CreatedAt := entity.CreatedAt v;
     entity.UpdatedAt := entity.UpdatedAt v;
     entity.DeletedAt := entity.DeletedAt v |}.

(** One row of an INSERT: the table and sequence after it, with the row
    as stored, or [None] when a constraint rejects it. *)
Definition insertRow (t : time.Time) (rs : list entity.Voucher) (next : N)
  (v : entity.Voucher) : option (list entity.Voucher * N * entity.Voucher) :=
  let v1 := stamp t v in
  let (v2, next') :=
    if (entity.ID v1 =? 0)%N then (withID next v1, N.succ next)
    else (v1, next) in
  if checkRow v2
     && negb (existsb (hasCode (entity.VoucherCode v2)) rs)
     && negb (existsb (hasID (entity.ID v2)) rs)
  then Some (rs ++ [v2], next', v2)
  else None.

(** The rows of one INSERT statement, all or none. *)
Fixpoint insertRows (t : time.Time) (rs : list entity.Voucher) (next : N)
  (vs : list entity.Voucher) : option (list entity.Voucher * N) :=
  match vs with
  | [] => Some (rs, next)
  | v :: rest =>
      match insertRow t rs next v with
      | None => None
      | Some (rs', next', _) => insertRows t rs' next' rest
      end
  end.

(** Stable insertion sort on a boolean order. *)
Fixpoint insertSorted {A : Type} (leb : A -> A -> bool) (x : A) (l : list A)
  : list A :=
  match l with
  | [] => [x]
  | y :: r => if leb x y then x :: l else y :: insertSorted leb x r
  end.

Definition sortBy {A : Type} (leb : A -> A -> bool) (l : list A) : list A :=
  fold_right (insertSorted leb) [] l.

Definition createdAsc (a b : entity.Voucher) : bool :=
  time.unixNano (entity.CreatedAt a) <=? time.unixNano (entity.CreatedAt b).

Definition createdDesc (a b : entity.Voucher) : bool := createdAsc b a.

(** The ORDER BY clauses the model answers: by [created_at], in either
    direction, and the default when no sort field is given. *)
Definition orderOf (sortBy sortOrder : string)
  : option (entity.Voucher -> entity.Voucher -> bool) :=
  if String.eqb sortBy EmptyString then Some createdDesc
  else if String.eqb sortBy "created_at" then
    if String.eqb sortOrder "asc" then Some createdAsc
    else if String.eqb sortOrder "desc" then Some createdDesc
    else None
  else None.

(** OFFSET and LIMIT as gorm emits them: a positive offset, a
    non-negative limit. *)
Definition page {A : Type} (offset limit : Z) (l : list A) : list A :=
  let l1 := if 0 <? offset then skipn (Z.to_nat offset) l else l in
  if 0 <=? limit then firstn (Z.to_nat limit) l1 else l1.

(** FindAll retrieves all vouchers with pagination, search, and sorting.
    Only the empty search and the orderings of [orderOf] are modelled; any
    other query is answered by an error. *)
Definition FindAll (pageNo limit : Z) (search sortBy' sortOrder : string)
  (w : World) : result (list entity.Voucher * Z) :=
  let offset := (pageNo - 1) * limit in
  let query := filter active (rows w) in
  if negb (String.eqb search EmptyString) then
    Err (errors.ErrDriver "search is not modelled")
  else
    let total := len query in
    match orderOf sortBy' sortOrder with
    | None => Err (errors.ErrDriver "ordering is not modelled")
    | Some leb => Ok (page offset limit (sortBy leb query), total)
    end.

(** FindByID retrieves a voucher by ID. *)
Definition FindByID (id : N) (w : World) : result entity.Voucher :=
  match find (fun v => active v && hasID id v) (rows w) with
  | Some v => Ok v
  | None => Err errors.ErrRecordNotFound
  end.

(** FindByVoucherCode retrieves a voucher by voucher code. *)
Definition FindByVoucherCode (code : string) (w : World)
  : result (option entity.Voucher) :=
  Ok (find (fun v => active v && hasCode code v) (rows w)).

(** Create creates a new voucher. *)
Definition Create (v : entity.Voucher) (w : World)
  : result entity.Voucher * World :=
  match insertRow (now w) (rows w) (nextID w) v with
  | None => (Err violation, tick w)
  | Some (rs, next, v') => (Ok v', tick (withRows w rs next))
  end.

(** BulkCreate creates multiple vouchers at once. *)
Definition BulkCreate (vs : list entity.Voucher) (w : World)
  : result unit * World :=
  match vs with
  | [] => (Err (errors.ErrDriver "empty slice found"), w)
  | _ :: _ =>
      match insertRows (now w) (rows w) (nextID w) vs with
      | None => (Err violation, tick w)
      | Some (rs, next) => (Ok tt, tick (withRows w rs next))
      end
  end.

(** Update updates an existing voucher: gorm's [Save] writes every column
    of the row with that id and inserts the row when there is none. *)
Definition Update (v : entity.Voucher) (w : World)
  : result entity.Voucher * World :=
  let v1 :=
    {| entity.ID := entity.ID v;
       entity.VoucherCode := entity.VoucherCode v;
       entity.DiscountPercent := entity.DiscountPercent v;
       entity.ExpiryDate := entity.ExpiryDate v;
       entity.CreatedAt := entity.CreatedAt v;
       entity.UpdatedAt := now w;
       entity.DeletedAt := entity.DeletedAt v |} in
  if (entity.ID v =? 0)%N then Create v w
  else
    let others := filter (fun r => negb (hasID (entity.ID v) r)) (rows w) in
    if checkRow v1 && negb (existsb (hasCode (entity.VoucherCode v1)) others)
    then
      if existsb (hasID (entity.ID v)) (rows w) then
        (Ok v1,
         tick (withRows w
                 (map (fun r => if hasID (entity.ID v) r then v1 else r)
                      (rows w))
                 (nextID w)))
      else (Ok v1, tick (withRows w (rows w ++ [v1]) (nextID w)))
    else (Err violation, tick w).

(** Delete soft deletes a voucher by ID. *)
Definition Delete (id : N) (w : World) : result unit * World :=
  let t := now w in
  (Ok tt,
   tick (withRows w
           (map (fun r =>
                   if active r && hasID id r then
                     {| entity.ID := entity.ID r;
                        entity.VoucherCode := entity.VoucherCode r;
                        entity.DiscountPercent := entity.DiscountPercent r;
                        entity.ExpiryDate := entity.ExpiryDate r;
                        entity.CreatedAt := entity.CreatedAt r;
                        entity.UpdatedAt := entity.UpdatedAt r;
                        entity.DeletedAt := Some t |}
                   else r)
                (rows w))
           (nextID w))).

(** CheckDuplicateCodes checks which voucher codes already exist: the
    codes of the rows [WHERE voucher_code IN codes]. *)
Definition CheckDuplicateCodes (codes : list string) (w : World)
  : result (list string) :=
  Ok (map entity.VoucherCode
          (filter (fun v => active v
                            && existsb (String.eqb (entity.VoucherCode v)) codes)
                  (rows w))).

(** The repository and the clock as one collaborator. *)
Definition handler : Handler World :=
  fun c =>
    match c as c0 return World -> repository.Resp c0 * World with
    | repository.TimeNow => fun w => (now w, tick w)
    | repository.FindAll p l s sb so => fun w => (FindAll p l s sb so w, w)
    | repository.FindByID id => fun w => (FindByID id w, w)
    | repository.Create v => Create v
    | repository.Update v => Update v
    | repository.Delete id => Delete id
    | repository.FindByVoucherCode code => fun w => (FindByVoucherCode code w, w)
    | repository.BulkCreate vs => BulkCreate vs
    | repository.CheckDuplicateCodes codes =>
        fun w => (CheckDuplicateCodes codes w, w)
    end.

End store.

(* ================================================================== *)
(** * A permissive collaborator

    After the mock repository of the service tests: no voucher is found
    by code, a lookup by id answers what the world is set up with, every
    write is accepted and recorded, and the clock stands still. *)

Module mock.

Record World := {
  clockTime : time.Time;              (* the answer to time.Now() *)
  existing : option entity.Voucher;   (* the answer to FindByID *)
  written : list entity.Voucher       (* the vouchers written so far *)
}.

Definition record (w : World) (vs : list entity.Voucher) : World :=
  {| clockTime := clockTime w; existing := existing w;
     written := written w ++ vs |}.

Definition handler : Handler World :=
  fun c =>
    match c as c0 return World -> repository.Resp c0 * World with
    | repository.TimeNow => fun w => (clockTime w, w)
    | repository.FindAll _ _ _ _ _ => fun w => (Ok ([], 0), w)
    | repository.FindByID _ =>
        fun w =>
          (match existing w with
           | Some v => Ok v
           | None => Err errors.ErrRecordNotFound
           end, w)
    | repository.Create v => fun w => (Ok v, record w [v])
    | repository.Update v => fun w => (Ok v, record w [v])
    | repository.Delete _ => fun w => (Ok tt, w)
    | repository.FindByVoucherCode _ => fun w => (Ok None, w)
    | repository.BulkCreate vs => fun w => (Ok tt, record w vs)
    | repository.CheckDuplicateCodes _ => fun w => (Ok [], w)
    end.

End mock.

(* ================================================================== *)
(** * Observations on traces *)

(** The answer of a bulk insert, when the event is one. *)
Definition bulkCreateAnswer (ev : Event) : option (result unit) :=
  match ev with
  | Build_Event c r =>
      match c as c0 return repository.Resp c0 -> option (result unit) with
      | repository.BulkCreate _ => fun r0 => Some r0
      | _ => fun _ => None
      end r
  end.

Definition isTimeNow (c : repository.Call) : bool :=
  match c with
  | repository.TimeNow => true
  | _ => false
  end.

(** The calls a row or candidate validation may make. *)
Definition isLookupOrClock (c : repository.Call) : bool :=
  isFindByVoucherCode c || isTimeNow c.

(** A program whose calls all satisfy [P], whatever the collaborator. *)
Definition callsOnly {A : Type} (P : repository.Call -> bool) (p : Prog A) : Prop :=
  forall (W : Type) (h : Handler W) (w : W),
    forallb P (calls (trace (run h p w))) = true.

(* ================================================================== *)
(** * Vocabulary of the properties *)

(** A discount outside the inclusive range 1..100. *)
Definition outOfRange (d : spec_float) : Prop :=
  float64.lt d (float64.ofZ 1) = true \/ float64.gt d (float64.ofZ 100) = true.

(** The error of the range check of validateAndConvert and parseCSVRow. *)
Definition rangeError (d : spec_float) : errors.error :=
  errors.New ("discount percent " +++ float64.Sprintf_2f d
                +++ " out of range (must be 1-100)").

(** A code that passes the two code checks of validateAndConvert. *)
Definition codeOK (code : string) : Prop :=
  code <> EmptyString /\ strings.len code <= 50.

(** The date test of Create and Update: the calendar day of [expiryDate],
    taken at midnight in the location of [now], is not before the local
    calendar day of [now]. *)
Definition localDateNotPast (now expiryDate : time.Time) : bool :=
  negb (time.Before
          (time.Date (time.Year expiryDate) (time.Month expiryDate)
                     (time.Day expiryDate) (time.location now))
          (time.Date (time.Year now) (time.Month now) (time.Day now)
                     (time.location now))).

(** The date test of validateAndConvert and parseCSVRow. *)
Definition truncatedNotPast (now expiryDate : time.Time) : bool :=
  negb (time.Before expiryDate (time.Truncate now (24 * time.Hour))).

(** The voucher Update hands to the repository. *)
Definition overwritten (voucher : entity.Voucher)
  (req : request.UpdateVoucherRequest) (expiryDate : time.Time)
  : entity.Voucher :=
  {| entity.ID := entity.ID voucher;
     entity.VoucherCode := request.VoucherCode req;
     entity.DiscountPercent := request.DiscountPercent req;
     entity.ExpiryDate := expiryDate;
     entity.CreatedAt := entity.CreatedAt voucher;
     entity.UpdatedAt := entity.UpdatedAt voucher;
     entity.DeletedAt := entity.DeletedAt voucher |}.

Definition isExistenceCheck (c : repository.Call) : bool :=
  isCheckDuplicateCodes c || isFindByVoucherCode c.

(** The verdict of validateAndConvert on [req] when the clock reads
    [now]: the function run against a clock that stands at [now]. *)
Definition mockAt (now : time.Time) : mock.World :=
  {| mock.clockTime := now; mock.existing := None; mock.written := [] |}.

Definition verdictAt (now : time.Time) (req : request.CreateVoucherRequest)
  : result entity.Voucher :=
  value (run mock.handler (service.validateAndConvert req) (mockAt now)).

(** Whether validateAndConvert reads the clock for [req]: it does once
    the code, the discount and the shape of the date have passed. *)
Definition readsClock (req : request.CreateVoucherRequest) : bool :=
  negb (String.eqb (request.VoucherCode req) EmptyString)
  && negb (50 <? strings.len (request.VoucherCode req))
  && negb (float64.lt (request.DiscountPercent req) (float64.ofZ 1)
           || float64.gt (request.DiscountPercent req) (float64.ofZ 100))
  && match time.Parse_2006_01_02 (request.ExpiryDate req) with
     | Some _ => true
     | None => false
     end.

(* ================================================================== *)
(** * Concrete requests, instants and worlds *)

Module sample.

Definition utcPlus7 : time.Location := {| time.zoneOffset := 7 * 3600 |}.
Definition utcMinus5 : time.Location := {| time.zoneOffset := - 5 * 3600 |}.

(** The instant at which the wall clock of [loc] shows the given date,
    hour and minute. *)
Definition wallClock (y m d hh mm : Z) (loc : time.Location) : time.Time :=
  {| time.unixNano :=
       (time.daysFromCivil y m d * time.secondsPerDay + hh * 3600 + mm * 60
        - time.zoneOffset loc) * time.Second;
     time.location := loc |}.

Definition noon2026 : time.Time := wallClock 2026 3 9 12 0 time.UTC.

(** 02:00 on 10 March 2026 in a zone seven hours east of UTC. *)
Definition earlyMorningEast : time.Time := wallClock 2026 3 10 2 0 utcPlus7.

(** 21:00 on 9 March 2026 in a zone five hours west of UTC. *)
Definition eveningWest : time.Time := wallClock 2026 3 9 21 0 utcMinus5.

Definition req (code : string) (discount : Z) (expiry : string)
  : request.CreateVoucherRequest :=
  {| request.VoucherCode := code;
     request.DiscountPercent := float64.ofZ discount;
     request.ExpiryDate := expiry |}.

Definition stored (id : N) (code : string) (discount : Z) (expiry : time.Time)
  (created : time.Time) (deleted : option time.Time) : entity.Voucher :=
  {| entity.ID := id; entity.VoucherCode := code;
     entity.DiscountPercent := float64.ofZ discount;
     entity.ExpiryDate := expiry; entity.CreatedAt := created;
     entity.UpdatedAt := created; entity.DeletedAt := deleted |}.

Definition day2099 : time.Time := time.Date 2099 1 1 time.UTC.

(** A table with one active voucher and one soft-deleted voucher. *)
Definition table : store.World :=
  {| store.rows :=
       [ stored 1 "SUMMER" 15 day2099 (wallClock 2026 1 5 9 0 time.UTC) None;
         stored 2 "OLD" 30 day2099 (wallClock 2026 1 6 9 0 time.UTC)
                (Some (wallClock 2026 2 1 9 0 time.UTC)) ];
     store.nextID := 3;
     store.clock := fun _ => noon2026;
     store.ticks := 0 |}.

Definition emptyTable : store.World :=
  {| store.rows := []; store.nextID := 1;
     store.clock := fun _ => noon2026; store.ticks := 0 |}.

(** The fragment of strconv.ParseFloat on the numerals of the examples. *)
Definition parseFloat (s : string) : option spec_float :=
  if String.eqb s "10.00" then Some (float64.ofZ 10)
  else if String.eqb s "20" then Some (float64.ofZ 20)
  else if String.eqb s "200" then Some (float64.ofZ 200)
  else if String.eqb s "15" then Some (float64.ofZ 15)
  else None.

(** A candidate whose only fault is its discount of 200. *)
Definition req200 : request.CreateVoucherRequest := req "BAD" 200 "2099-01-01".

(** A candidate that expires on 9 March 2026. *)
Definition reqMarch9 : request.CreateVoucherRequest := req "A" 10 "2026-03-09".

Definition rowMarch9 : list string := ["A"; "10.00"; "2026-03-09"].

(** The voucher with id 5 that the permissive collaborator holds. *)
Definition held : entity.Voucher :=
  stored 5 "BAD" 10 day2099 (wallClock 2026 1 5 9 0 time.UTC) None.

Definition mockHolding (now : time.Time) (v : entity.Voucher) : mock.World :=
  {| mock.clockTime := now; mock.existing := Some v; mock.written := [] |}.

(** A candidate that reuses the code of the soft-deleted voucher. *)
Definition reqOld : request.CreateVoucherRequest := req "OLD" 10 "2099-01-01".

Definition header : list string :=
  ["voucher_code"; "discount_percent"; "expiry_date"].

End sample.

(** The code check of Update against the voucher found by id: the code
    is unchanged, or the lookup by the new code finds nothing. *)
Definition codeCheckPasses {W : Type} (h : Handler W) (w1 : W)
  (voucher : entity.Voucher) (req : request.UpdateVoucherRequest) : Prop :=
  request.VoucherCode req = entity.VoucherCode voucher
  \/ (request.VoucherCode req <> entity.VoucherCode voucher
      /\ service.exceptNotFound
           (fst (h (repository.FindByVoucherCode (request.VoucherCode req)) w1))
         = Ok None).

(** The state of the collaborator after that check. *)
Definition afterCodeCheck {W : Type} (h : Handler W) (w1 : W)
  (voucher : entity.Voucher) (req : request.UpdateVoucherRequest) : W :=
  if String.eqb (request.VoucherCode req) (entity.VoucherCode voucher) then w1
  else snd (h (repository.FindByVoucherCode (request.VoucherCode req)) w1).

(** The bulk insert of the voucher made from [sample.reqOld], as the
    table answers it: the code is still held by a soft-deleted row. *)
Definition refusedInsert : Event :=
  {| evCall := repository.BulkCreate
                 [entity.literal "OLD" (float64.ofZ 10) sample.day2099];
     evResp := Err store.violation |}.

(** The outcome of one candidate of a batch. *)
Inductive Outcome : Type := Duplicate | Invalid | Valid.

Definition isDuplicate (o : Outcome) : bool :=
  match o with Duplicate => true | _ => false end.

Definition isInvalid (o : Outcome) : bool :=
  match o with Invalid => true | _ => false end.

Definition isValid (o : Outcome) : bool :=
  match o with Valid => true | _ => false end.

(** The outcomes of the candidates in order: a candidate whose code is
    among the existing ones is a duplicate; any other is judged by
    validateAndConvert, run where the previous candidate left the
    collaborator. *)
Fixpoint outcomes {W : Type} (h : Handler W) (isDup : string -> bool)
  (batch : list request.CreateVoucherRequest) (w : W) : list Outcome :=
  match batch with
  | [] => []
  | req :: rest =>
      if isDup (request.VoucherCode req) then
        Duplicate :: outcomes h isDup rest w
      else
        let o := run h (service.validateAndConvert req) w in
        (if isOk (value o) then Valid else Invalid)
          :: outcomes h isDup rest (final o)
  end.

(** The table holds an active voucher with this code. *)
Definition holdsActive (w : store.World) (code : string) : bool :=
  existsb (fun v => store.active v && store.hasCode code v) (store.rows w).

Definition codeIs (k : string) (req : request.CreateVoucherRequest) : bool :=
  String.eqb (request.VoucherCode req) k.



(** Two candidates under one new code. *)
Definition twinBatch : list request.CreateVoucherRequest :=
  [ sample.req "TWIN" 10 "2099-01-01"; sample.req "TWIN" 20 "2099-06-30" ].

(** The answer of the clock, when the event is a reading of it. *)
Definition clockReading (ev : Event) : option time.Time :=
  match ev with
  | Build_Event c r =>
      match c as c0 return repository.Resp c0 -> option time.Time with
      | repository.TimeNow => fun r0 => Some r0
      | _ => fun _ => None
      end r
  end.

(** The readings of the clock along a trace. *)
Fixpoint clockReadings (tr : list Event) : list time.Time :=
  match tr with
  | [] => []
  | ev :: rest =>
      match clockReading ev with
      | Some t => t :: clockReadings rest
      | None => clockReadings rest
      end
  end.

(** A candidate that passes validateAndConvert at each of the readings:
    its code, discount and date are well formed, and its date is not
    past at any of them. *)
Definition passesValidation (readings : list time.Time)
  (req : request.CreateVoucherRequest) : Prop :=
  readsClock req = true
  /\ forall now, In now readings -> isOk (verdictAt now req) = true.

(** The three data rows of the import scenario and its report. *)
Definition scenarioRows : list (list string) :=
  [ ["DISC10"; "10.00"; "2099-01-01"];
    [""; "20"; "2099-01-01"];
    ["BAD"; "200"; "2099-01-01"] ].

Definition scenarioReport : domainService.ImportResult :=
  {| domainService.TotalRows := 3;
     domainService.Success := 1;
     domainService.Failed := 2;
     domainService.Errors :=
       [ {| domainService.Row := 3;
            domainService.Error := "voucher code is required" |};
         {| domainService.Row := 4;
            domainService.Error :=
              "discount percent 200.00 out of range (must be 1-100)" |} ] |}.

(* ================================================================== *)
(** * Decimal numerals of fixed width *)

Definition digits10 : list Z := [0; 1; 2; 3; 4; 5; 6; 7; 8; 9].

(** The character of the digit [a]. *)
Definition digitOf (a : Z) : ascii := strings.digitChar (Z.to_N a).

(* ================================================================== *)
(** * Vocabulary of the export *)

(** A decimal numeral with exactly two digits after the point. *)
Definition twoFractionDigits (s : string) : Prop :=
  exists (whole : string) (a b : ascii),
    s = whole +++ "." +++ String a (String b EmptyString)
    /\ whole <> EmptyString
    /\ strings.allDigits whole = true
    /\ strings.isDigit a = true /\ strings.isDigit b = true.

(** [a] was created no later than [b]. *)
Definition createdNotAfter (a b : entity.Voucher) : Prop :=
  time.unixNano (entity.CreatedAt a) <= time.unixNano (entity.CreatedAt b).

(** A date as the service stores it: the result of parsing some string. *)
Definition parsedDate (t : time.Time) : Prop :=
  exists s : string, time.Parse_2006_01_02 s = Some t.

(** The first line of every export. *)
Definition headerLine : string :=
  "voucher_code,discount_percent,expiry_date" +++ String csv.lf EmptyString.

(** The number of line feeds of a document. *)
Fixpoint lineFeeds (s : string) : Z :=
  match s with
  | EmptyString => 0
  | String c r => (if Ascii.eqb c csv.lf then 1 else 0) + lineFeeds r
  end.

(** The lines of a document: the text between line feeds. *)
Fixpoint documentLines (s : string) : list string :=
  match s with
  | EmptyString => []
  | String c r =>
      if Ascii.eqb c csv.lf then EmptyString :: documentLines r
      else match documentLines r with
           | [] => [String c EmptyString]
           | l :: ls => String c l :: ls
           end
  end.

(* ================================================================== *)
(** * A table at the limit of the export

    Vouchers V0, V1, ... with ids from 1, each created one nanosecond
    after the one before, all active, all with a discount of 10 and the
    expiry date 2099-01-01. *)

Definition bigCode (i : nat) : string := "V" +++ strings.itoa (N.of_nat i).

Definition bigRow (i : nat) : entity.Voucher :=
  {| entity.ID := N.of_nat (S i);
     entity.VoucherCode := bigCode i;
     entity.DiscountPercent := float64.ofZ 10;
     entity.ExpiryDate := sample.day2099;
     entity.CreatedAt :=
       {| time.unixNano :=
            time.unixNano (sample.wallClock 2026 1 1 0 0 time.UTC) + Z.of_nat i;
          time.location := time.UTC |};
     entity.UpdatedAt :=
       {| time.unixNano :=
            time.unixNano (sample.wallClock 2026 1 1 0 0 time.UTC) + Z.of_nat i;
          time.location := time.UTC |};
     entity.DeletedAt := None |}.

Definition bigRows (n : nat) : list entity.Voucher := map bigRow (seq 0 n).

Definition bigTable (n : nat) : store.World :=
  {| store.rows := bigRows n;
     store.nextID := N.of_nat (S n);
     store.clock := fun _ => sample.noon2026;
     store.ticks := 0 |}.

(** The number of vouchers one export fetches. *)
Definition exportLimit : nat := Z.to_nat 100000.

(** One data row under a header, and the report of its import. *)
Definition oneRowFile : list (list string) :=
  [sample.header; ["DISC10"; "10.00"; "2099-01-01"]].

Definition oneRowReport : domainService.ImportResult :=
  {| domainService.TotalRows := 1;
     domainService.Success := 1;
     domainService.Failed := 0;
     domainService.Errors := [] |}.

(** The row the table stores for it, inserted at noon of 9 March 2026
    under the id [id]. *)
Definition oneRowStored (id : N) : entity.Voucher :=
  store.withID id
    (store.stamp sample.noon2026
       (entity.literal "DISC10" (float64.ofZ 10) sample.day2099)).

(* ================================================================== *)
(** * Go int

    The type [int] of a 64-bit platform: arithmetic wraps around, and
    division by zero is a run-time panic ([None]). *)

Module int.

Definition wrap (x : Z) : Z := (x + 2 ^ 63) mod 2 ^ 64 - 2 ^ 63.

Definition add (x y : Z) : Z := wrap (x + y).
Definition sub (x y : Z) : Z := wrap (x - y).
Definition mul (x y : Z) : Z := wrap (x * y).

Definition quot (x y : Z) : option Z :=
  if y =? 0 then None else Some (wrap (Z.quot x y)).

Definition rem (x y : Z) : option Z :=
  if y =? 0 then None else Some (Z.rem x y).

Definition inRange (x : Z) : Prop := - 2 ^ 63 <= x < 2 ^ 63.

End int.

(* ================================================================== *)
(** * Pagination parameters ([pkg/utils]) *)

Module utils.

Definition DefaultPage : Z := 1.
Definition DefaultLimit : Z := 10.
Definition MaxLimit : Z := 100.

Record PaginationParams := {
  Page : Z;
  Limit : Z;
  Offset : Z;
  SortBy : string;
  SortOrder : string
}.

Section Pagination.

(** [strconv.Atoi] of the Go library; [None] stands for a non-nil error. *)
Variable Atoi : string -> option Z.

(** parsePage parses the page parameter with default value. *)
Definition parsePage (pageStr : string) : Z :=
  match Atoi pageStr with
  | None => DefaultPage
  | Some page => if page <? 1 then DefaultPage else page
  end.

(** parseLimit parses the limit parameter with default and max values. *)
Definition parseLimit (limitStr : string) : Z :=
  match Atoi limitStr with
  | None => DefaultLimit
  | Some limit =>
      if limit <? 1 then DefaultLimit
      else if limit >? MaxLimit then MaxLimit
      else limit
  end.

(** calculateOffset calculates the offset based on page and limit. *)
Definition calculateOffset (page limit : Z) : Z :=
  int.mul (int.sub page 1) limit.

(** ParsePaginationParams parses pagination parameters from query
    strings. *)
Definition ParsePaginationParams (pageStr limitStr sortBy sortOrder : string)
  : PaginationParams :=
  let page := parsePage pageStr in
  let limit := parseLimit limitStr in
  let offset := calculateOffset page limit in
  let sortOrder1 :=
    if String.eqb sortOrder EmptyString then "desc" else sortOrder in
  let sortOrder2 :=
    if negb (String.eqb sortOrder1 "asc") && negb (String.eqb sortOrder1 "desc")
    then "desc" else sortOrder1 in
  {| Page := page; Limit := limit; Offset := offset; SortBy := sortBy;
     SortOrder := sortOrder2 |}.

End Pagination.

End utils.

(* ================================================================== *)
(** * Voucher responses ([delivery/http/response]) *)

Module response.

Record VoucherResponse := {
  ID : N;
  VoucherCode : string;
  DiscountPercent : spec_float;
  ExpiryDate : string;
  CreatedAt : string;
  UpdatedAt : string
}.

Record PaginationMeta := {
  Page : Z;
  Limit : Z;
  Total : Z;
  TotalPages : Z
}.

Record VoucherListResponse := {
  Vouchers : list VoucherResponse;
  Pagination : PaginationMeta
}.

Section Responses.

(** [t.Format(time.RFC3339)] of the Go library. *)
Variable FormatRFC3339 : time.Time -> string.

(** ToVoucherResponse converts entity.Voucher to VoucherResponse. *)
Definition ToVoucherResponse (voucher : entity.Voucher) : VoucherResponse :=
  {| ID := entity.ID voucher;
     VoucherCode := entity.VoucherCode voucher;
     DiscountPercent := entity.DiscountPercent voucher;
     ExpiryDate := time.Format_2006_01_02 (entity.ExpiryDate voucher);
     CreatedAt := FormatRFC3339 (entity.CreatedAt voucher);
     UpdatedAt := FormatRFC3339 (entity.UpdatedAt voucher) |}.

(** ToVoucherListResponse converts a list of vouchers. *)
Definition ToVoucherListResponse (vouchers : list entity.Voucher)
  : list VoucherResponse :=
  map ToVoucherResponse vouchers.

(** BuildVoucherListResponse builds a complete voucher list response
    with pagination; [None] is the panic of a division by zero. *)
Definition BuildVoucherListResponse (vouchers : list entity.Voucher)
  (page limit total : Z) : option VoucherListResponse :=
  match int.quot total limit, int.rem total limit with
  | Some quotient, Some remainder =>
      let totalPages :=
        if remainder >? 0 then int.add quotient 1 else quotient in
      Some {| Vouchers := ToVoucherListResponse vouchers;
              Pagination := {| Page := page; Limit := limit; Total := total;
                               TotalPages := totalPages |} |}
  | _, _ => None
  end.

End Responses.

End response.

(* ================================================================== *)
(** * The authorization middleware ([delivery/http/middleware]) *)

Module middleware.

(** What the middleware does with a request: it answers with a status
    and an error message and aborts, or it stores the email of the claims
    in the context and hands the request on. *)
Inductive Outcome : Type :=
| Abort (status : Z) (message : string)
| Next (email : string).

(** [s] without the leading [prefix], when it starts with it. *)
Fixpoint cutPrefix (s prefix : string) : option string :=
  match prefix with
  | EmptyString => Some s
  | String p prefix' =>
      match s with
      | EmptyString => None
      | String c s' => if Ascii.eqb c p then cutPrefix s' prefix' else None
      end
  end.

(** [strings.TrimPrefix]. *)
Definition TrimPrefix (s prefix : string) : string :=
  match cutPrefix s prefix with
  | Some rest => rest
  | None => s
  end.

Section Auth.

(** [jwtService.ValidateToken]: the email of the claims, or an error. *)
Variable ValidateToken : string -> result string.

(** AuthMiddleware creates a middleware that validates JWT tokens;
    [authHeader] is the Authorization header, empty when absent. *)
Definition AuthMiddleware (authHeader : string) : Outcome :=
  if String.eqb authHeader EmptyString then
    Abort 401 "Missing authorization header"
  else
    let tokenString := TrimPrefix authHeader "Bearer " in
    if String.eqb tokenString authHeader then
      Abort 401 "Invalid authorization header format"
    else
      match ValidateToken tokenString with
      | Err _ => Abort 401 "Invalid or expired token"
      | Ok email => Next email
      end.

End Auth.

End middleware.

(* ================================================================== *)
(** * The auth service ([authServiceImpl]) *)

Module authService.

(** The literal [&entity.User{Email: email}]; its other fields hold
    their zero values. *)
Record User := { Email : string }.

Section Login.

(** [jwtService.GenerateToken]. *)
Variable GenerateToken : string -> result string.

(** Login authenticates a user with dummy validation and returns a JWT
    token. *)
Definition Login (email password : string)
  : string * option User * option errors.error :=
  match GenerateToken email with
  | Err err => (EmptyString, None, Some err)
  | Ok token => (token, Some {| Email := email |}, None)
  end.

Definition Register (email password : string) : string * option errors.error :=
  (EmptyString, None).

End Login.

End authService.

(* ================================================================== *)
(** * Vocabulary of the further properties *)

(** [t.UTC()]: the same instant, presented in UTC. *)
Definition inUTC (t : time.Time) : time.Time :=
  {| time.unixNano := time.unixNano t; time.location := time.UTC |}.

(** The error of Create and Update for a date in the past. *)
Definition pastDate : errors.error :=
  errors.New "expiry date must be today or in the future".

(** A request whose code is new to the collaborator in state [w]. *)
Definition codeIsFree {W : Type} (h : Handler W) (w : W)
  (req : request.CreateVoucherRequest) : Prop :=
  service.exceptNotFound
    (fst (h (repository.FindByVoucherCode (request.VoucherCode req)) w))
  = Ok None.

(** The state and the clock reading Create works with after its lookup. *)
Definition afterLookup {W : Type} (h : Handler W) (w : W)
  (req : request.CreateVoucherRequest) : W :=
  snd (h (repository.FindByVoucherCode (request.VoucherCode req)) w).

Definition clockAfterLookup {W : Type} (h : Handler W) (w : W)
  (req : request.CreateVoucherRequest) : time.Time :=
  fst (h repository.TimeNow (afterLookup h w req)).

(** The fragment of strconv.ParseFloat on the numeral NaN. *)
Definition parseNaN (s : string) : option spec_float :=
  if String.eqb s "NaN" then Some S754_nan else sample.parseFloat s.


(* ================================================================== *)
(** * Running programs *)

Lemma run_bind :
  forall (W A B : Type) (h : Handler W) (p : Prog A) (f : A -> Prog B) (w : W),
    run h (bind p f) w =
    let '(a, w1, t1) := run h p w in
    let '(b, w2, t2) := run h (f a) w1 in
    (b, w2, t1 ++ t2).
Proof.
  intros W A B h p f. induction p as [a | c k IH]; intros w; simpl.
  - destruct (run h (f a) w) as [[b w2] t2]. reflexivity.
  - destruct (h c w) as [r w1]. rewrite IH.
    destruct (run h (k r) w1) as [[a w2] t1].
    destruct (run h (f a) w2) as [[b w3] t2]. reflexivity.
Qed.

Lemma run_call :
  forall (W : Type) (h : Handler W) (c : repository.Call) (w : W),
    run h (call c) w =
    (fst (h c w), snd (h c w), [{| evCall := c; evResp := fst (h c w) |}]).
Proof.
  intros. unfold call. simpl. destruct (h c w) as [r w1]. reflexivity.
Qed.

(** Running a call and then a continuation. *)
Lemma run_call_bind :
  forall (W A : Type) (h : Handler W) (c : repository.Call)
         (f : repository.Resp c -> Prog A) (w : W),
    run h (bind (call c) f) w =
    let '(a, w2, tr) := run h (f (fst (h c w))) (snd (h c w)) in
    (a, w2, {| evCall := c; evResp := fst (h c w) |} :: tr).
Proof.
  intros. unfold call. simpl. destruct (h c w) as [r w1]. reflexivity.
Qed.

Lemma calls_app :
  forall t1 t2 : list Event, calls (t1 ++ t2) = calls t1 ++ calls t2.
Proof. intros. unfold calls. apply map_app. Qed.

Lemma callsOnly_ret :
  forall (A : Type) (P : repository.Call -> bool) (a : A), callsOnly P (Ret a).
Proof. intros A P a W h w. reflexivity. Qed.

Lemma callsOnly_bind :
  forall (A B : Type) (P : repository.Call -> bool) (p : Prog A)
         (f : A -> Prog B),
    callsOnly P p -> (forall a, callsOnly P (f a)) -> callsOnly P (bind p f).
Proof.
  intros A B P p f Hp Hf W h w. rewrite run_bind.
  specialize (Hp W h w).
  destruct (run h p w) as [[a w1] t1] eqn:E1.
  specialize (Hf a W h w1).
  destruct (run h (f a) w1) as [[b w2] t2] eqn:E2.
  unfold trace in *. simpl in *. rewrite calls_app, forallb_app, Hp, Hf.
  reflexivity.
Qed.

Lemma callsOnly_call :
  forall (P : repository.Call -> bool) (c : repository.Call),
    P c = true -> callsOnly P (call c).
Proof.
  intros P c Hc W h w. rewrite run_call. unfold trace. simpl.
  rewrite Hc. reflexivity.
Qed.

Lemma callsOnly_weaken :
  forall (A : Type) (P Q : repository.Call -> bool) (p : Prog A),
    (forall c, P c = true -> Q c = true) -> callsOnly P p -> callsOnly Q p.
Proof.
  intros A P Q p HPQ Hp W h w. specialize (Hp W h w).
  rewrite forallb_forall in *. auto.
Qed.

Ltac calls_only :=
  repeat first
    [ apply callsOnly_ret
    | apply callsOnly_call; reflexivity
    | apply callsOnly_bind; [ | intros ? ]
    | match goal with
      | |- callsOnly _ (match ?x with _ => _ end) => destruct x
      | |- callsOnly _ (if ?x then _ else _) => destruct x
      | |- callsOnly _ (let (_, _) := ?x in _) => destruct x
      end ].

Lemma validateAndConvert_calls :
  forall req, callsOnly isTimeNow (service.validateAndConvert req).
Proof. intros req. unfold service.validateAndConvert. calls_only. Qed.

Lemma parseCSVRow_calls :
  forall ParseFloat record rowNum,
    callsOnly isLookupOrClock (service.parseCSVRow ParseFloat record rowNum).
Proof.
  intros. unfold service.parseCSVRow. calls_only.
Qed.

Lemma importRows_calls :
  forall ParseFloat rows i result0 vouchers,
    callsOnly isLookupOrClock
      (service.importRows ParseFloat rows i result0 vouchers).
Proof.
  intros ParseFloat rows. induction rows as [| record rest IH]; intros; simpl.
  - apply callsOnly_ret.
  - apply callsOnly_bind; [apply parseCSVRow_calls | ].
    intros [voucher | err]; apply IH.
Qed.

Lemma filterValid_calls :
  forall duplicateMap vouchers result0 validVouchers,
    callsOnly isTimeNow
      (service.filterValid duplicateMap vouchers result0 validVouchers).
Proof.
  intros duplicateMap vouchers.
  induction vouchers as [| voucherReq rest IH]; intros; simpl.
  - apply callsOnly_ret.
  - destruct (stringSet.get duplicateMap (request.VoucherCode voucherReq)).
    + apply IH.
    + apply callsOnly_bind; [apply validateAndConvert_calls | ].
      intros [voucher | err]; apply IH.
Qed.


(* ================================================================== *)
(** * Failure of the bulk insert *)

Lemma bulkCreateAnswer_call :
  forall ev r, bulkCreateAnswer ev = Some r -> isBulkCreate (evCall ev) = true.
Proof.
  intros [c r0] r. destruct c; simpl; intros H; try discriminate. reflexivity.
Qed.

Lemma not_in_trace :
  forall (P : repository.Call -> bool) (tr : list Event) (ev : Event),
    forallb P (calls tr) = true -> P (evCall ev) = false -> ~ In ev tr.
Proof.
  intros P tr ev Hall Hev Hin.
  rewrite forallb_forall in Hall.
  assert (P (evCall ev) = true) as Ht.
  { apply Hall. unfold calls. apply in_map. exact Hin. }
  congruence.
Qed.

Lemma lookupOrClock_not_bulk :
  forall c, isBulkCreate c = true -> isLookupOrClock c = false.
Proof. intros c. destruct c; simpl; intros H; try discriminate; reflexivity. Qed.

Lemma clock_not_bulk :
  forall c, isBulkCreate c = true -> isTimeNow c = false.
Proof. intros c. destruct c; simpl; intros H; try discriminate; reflexivity. Qed.

(** C5: in both import paths, when the bulk insert is answered by an
    error, the call returns that error (wrapped, for the CSV import) and
    no report: the counts and the error list computed so far are dropped. *)
Theorem C5_bulk_insert_failure_loses_report :
  forall (W : Type) (h : Handler W) (w : W) (ev : Event) (e : errors.error),
    bulkCreateAnswer ev = Some (Err e) ->
    (forall ParseFloat readAll,
        In ev (trace (run h (service.ImportVouchers ParseFloat readAll) w)) ->
        value (run h (service.ImportVouchers ParseFloat readAll) w)
        = Err (errors.Wrap "failed to insert vouchers: " e))
    /\ (forall batch,
        In ev (trace (run h (service.ImportBatch batch) w)) ->
        value (run h (service.ImportBatch batch) w) = Err e).
Proof.
  intros W h w ev e Hev.
  pose proof (bulkCreateAnswer_call _ _ Hev) as Hbulk.
  split.
  - intros ParseFloat readAll. unfold service.ImportVouchers.
    destruct readAll as [records | err]; [ | simpl; tauto ].
    destruct (len records <? 2); [ simpl; tauto | ].
    rewrite run_bind.
    pose proof (importRows_calls ParseFloat (tl records) 0
                  {| domainService.TotalRows := len records - 1;
                     domainService.Success := 0;
                     domainService.Failed := 0;
                     domainService.Errors := [] |} [] W h w) as Hloop.
    destruct (run h (service.importRows ParseFloat (tl records) 0 _ []) w)
      as [[[result1 vouchers] w1] t1].
    unfold trace in Hloop. simpl in Hloop.
    assert (~ In ev t1) as Hnot.
    { eapply not_in_trace; [exact Hloop | ].
      apply lookupOrClock_not_bulk. exact Hbulk. }
    destruct (0 <? len vouchers).
    + rewrite run_call_bind.
      destruct (h (repository.BulkCreate vouchers) w1) as [created w2] eqn:Eh.
      simpl fst. simpl snd.
      destruct created as [[] | err]; unfold value, trace; simpl; intros Hin.
      * apply in_app_or in Hin. destruct Hin as [Hin | [Heq | []]];
          [contradiction | ].
        subst ev. simpl in Hev. discriminate.
      * apply in_app_or in Hin. destruct Hin as [Hin | [Heq | []]];
          [contradiction | ].
        subst ev. simpl in Hev. congruence.
    + unfold trace. simpl. rewrite app_nil_r. intros Hin. contradiction.
  - intros batch. unfold service.ImportBatch.
    rewrite run_call_bind.
    destruct (h (repository.CheckDuplicateCodes (map request.VoucherCode batch)) w)
      as [checked w0] eqn:Ech.
    simpl fst. simpl snd.
    destruct checked as [existingCodes | err].
    + rewrite run_bind.
      pose proof (filterValid_calls (service.duplicateMapOf existingCodes) batch
                    {| domainService.TotalReceived := len batch;
                       domainService.Inserted := 0;
                       domainService.Duplicates := 0;
                       domainService.DuplicateCodes := [];
                       domainService.BatchErrors := [] |} [] W h w0) as Hloop.
      destruct (run h (service.filterValid _ batch _ []) w0)
        as [[[result1 validVouchers] w1] t1].
      unfold trace in Hloop. simpl in Hloop.
      assert (~ In ev t1) as Hnot.
      { eapply not_in_trace; [exact Hloop | ].
        apply clock_not_bulk. exact Hbulk. }
      destruct (0 <? len validVouchers).
      * rewrite run_call_bind.
        destruct (h (repository.BulkCreate validVouchers) w1)
          as [created w2] eqn:Eh.
        simpl fst. simpl snd.
        destruct created as [[] | err]; unfold value, trace; simpl; intros Hin.
        -- destruct Hin as [Heq | Hin]; [subst ev; discriminate | ].
           apply in_app_or in Hin. destruct Hin as [Hin | [Heq | []]];
             [contradiction | ].
           subst ev. simpl in Hev. discriminate.
        -- destruct Hin as [Heq | Hin]; [subst ev; discriminate | ].
           apply in_app_or in Hin. destruct Hin as [Hin | [Heq | []]];
             [contradiction | ].
           subst ev. simpl in Hev. congruence.
      * unfold trace. simpl. rewrite app_nil_r. intros [Heq | Hin];
          [subst ev; discriminate | contradiction].
    + unfold trace. simpl. intros [Heq | []]. subst ev. discriminate.
Qed.

Lemma C5_bulk_insert_failure_witness :
  value (run store.handler
             (service.ImportVouchers sample.parseFloat
                (Ok [sample.header; ["OLD"; "10.00"; "2099-01-01"]]))
             sample.table)
  = Err (errors.Wrap "failed to insert vouchers: " store.violation)
  /\ value (run store.handler (service.ImportBatch [sample.reqOld]) sample.table)
     = Err store.violation.
Proof.
  destruct (C5_bulk_insert_failure_loses_report
              store.World store.handler sample.table refusedInsert
              store.violation eq_refl) as [Hcsv Hbatch].
  split.
  - apply Hcsv. vm_compute. right. right. left. reflexivity.
  - apply Hbatch. vm_compute. right. right. left. reflexivity.
Defined.


(* ================================================================== *)
(** * Update and the duplicate check *)

Ltac run_step :=
  first [ rewrite run_call_bind | rewrite run_call ];
  simpl fst; simpl snd.

(** C6: Update looks the voucher up by id; with an unchanged code it
    makes no find-by-code call and returns what the repository's update
    answers once the date is valid; with a changed code the second call
    is the find-by-code of Create, and a voucher found under the new code
    ends the update with the duplicate-code error before any write. *)
Theorem C6_update_duplicate_check :
  forall (W : Type) (h : Handler W) (w w1 : W) (id : N)
         (req : request.UpdateVoucherRequest) (voucher : entity.Voucher),
    h (repository.FindByID id) w = (Ok voucher, w1) ->
    (request.VoucherCode req = entity.VoucherCode voucher ->
       existsb isFindByVoucherCode
               (calls (trace (run h (service.Update id req) w))) = false
       /\ forall expiryDate,
            time.Parse_2006_01_02 (request.ExpiryDate req) = Some expiryDate ->
            localDateNotPast (fst (h repository.TimeNow w1)) expiryDate = true ->
            value (run h (service.Update id req) w)
            = fst (h (repository.Update (overwritten voucher req expiryDate))
                     (snd (h repository.TimeNow w1))))
    /\ (request.VoucherCode req <> entity.VoucherCode voucher ->
          nth_error (calls (trace (run h (service.Update id req) w))) 1
          = Some (repository.FindByVoucherCode (request.VoucherCode req))
          /\ forall found,
               fst (h (repository.FindByVoucherCode (request.VoucherCode req)) w1)
               = Ok (Some found) ->
               value (run h (service.Update id req) w)
               = Err (errors.New "voucher code already exists")
               /\ existsb isWrite
                    (calls (trace (run h (service.Update id req) w))) = false).
Proof.
  intros W h w w1 id req voucher Hfind.
  unfold service.Update. rewrite run_call_bind, Hfind. simpl fst. simpl snd.
  split.
  - intros Hcode. apply String.eqb_eq in Hcode. rewrite Hcode.
    simpl negb. cbv iota.
    unfold service.updateChecked.
    destruct (time.Parse_2006_01_02 (request.ExpiryDate req)) as [expiryDate | ].
    + rewrite run_call_bind.
      destruct (h repository.TimeNow w1) as [now w2]. simpl fst. simpl snd.
      unfold localDateNotPast.
      destruct (time.Before _ _) eqn:Ebefore.
      * split; [reflexivity | ].
        intros expiryDate' Heq. inversion Heq; subst expiryDate'.
        rewrite Ebefore. discriminate.
      * rewrite run_call_bind. fold (overwritten voucher req expiryDate).
        destruct (h (repository.Update (overwritten voucher req expiryDate)) w2)
          as [saved w3] eqn:Eupdate.
        simpl fst. simpl snd.
        split.
        -- destruct saved; reflexivity.
        -- intros expiryDate' Heq _. inversion Heq; subst expiryDate'.
           rewrite Eupdate. destruct saved; reflexivity.
    + split; [reflexivity | ]. intros expiryDate' Heq. discriminate.
  - intros Hcode.
    apply String.eqb_neq in Hcode. rewrite Hcode. simpl negb. cbv iota.
    rewrite run_call_bind.
    destruct (h (repository.FindByVoucherCode (request.VoucherCode req)) w1)
      as [looked w2].
    simpl fst. simpl snd.
    split.
    + destruct (run h _ w2) as [[a w3] tr]. reflexivity.
    + intros found Hfound. subst looked. simpl. split; reflexivity.
Qed.

(* ================================================================== *)
(** * The batched existence check *)

Lemma filter_none :
  forall (A : Type) (P Q : A -> bool) (l : list A),
    forallb P l = true -> (forall a, P a = true -> Q a = false) ->
    filter Q l = [].
Proof.
  intros A P Q l. induction l as [| a l IH]; simpl; intros Hall HPQ.
  - reflexivity.
  - apply andb_prop in Hall. destruct Hall as [Ha Hl].
    rewrite (HPQ a Ha). apply IH; assumption.
Qed.

Lemma clock_not_existence_check :
  forall c, isTimeNow c = true -> isExistenceCheck c = false.
Proof. intros c. destruct c; simpl; intros H; try discriminate; reflexivity. Qed.

(** The calls of ImportBatch: the existence check, the clock readings of
    the loop, and at most one bulk insert at the end. *)
Lemma ImportBatch_calls :
  forall (W : Type) (h : Handler W) (w : W) batch,
  exists clockCalls rest,
    calls (trace (run h (service.ImportBatch batch) w))
    = repository.CheckDuplicateCodes (map request.VoucherCode batch)
        :: clockCalls ++ rest
    /\ forallb isTimeNow clockCalls = true
    /\ (rest = [] \/ exists vs, rest = [repository.BulkCreate vs]).
Proof.
  intros W h w batch. unfold service.ImportBatch.
  rewrite run_call_bind.
  destruct (h (repository.CheckDuplicateCodes (map request.VoucherCode batch)) w)
    as [checked w0].
  simpl fst. simpl snd.
  destruct checked as [existingCodes | err].
  - rewrite run_bind.
    pose proof (filterValid_calls (service.duplicateMapOf existingCodes) batch
                  {| domainService.TotalReceived := len batch;
                     domainService.Inserted := 0;
                     domainService.Duplicates := 0;
                     domainService.DuplicateCodes := [];
                     domainService.BatchErrors := [] |} [] W h w0) as Hloop.
    destruct (run h (service.filterValid _ batch _ []) w0)
      as [[[result1 validVouchers] w1] t1].
    unfold trace in Hloop. simpl in Hloop.
    exists (calls t1).
    destruct (0 <? len validVouchers).
    + rewrite run_call_bind.
      destruct (h (repository.BulkCreate validVouchers) w1) as [created w2].
      simpl fst. simpl snd.
      exists [repository.BulkCreate validVouchers].
      destruct created as [[] | err]; unfold trace; simpl;
        rewrite calls_app; simpl; auto using Hloop; repeat split; eauto.
    + exists []. unfold trace. simpl. rewrite app_nil_r, app_nil_r.
      auto.
  - exists [], []. unfold trace. simpl. auto.
Qed.

Lemma store_CheckDuplicateCodes_spec :
  forall (codes : list string) (w : store.World) (code : string),
    In code (map entity.VoucherCode
               (filter (fun v => store.active v
                                 && existsb (String.eqb (entity.VoucherCode v)) codes)
                       (store.rows w)))
    <-> In code codes
        /\ exists v, In v (store.rows w) /\ store.active v = true
                     /\ entity.VoucherCode v = code.
Proof.
  intros codes w code. rewrite in_map_iff. split.
  - intros [v [Hcode Hin]]. apply filter_In in Hin. destruct Hin as [Hin Hb].
    apply andb_prop in Hb. destruct Hb as [Hact Hex].
    apply existsb_exists in Hex. destruct Hex as [c [Hc Heq]].
    apply String.eqb_eq in Heq. subst code c. split.
    + exact Hc.
    + exists v. auto.
  - intros [Hc [v [Hin [Hact Hcode]]]]. exists v. split; [exact Hcode | ].
    apply filter_In. split; [exact Hin | ].
    rewrite Hact. simpl. apply existsb_exists. exists code. split; [exact Hc | ].
    apply String.eqb_eq. exact Hcode.
Qed.

(** C7: whatever the collaborator, ImportBatch makes exactly one
    existence check, a CheckDuplicateCodes call on the codes of all
    candidates, and no find-by-code call; and the repository answers that
    call with exactly the codes among them that an active voucher holds. *)
Theorem C7_single_batched_existence_check :
  forall batch : list request.CreateVoucherRequest,
    (forall (W : Type) (h : Handler W) (w : W),
        filter isExistenceCheck
               (calls (trace (run h (service.ImportBatch batch) w)))
        = [repository.CheckDuplicateCodes (map request.VoucherCode batch)])
    /\ (forall w : store.World,
          exists existingCodes,
            fst (store.handler
                   (repository.CheckDuplicateCodes
                      (map request.VoucherCode batch)) w)
            = Ok existingCodes
            /\ forall code,
                 In code existingCodes <->
                 In code (map request.VoucherCode batch)
                 /\ exists v, In v (store.rows w) /\ store.active v = true
                              /\ entity.VoucherCode v = code).
Proof.
  intros batch. split.
  - intros W h w.
    destruct (ImportBatch_calls W h w batch)
      as [clockCalls [rest [Hcalls [Hclock Hrest]]]].
    rewrite Hcalls. simpl. rewrite filter_app.
    rewrite (filter_none _ isTimeNow isExistenceCheck clockCalls Hclock
               clock_not_existence_check).
    destruct Hrest as [Hrest | [vs Hrest]]; subst rest; reflexivity.
  - intros w. simpl. unfold store.CheckDuplicateCodes.
    eexists. split; [reflexivity | ].
    intros code. apply store_CheckDuplicateCodes_spec.
Qed.

Lemma C6_update_duplicate_check_witness :
  existsb isFindByVoucherCode
          (calls (trace (run store.handler
                             (service.Update 1 (sample.req "SUMMER" 50 "2099-01-01"))
                             sample.table))) = false
  /\ nth_error (calls (trace (run store.handler
                                  (service.Update 1 (sample.req "WINTER" 50 "2099-01-01"))
                                  sample.table))) 1
     = Some (repository.FindByVoucherCode "WINTER").
Proof.
  split.
  - destruct (C6_update_duplicate_check
                store.World store.handler sample.table sample.table 1
                (sample.req "SUMMER" 50 "2099-01-01")
                (sample.stored 1 "SUMMER" 15 sample.day2099
                               (sample.wallClock 2026 1 5 9 0 time.UTC) None)
                eq_refl) as [Hsame _].
    apply Hsame. reflexivity.
  - destruct (C6_update_duplicate_check
                store.World store.handler sample.table sample.table 1
                (sample.req "WINTER" 50 "2099-01-01")
                (sample.stored 1 "SUMMER" 15 sample.day2099
                               (sample.wallClock 2026 1 5 9 0 time.UTC) None)
                eq_refl) as [_ Hdiff].
    apply Hdiff. discriminate.
Defined.


(* ================================================================== *)
(** * The discount range *)

(** The date test of Create and Update, as the branch they take. *)
Lemma localDateNotPast_Before :
  forall now expiryDate : time.Time,
    localDateNotPast now expiryDate = true ->
    time.Before
      (time.Date (time.Year expiryDate) (time.Month expiryDate)
                 (time.Day expiryDate) (time.location now))
      (time.Date (time.Year now) (time.Month now) (time.Day now)
                 (time.location now)) = false.
Proof.
  unfold localDateNotPast. intros now expiryDate H.
  apply negb_true_iff. exact H.
Qed.

(** Update once the code check has passed, the date parses and is not in
    the past: the clock is read, the overwritten voucher is handed to the
    repository, and its answer is returned. *)
Lemma updateChecked_run :
  forall (W : Type) (h : Handler W) (w : W) (voucher : entity.Voucher)
         (req : request.UpdateVoucherRequest) (expiryDate : time.Time),
    time.Parse_2006_01_02 (request.ExpiryDate req) = Some expiryDate ->
    localDateNotPast (fst (h repository.TimeNow w)) expiryDate = true ->
    value (run h (service.updateChecked voucher req) w)
    = fst (h (repository.Update (overwritten voucher req expiryDate))
             (snd (h repository.TimeNow w)))
    /\ calls (trace (run h (service.updateChecked voucher req) w))
       = [repository.TimeNow;
          repository.Update (overwritten voucher req expiryDate)].
Proof.
  intros W h w voucher req expiryDate Hparse Hdate.
  unfold service.updateChecked. rewrite Hparse, run_call_bind.
  cbv zeta. rewrite (localDateNotPast_Before _ _ Hdate), run_call_bind.
  fold (overwritten voucher req expiryDate).
  destruct (h (repository.Update (overwritten voucher req expiryDate))
              (snd (h repository.TimeNow w))) as [saved w3].
  simpl fst. simpl snd. destruct saved; split; reflexivity.
Qed.

Lemma outOfRange_test :
  forall d : spec_float,
    outOfRange d ->
    float64.lt d (float64.ofZ 1) || float64.gt d (float64.ofZ 100) = true.
Proof.
  intros d [H | H]; rewrite H; [reflexivity | apply orb_true_r].
Qed.

Lemma codeOK_tests :
  forall code : string,
    codeOK code ->
    String.eqb code EmptyString = false /\ (50 <? strings.len code) = false.
Proof.
  intros code [Hne Hlen]. split.
  - apply String.eqb_neq. exact Hne.
  - apply Z.ltb_ge. exact Hlen.
Qed.

(** C1 (as amended): a discount outside 1..100 on a candidate with a
    valid code is rejected by the validation of ImportBatch with the
    out-of-range error, before the clock or the repository is consulted.
    Create and Update make no such check: once their code and date checks
    pass they hand a voucher carrying that discount to the repository and
    return what the repository answers. *)
Theorem C1_range_check_in_batch_validation_only :
  forall req : request.CreateVoucherRequest,
    outOfRange (request.DiscountPercent req) ->
    codeOK (request.VoucherCode req) ->
    (forall (W : Type) (h : Handler W) (w : W),
        run h (service.validateAndConvert req) w
        = (Err (rangeError (request.DiscountPercent req)), w, []))
    /\ (forall (W : Type) (h : Handler W) (w : W) (expiryDate : time.Time),
          service.exceptNotFound
            (fst (h (repository.FindByVoucherCode (request.VoucherCode req)) w))
          = Ok None ->
          time.Parse_2006_01_02 (request.ExpiryDate req) = Some expiryDate ->
          localDateNotPast
            (fst (h repository.TimeNow
                    (snd (h (repository.FindByVoucherCode
                               (request.VoucherCode req)) w))))
            expiryDate = true ->
          value (run h (service.Create req) w)
          = fst (h (repository.Create
                      (entity.literal (request.VoucherCode req)
                                      (request.DiscountPercent req) expiryDate))
                   (snd (h repository.TimeNow
                           (snd (h (repository.FindByVoucherCode
                                      (request.VoucherCode req)) w))))))
    /\ (forall (W : Type) (h : Handler W) (w w1 : W) (id : N)
               (voucher : entity.Voucher) (expiryDate : time.Time),
          h (repository.FindByID id) w = (Ok voucher, w1) ->
          codeCheckPasses h w1 voucher req ->
          time.Parse_2006_01_02 (request.ExpiryDate req) = Some expiryDate ->
          localDateNotPast
            (fst (h repository.TimeNow (afterCodeCheck h w1 voucher req)))
            expiryDate = true ->
          value (run h (service.Update id req) w)
          = fst (h (repository.Update (overwritten voucher req expiryDate))
                   (snd (h repository.TimeNow
                           (afterCodeCheck h w1 voucher req))))).
Proof.
  intros req Hrange Hcode.
  apply outOfRange_test in Hrange.
  apply codeOK_tests in Hcode. destruct Hcode as [Hne Hlen].
  split; [ | split].
  - intros W h w. unfold service.validateAndConvert.
    rewrite Hne, Hlen, Hrange. reflexivity.
  - intros W h w expiryDate Hfree Hparse Hdate.
    unfold service.Create. rewrite run_call_bind, Hfree, Hparse.
    rewrite run_call_bind.
    cbv zeta. rewrite (localDateNotPast_Before _ _ Hdate), run_call_bind.
    destruct (h (repository.Create _) _) as [saved w3].
    simpl fst. simpl snd. destruct saved; reflexivity.
  - intros W h w w1 id voucher expiryDate Hfind Hcheck Hparse Hdate.
    unfold service.Update. rewrite run_call_bind, Hfind.
    simpl fst. simpl snd. unfold afterCodeCheck in *.
    destruct Hcheck as [Hsame | [Hdiff Hfree]].
    + apply String.eqb_eq in Hsame. rewrite Hsame in *. simpl negb. cbv iota.
      pose proof (updateChecked_run W h _ voucher req expiryDate Hparse Hdate)
        as [Hvalue _].
      unfold value in *.
      destruct (run h (service.updateChecked voucher req) _) as [[a w3] tr].
      exact Hvalue.
    + apply String.eqb_neq in Hdiff. rewrite Hdiff in *. simpl negb. cbv iota.
      rewrite run_call_bind, Hfree.
      pose proof (updateChecked_run W h _ voucher req expiryDate Hparse Hdate)
        as [Hvalue _].
      unfold value in *.
      destruct (run h (service.updateChecked voucher req) _) as [[a w3] tr].
      exact Hvalue.
Qed.

(** C1 does not hold as stated: Create and Update accept a discount of
    200 on an otherwise valid candidate whenever the repository does, and
    the voucher is written; against the table the insert is refused, but
    by the constraint of the column and not by an out-of-range error. *)
Lemma C1_counterexample :
  outOfRange (request.DiscountPercent sample.req200)
  /\ codeOK (request.VoucherCode sample.req200)
  /\ isOk (value (run mock.handler (service.Create sample.req200)
                      (mockAt sample.noon2026))) = true
  /\ map entity.DiscountPercent
         (mock.written (final (run mock.handler (service.Create sample.req200)
                                   (mockAt sample.noon2026))))
     = [float64.ofZ 200]
  /\ isOk (value (run mock.handler (service.Update 5 sample.req200)
                      (sample.mockHolding sample.noon2026 sample.held))) = true
  /\ map entity.DiscountPercent
         (mock.written (final (run mock.handler (service.Update 5 sample.req200)
                                   (sample.mockHolding sample.noon2026
                                                       sample.held))))
     = [float64.ofZ 200]
  /\ value (run store.handler (service.Create sample.req200) sample.table)
     = Err store.violation
  /\ store.violation <> rangeError (request.DiscountPercent sample.req200).
Proof.
  split; [right; reflexivity | ].
  split; [split; [discriminate | vm_compute; discriminate] | ].
  repeat split; try (vm_compute; reflexivity).
  discriminate.
Qed.

Lemma C1_range_check_witness :
  run mock.handler (service.validateAndConvert sample.req200)
      (mockAt sample.noon2026)
  = (Err (rangeError (float64.ofZ 200)), mockAt sample.noon2026, [])
  /\ value (run mock.handler (service.Create sample.req200)
                (mockAt sample.noon2026))
     = Ok (entity.literal "BAD" (float64.ofZ 200) sample.day2099).
Proof.
  assert (outOfRange (request.DiscountPercent sample.req200)) as Hrange
    by (right; reflexivity).
  assert (codeOK (request.VoucherCode sample.req200)) as Hcode
    by (split; [discriminate | vm_compute; discriminate]).
  destruct (C1_range_check_in_batch_validation_only sample.req200 Hrange Hcode)
    as [Hvalidate [Hcreate _]].
  split.
  - apply Hvalidate.
  - rewrite (Hcreate mock.World mock.handler (mockAt sample.noon2026)
               sample.day2099);
      reflexivity.
Defined.

(* ================================================================== *)
(** * The day an expiry date is compared with *)

(** C3, at two instants: Create and Update compare the expiry date with
    the calendar day of the clock's location; validateAndConvert and
    parseCSVRow compare it with the UTC day.  At 02:00 on 10 March in a
    zone seven hours east of UTC the import paths accept 9 March, which
    Create and Update refuse as past; at 21:00 on 9 March in a zone five
    hours west of UTC the import paths refuse 9 March, the current local
    day, which Create and Update accept. *)
Theorem C3_import_paths_compare_utc_days :
  (time.civil sample.earlyMorningEast = (2026, 3, 10)
   /\ value (run mock.handler (service.Create sample.reqMarch9)
                 (mockAt sample.earlyMorningEast))
      = Err (errors.New "expiry date must be today or in the future")
   /\ value (run mock.handler (service.Update 5 sample.reqMarch9)
                 (sample.mockHolding sample.earlyMorningEast sample.held))
      = Err (errors.New "expiry date must be today or in the future")
   /\ isOk (value (run mock.handler (service.validateAndConvert sample.reqMarch9)
                       (mockAt sample.earlyMorningEast))) = true
   /\ isOk (value (run mock.handler
                       (service.parseCSVRow sample.parseFloat sample.rowMarch9 2)
                       (mockAt sample.earlyMorningEast))) = true)
  /\ (time.civil sample.eveningWest = (2026, 3, 9)
      /\ isOk (value (run mock.handler (service.Create sample.reqMarch9)
                          (mockAt sample.eveningWest))) = true
      /\ isOk (value (run mock.handler (service.Update 5 sample.reqMarch9)
                          (sample.mockHolding sample.eveningWest sample.held)))
         = true
      /\ value (run mock.handler (service.validateAndConvert sample.reqMarch9)
                    (mockAt sample.eveningWest))
         = Err (errors.New
                  "expiry date 2026-03-09 must be today or in the future")
      /\ value (run mock.handler
                    (service.parseCSVRow sample.parseFloat sample.rowMarch9 2)
                    (mockAt sample.eveningWest))
         = Err (errors.New
                  "expiry date 2026-03-09 must be today or in the future")).
Proof.
  repeat split; vm_compute; reflexivity.
Qed.


(* ================================================================== *)
(** * The loop of ImportBatch *)

Lemma duplicateMapOf_get_fold :
  forall (codes : list string) (m : stringSet.t) (k : string),
    stringSet.get
      (fold_left (fun m0 code => stringSet.set m0 code true) codes m) k
    = existsb (String.eqb k) codes || stringSet.get m k.
Proof.
  induction codes as [| c codes IH]; intros m k; simpl.
  - reflexivity.
  - rewrite IH. unfold stringSet.get, stringSet.set.
    rewrite (String.eqb_sym k c).
    destruct (String.eqb c k); simpl.
    + rewrite orb_true_r. reflexivity.
    + reflexivity.
Qed.

(** The lookup map answers membership in the list it was built from. *)
Lemma duplicateMapOf_get :
  forall (codes : list string) (k : string),
    stringSet.get (service.duplicateMapOf codes) k = existsb (String.eqb k) codes.
Proof.
  intros codes k. unfold service.duplicateMapOf.
  rewrite duplicateMapOf_get_fold. unfold stringSet.get, stringSet.make.
  apply orb_false_r.
Qed.

(** One validation: its verdict is the one at the reading of the clock,
    and the clock is read only when [readsClock] says so. *)
Lemma validateAndConvert_run :
  forall (W : Type) (h : Handler W) (w : W) (req : request.CreateVoucherRequest),
    run h (service.validateAndConvert req) w
    = (verdictAt (fst (h repository.TimeNow w)) req,
       (if readsClock req then snd (h repository.TimeNow w) else w),
       (if readsClock req
        then [{| evCall := repository.TimeNow;
                 evResp := fst (h repository.TimeNow w) |}]
        else [])).
Proof.
  intros W h w req. unfold verdictAt, readsClock, service.validateAndConvert.
  destruct (String.eqb (request.VoucherCode req) EmptyString); [reflexivity | ].
  destruct (50 <? strings.len (request.VoucherCode req)); [reflexivity | ].
  destruct (float64.lt _ _ || float64.gt _ _); [reflexivity | ].
  destruct (time.Parse_2006_01_02 (request.ExpiryDate req)) as [expiryDate | ];
    [ | reflexivity].
  rewrite !run_call_bind. simpl negb. simpl andb. cbv iota.
  change (fst (mock.handler repository.TimeNow
                 (mockAt (fst (h repository.TimeNow w)))))
    with (fst (h repository.TimeNow w)).
  cbv zeta.
  destruct (time.Before expiryDate _); reflexivity.
Qed.

(** What an accepted candidate becomes. *)
Lemma verdictAt_Ok :
  forall (now : time.Time) (req : request.CreateVoucherRequest)
         (v : entity.Voucher),
    verdictAt now req = Ok v ->
    codeOK (request.VoucherCode req)
    /\ ~ outOfRange (request.DiscountPercent req)
    /\ exists expiryDate,
         time.Parse_2006_01_02 (request.ExpiryDate req) = Some expiryDate
         /\ truncatedNotPast now expiryDate = true
         /\ v = entity.literal (request.VoucherCode req)
                               (request.DiscountPercent req) expiryDate.
Proof.
  intros now req v. unfold verdictAt, service.validateAndConvert.
  destruct (String.eqb (request.VoucherCode req) EmptyString) eqn:Hne;
    [discriminate | ].
  destruct (50 <? strings.len (request.VoucherCode req)) eqn:Hlen;
    [discriminate | ].
  destruct (float64.lt _ _ || float64.gt _ _) eqn:Hrange; [discriminate | ].
  destruct (time.Parse_2006_01_02 (request.ExpiryDate req)) as [expiryDate | ];
    [ | discriminate].
  rewrite run_call_bind.
  change (fst (mock.handler repository.TimeNow (mockAt now))) with now.
  cbv zeta. unfold truncatedNotPast.
  destruct (time.Before expiryDate _) eqn:Ebefore; [discriminate | ].
  intros Hv. inversion Hv. split; [ | split].
  - split; [apply String.eqb_neq; exact Hne | apply Z.ltb_ge; exact Hlen].
  - apply orb_false_elim in Hrange. destruct Hrange as [Hlow Hhigh].
    intros [Hlt | Hgt]; congruence.
  - exists expiryDate. rewrite Ebefore. auto.
Qed.

Lemma len_cons : forall (A : Type) (a : A) (l : list A), len (a :: l) = len l + 1.
Proof. intros. unfold len. simpl List.length. lia. Qed.

Lemma len_app :
  forall (A : Type) (l1 l2 : list A), len (l1 ++ l2) = len l1 + len l2.
Proof. intros. unfold len. rewrite List.length_app. lia. Qed.

Lemma len_nil : forall A : Type, len (@nil A) = 0.
Proof. reflexivity. Qed.

Lemma len_nonneg : forall (A : Type) (l : list A), 0 <= len l.
Proof. intros. unfold len. lia. Qed.

(** The outcomes partition the batch. *)
Lemma outcomes_partition :
  forall (W : Type) (h : Handler W) (isDup : string -> bool)
         (batch : list request.CreateVoucherRequest) (w : W),
    len (outcomes h isDup batch w) = len batch
    /\ len (filter isDuplicate (outcomes h isDup batch w))
       = len (filter (fun req => isDup (request.VoucherCode req)) batch)
    /\ len (filter isDuplicate (outcomes h isDup batch w))
       + len (filter isInvalid (outcomes h isDup batch w))
       + len (filter isValid (outcomes h isDup batch w))
       = len batch.
Proof.
  intros W h isDup batch. induction batch as [| req rest IH]; intros w.
  - repeat split; reflexivity.
  - cbn [outcomes filter]. destruct (isDup (request.VoucherCode req)).
    + destruct (IH w) as [H1 [H2 H3]].
      cbn [filter isDuplicate isInvalid isValid]. rewrite !len_cons. lia.
    + destruct (IH (final (run h (service.validateAndConvert req) w)))
        as [H1 [H2 H3]].
      destruct (isOk _); cbn [filter isDuplicate isInvalid isValid];
        rewrite !len_cons; lia.
Qed.


(** The accumulators of the loop against the outcomes of its candidates. *)
Lemma filterValid_outcomes :
  forall (W : Type) (h : Handler W) (duplicateMap : stringSet.t)
         (batch : list request.CreateVoucherRequest)
         (result0 : domainService.BatchImportResult)
         (validVouchers : list entity.Voucher) (w : W)
         (result1 : domainService.BatchImportResult)
         (valid1 : list entity.Voucher) (w1 : W) (tr : list Event),
    run h (service.filterValid duplicateMap batch result0 validVouchers) w
    = (result1, valid1, w1, tr) ->
    domainService.TotalReceived result1 = domainService.TotalReceived result0
    /\ domainService.Inserted result1 = domainService.Inserted result0
    /\ domainService.Duplicates result1
       = domainService.Duplicates result0
         + len (filter isDuplicate
                       (outcomes h (stringSet.get duplicateMap) batch w))
    /\ domainService.DuplicateCodes result1
       = domainService.DuplicateCodes result0
         ++ map request.VoucherCode
              (filter (fun req => stringSet.get duplicateMap
                                    (request.VoucherCode req)) batch)
    /\ len (domainService.BatchErrors result1)
       = len (domainService.BatchErrors result0)
         + len (filter isInvalid
                       (outcomes h (stringSet.get duplicateMap) batch w))
    /\ len valid1
       = len validVouchers
         + len (filter isValid
                       (outcomes h (stringSet.get duplicateMap) batch w)).
Proof.
  intros W h duplicateMap batch.
  induction batch as [| req rest IH];
    intros result0 validVouchers w result1 valid1 w1 tr Hrun.
  - cbn [service.filterValid run] in Hrun. inversion Hrun. subst.
    cbn [outcomes filter map]. rewrite app_nil_r, !len_nil.
    repeat split; lia.
  - cbn [service.filterValid] in Hrun. cbn [outcomes filter].
    destruct (stringSet.get duplicateMap (request.VoucherCode req)).
    + apply IH in Hrun.
      cbn [domainService.TotalReceived domainService.Inserted
           domainService.Duplicates domainService.DuplicateCodes
           domainService.BatchErrors] in Hrun.
      destruct Hrun as [H1 [H2 [H3 [H4 [H5 H6]]]]].
      cbn [filter isDuplicate isInvalid isValid map]. rewrite len_cons.
      rewrite H4, <- app_assoc. cbn [app].
      repeat split; try assumption; lia.
    + rewrite run_bind in Hrun.
      destruct (run h (service.validateAndConvert req) w)
        as [[converted w0] t0].
      unfold value, final. cbn [fst snd].
      destruct converted as [voucher | err].
      * destruct (run h (service.filterValid duplicateMap rest result0
                           (validVouchers ++ [voucher])) w0)
          as [[[r2 v2] w2] t2] eqn:Erest.
        inversion Hrun. subst. apply IH in Erest.
        destruct Erest as [H1 [H2 [H3 [H4 [H5 H6]]]]].
        cbn [isOk filter isDuplicate isInvalid isValid]. rewrite len_cons.
        rewrite len_app, len_cons, len_nil in H6.
        repeat split; try assumption; lia.
      * destruct (run h (service.filterValid duplicateMap rest _ validVouchers)
                      w0)
          as [[[r2 v2] w2] t2] eqn:Erest.
        inversion Hrun. subst. apply IH in Erest.
        cbn [domainService.TotalReceived domainService.Inserted
             domainService.Duplicates domainService.DuplicateCodes
             domainService.BatchErrors] in Erest.
        destruct Erest as [H1 [H2 [H3 [H4 [H5 H6]]]]].
        cbn [isOk filter isDuplicate isInvalid isValid]. rewrite len_cons.
        rewrite len_app, len_cons, len_nil in H5.
        repeat split; try assumption; lia.
Qed.

(* ================================================================== *)
(** * The batch against the table *)








(* ================================================================== *)
(** * Candidates that share a code *)

Lemma clockReadings_app :
  forall t1 t2 : list Event,
    clockReadings (t1 ++ t2) = clockReadings t1 ++ clockReadings t2.
Proof.
  induction t1 as [| ev t1 IH]; intros t2; cbn [app clockReadings].
  - reflexivity.
  - rewrite IH. destruct (clockReading ev); reflexivity.
Qed.

(** Candidates under a code that the lookup map does not hold, and that
    pass validation at the readings of the clock, all reach the slice of
    valid vouchers. *)
Lemma filterValid_keeps :
  forall (k : string) (duplicateMap : stringSet.t)
         (batch : list request.CreateVoucherRequest),
    stringSet.get duplicateMap k = false ->
    forall (W : Type) (h : Handler W)
           (result0 : domainService.BatchImportResult)
           (validVouchers : list entity.Voucher) (w : W)
           (result1 : domainService.BatchImportResult)
           (valid1 : list entity.Voucher) (w1 : W) (tr : list Event),
      run h (service.filterValid duplicateMap batch result0 validVouchers) w
      = (result1, valid1, w1, tr) ->
      (forall req, In req batch -> codeIs k req = true ->
                   passesValidation (clockReadings tr) req) ->
      len (filter (store.hasCode k) valid1)
      = len (filter (store.hasCode k) validVouchers)
        + len (filter (codeIs k) batch).
Proof.
  intros k duplicateMap batch Hfree W h.
  induction batch as [| req rest IH];
    intros result0 validVouchers w result1 valid1 w1 tr Hrun Hvalid.
  - cbn [service.filterValid run] in Hrun. inversion Hrun. subst.
    cbn [filter]. rewrite len_nil. lia.
  - cbn [service.filterValid] in Hrun. cbn [filter].
    destruct (stringSet.get duplicateMap (request.VoucherCode req)) eqn:Hdup.
    + assert (codeIs k req = false) as Hother.
      { unfold codeIs. apply String.eqb_neq. intros Heq.
        rewrite Heq in Hdup. congruence. }
      rewrite Hother. eapply IH; [exact Hrun | ].
      intros req0 Hin Hk. apply Hvalid; [right | ]; assumption.
    + rewrite run_bind, validateAndConvert_run in Hrun.
      destruct (verdictAt (fst (h repository.TimeNow w)) req)
        as [voucher | err] eqn:Everdict.
      * apply verdictAt_Ok in Everdict.
        destruct Everdict as [_ [_ [expiryDate [_ [_ Hvoucher]]]]].
        destruct (run h (service.filterValid duplicateMap rest result0
                           (validVouchers ++ [voucher])) _)
          as [[[r2 v2] w2] t2] eqn:Erest.
        inversion Hrun. subst r2 v2 w2 tr.
        assert (len (filter (store.hasCode k) valid1)
                = len (filter (store.hasCode k) (validVouchers ++ [voucher]))
                  + len (filter (codeIs k) rest)) as Hcount.
        { eapply IH; [exact Erest | ].
          intros req0 Hin Hk.
          destruct (Hvalid req0 (or_intror Hin) Hk) as [Hreads Hat].
          split; [exact Hreads | ].
          intros now Hnow. apply Hat. rewrite clockReadings_app.
          apply in_or_app. right. exact Hnow. }
        rewrite Hcount, filter_app, len_app. cbn [filter].
        assert (store.hasCode k voucher = codeIs k req) as Hsame
          by (subst voucher; reflexivity).
        rewrite Hsame. destruct (codeIs k req);
          rewrite ?len_cons, ?len_nil; lia.
      * destruct (run h (service.filterValid duplicateMap rest _ validVouchers)
                      _)
          as [[[r2 v2] w2] t2] eqn:Erest.
        inversion Hrun. subst r2 v2 w2 tr.
        assert (codeIs k req = false) as Hother.
        { destruct (codeIs k req) eqn:Hk; [ | reflexivity].
          destruct (Hvalid req (or_introl eq_refl) Hk) as [Hreads Hat].
          rewrite Hreads in Hat.
          specialize (Hat (fst (h repository.TimeNow w))
                          (or_introl eq_refl)).
          rewrite Everdict in Hat. discriminate. }
        rewrite Hother. eapply IH; [exact Erest | ].
        intros req0 Hin Hk.
        destruct (Hvalid req0 (or_intror Hin) Hk) as [Hreads Hat].
        split; [exact Hreads | ].
        intros now Hnow. apply Hat. rewrite clockReadings_app.
        apply in_or_app. right. exact Hnow.
Qed.

(** The rows of one INSERT keep their codes, so a code already in the
    table cannot come again. *)
Lemma insertRow_code :
  forall (t : time.Time) (rs : list entity.Voucher) (next : N)
         (v : entity.Voucher) (rs' : list entity.Voucher) (next' : N)
         (v' : entity.Voucher),
    store.insertRow t rs next v = Some (rs', next', v') ->
    rs' = rs ++ [v']
    /\ entity.VoucherCode v' = entity.VoucherCode v
    /\ existsb (store.hasCode (entity.VoucherCode v)) rs = false.
Proof.
  intros t rs next v rs' next' v'. unfold store.insertRow.
  destruct ((entity.ID (store.stamp t v) =? 0)%N).
  - cbn [entity.VoucherCode store.withID store.stamp entity.ID].
    destruct (store.checkRow _ && negb (existsb _ rs) && _) eqn:Hcheck;
      [ | discriminate].
    intros H. inversion H. subst.
    apply andb_prop in Hcheck. destruct Hcheck as [Hcheck _].
    apply andb_prop in Hcheck. destruct Hcheck as [_ Hcode].
    apply negb_true_iff in Hcode. auto.
  - cbn [entity.VoucherCode store.stamp].
    destruct (store.checkRow _ && negb (existsb _ rs) && _) eqn:Hcheck;
      [ | discriminate].
    intros H. inversion H. subst.
    apply andb_prop in Hcheck. destruct Hcheck as [Hcheck _].
    apply andb_prop in Hcheck. destruct Hcheck as [_ Hcode].
    apply negb_true_iff in Hcode. auto.
Qed.

Lemma insertRows_held_code :
  forall (t : time.Time) (k : string) (vs : list entity.Voucher)
         (rs : list entity.Voucher) (next : N)
         (rs' : list entity.Voucher) (next' : N),
    store.insertRows t rs next vs = Some (rs', next') ->
    existsb (store.hasCode k) rs = true ->
    filter (store.hasCode k) vs = [].
Proof.
  intros t k vs. induction vs as [| v rest IH];
    intros rs next rs' next' Hins Hheld.
  - reflexivity.
  - cbn [store.insertRows] in Hins.
    destruct (store.insertRow t rs next v) as [[[rs1 next1] v1] | ] eqn:Erow;
      [ | discriminate].
    apply insertRow_code in Erow. destruct Erow as [Hrs [Hcode Hnew]].
    cbn [filter]. destruct (store.hasCode k v) eqn:Hk.
    + unfold store.hasCode in Hk. apply String.eqb_eq in Hk.
      rewrite Hk in Hnew. congruence.
    + apply (IH rs1 next1 rs' next' Hins).
      subst rs1. rewrite existsb_app, Hheld. reflexivity.
Qed.

(** One INSERT never brings the same code twice. *)
Lemma insertRows_distinct_codes :
  forall (t : time.Time) (k : string) (vs : list entity.Voucher)
         (rs : list entity.Voucher) (next : N)
         (rs' : list entity.Voucher) (next' : N),
    store.insertRows t rs next vs = Some (rs', next') ->
    len (filter (store.hasCode k) vs) <= 1.
Proof.
  intros t k vs. induction vs as [| v rest IH];
    intros rs next rs' next' Hins.
  - cbn [filter]. rewrite len_nil. lia.
  - cbn [store.insertRows] in Hins.
    destruct (store.insertRow t rs next v) as [[[rs1 next1] v1] | ] eqn:Erow;
      [ | discriminate].
    apply insertRow_code in Erow. destruct Erow as [Hrs [Hcode Hnew]].
    cbn [filter]. destruct (store.hasCode k v) eqn:Hk.
    + rewrite (insertRows_held_code t k rest rs1 next1 rs' next' Hins).
      * rewrite len_cons, len_nil. lia.
      * subst rs1. rewrite existsb_app. cbn [existsb].
        unfold store.hasCode in *. rewrite Hcode, Hk.
        rewrite orb_true_r. reflexivity.
    + apply (IH rs1 next1 rs' next' Hins).
Qed.

Lemma clock_not_bulk_filter :
  forall c, isTimeNow c = true -> isBulkCreate c = false.
Proof. intros c. destruct c; simpl; intros H; try discriminate; reflexivity. Qed.

Lemma len_filter_le :
  forall (A : Type) (f : A -> bool) (l : list A), len (filter f l) <= len l.
Proof.
  intros A f l. unfold len. pose proof (List.filter_length_le f l). lia.
Qed.

(** C10: two or more candidates under one code that storage does not
    report, each passing validation, are none of them counted or listed
    as duplicates, and all of them are in the one bulk insert that
    ImportBatch issues; the table refuses such an insert as a whole. *)
Theorem C10_intra_batch_duplicates_undetected :
  forall (W : Type) (h : Handler W) (w : W)
         (batch : list request.CreateVoucherRequest) (k : string)
         (existingCodes : list string),
    fst (h (repository.CheckDuplicateCodes (map request.VoucherCode batch)) w)
    = Ok existingCodes ->
    ~ In k existingCodes ->
    (forall req, In req batch -> codeIs k req = true ->
                 passesValidation
                   (clockReadings
                      (trace (run h (service.ImportBatch batch) w))) req) ->
    2 <= len (filter (codeIs k) batch) ->
    (exists vs,
        filter isBulkCreate
               (calls (trace (run h (service.ImportBatch batch) w)))
        = [repository.BulkCreate vs]
        /\ len (filter (store.hasCode k) vs) = len (filter (codeIs k) batch))
    /\ (forall report,
          value (run h (service.ImportBatch batch) w) = Ok report ->
          ~ In k (domainService.DuplicateCodes report)
          /\ domainService.Duplicates report
             = len (filter (fun req => existsb (String.eqb (request.VoucherCode req))
                                               existingCodes) batch))
    /\ (forall (table : store.World) (vs : list entity.Voucher),
          2 <= len (filter (store.hasCode k) vs) ->
          fst (store.BulkCreate vs table) = Err store.violation).
Proof.
  intros W h w batch k existingCodes Hcheck Hfree Hvalid Htwo.
  assert (stringSet.get (service.duplicateMapOf existingCodes) k = false)
    as Hmap.
  { rewrite duplicateMapOf_get. apply not_true_is_false. intros Hex.
    apply existsb_exists in Hex. destruct Hex as [c [Hc Heq]].
    apply String.eqb_eq in Heq. subst c. contradiction. }
  assert (forall (table : store.World) (vs : list entity.Voucher),
             2 <= len (filter (store.hasCode k) vs) ->
             fst (store.BulkCreate vs table) = Err store.violation) as Hstore.
  { intros table vs Hvs. unfold store.BulkCreate.
    destruct vs as [| v vs]; [cbn [filter] in Hvs; rewrite len_nil in Hvs; lia | ].
    destruct (store.insertRows _ _ _ (v :: vs)) as [[rs next] | ] eqn:Eins;
      [ | reflexivity].
    apply (insertRows_distinct_codes _ k) in Eins. lia. }
  revert Hvalid.
  unfold service.ImportBatch. rewrite run_call_bind, Hcheck, run_bind.
  pose proof (filterValid_calls (service.duplicateMapOf existingCodes) batch
                {| domainService.TotalReceived := len batch;
                   domainService.Inserted := 0;
                   domainService.Duplicates := 0;
                   domainService.DuplicateCodes := [];
                   domainService.BatchErrors := [] |} [] W h
                (snd (h (repository.CheckDuplicateCodes
                           (map request.VoucherCode batch)) w))) as Hcalls.
  pose proof (outcomes_partition W h
                (stringSet.get (service.duplicateMapOf existingCodes)) batch
                (snd (h (repository.CheckDuplicateCodes
                           (map request.VoucherCode batch)) w)))
    as [_ [Hcount _]].
  destruct (run h (service.filterValid _ batch _ []) _)
    as [[[result1 validVouchers] w1] t1] eqn:Eloop.
  unfold trace in Hcalls. cbn [snd] in Hcalls.
  intros Hvalid.
  assert (len (filter (store.hasCode k) validVouchers)
          = len (filter (store.hasCode k) (@nil entity.Voucher))
            + len (filter (codeIs k) batch)) as Hkept.
  { eapply (filterValid_keeps k _ batch Hmap W h); [exact Eloop | ].
    intros req Hin Hk. destruct (Hvalid req Hin Hk) as [Hreads Hat].
    split; [exact Hreads | ].
    intros now Hnow. apply Hat.
    destruct (0 <? len validVouchers).
    - rewrite run_call_bind.
      destruct (h (repository.BulkCreate validVouchers) w1) as [created w2].
      cbn [fst snd].
      destruct created as [[] | err]; unfold trace; cbn [run snd clockReadings
        clockReading]; rewrite clockReadings_app; apply in_or_app; left;
        exact Hnow.
    - unfold trace. cbn [run snd clockReadings clockReading].
      rewrite app_nil_r. exact Hnow. }
  clear Hvalid.
  cbn [filter] in Hkept. rewrite len_nil in Hkept.
  apply filterValid_outcomes in Eloop.
  cbn [domainService.TotalReceived domainService.Inserted
       domainService.Duplicates domainService.DuplicateCodes
       domainService.BatchErrors] in Eloop.
  destruct Eloop as [_ [_ [Hdup [Hcodes _]]]].
  rewrite Hcount in Hdup. cbn [app] in Hcodes.
  assert (~ In k (domainService.DuplicateCodes result1)) as Hnot.
  { rewrite Hcodes. intros Hin. apply in_map_iff in Hin.
    destruct Hin as [req [Hcode Hreq]]. apply filter_In in Hreq.
    destruct Hreq as [_ Hget]. rewrite Hcode in Hget. congruence. }
  assert (domainService.Duplicates result1
          = len (filter (fun req => existsb (String.eqb (request.VoucherCode req))
                                            existingCodes) batch)) as Hdups.
  { rewrite Hdup.
    rewrite (filter_ext _ (fun req => existsb (String.eqb (request.VoucherCode req))
                                              existingCodes)); [lia | ].
    intros req. apply duplicateMapOf_get. }
  pose proof (len_filter_le _ (store.hasCode k) validVouchers) as Hle.
  assert ((0 <? len validVouchers) = true) as Hsome by (apply Z.ltb_lt; lia).
  rewrite Hsome, run_call_bind.
  destruct (h (repository.BulkCreate validVouchers) w1) as [created w2].
  cbn [fst snd].
  split; [ | split; [ | exact Hstore]].
  - exists validVouchers. split; [ | lia].
    destruct created as [[] | err]; unfold trace; cbn [run snd];
      unfold calls; cbn [map evCall filter isBulkCreate];
      rewrite map_app, filter_app;
      fold (calls t1);
      rewrite (filter_none _ isTimeNow isBulkCreate (calls t1) Hcalls
                 clock_not_bulk_filter);
      reflexivity.
  - intros report.
    destruct created as [[] | err]; unfold value; cbn [run fst];
      intros Hreport; inversion Hreport; subst report.
    cbn [domainService.DuplicateCodes domainService.Duplicates].
    split; assumption.
Qed.

Lemma C10_intra_batch_duplicates_witness :
  (exists vs,
      filter isBulkCreate
             (calls (trace (run store.handler (service.ImportBatch twinBatch)
                                sample.emptyTable)))
      = [repository.BulkCreate vs]
      /\ len (filter (store.hasCode "TWIN") vs) = 2)
  /\ value (run store.handler (service.ImportBatch twinBatch) sample.emptyTable)
     = Err store.violation.
Proof.
  split; [ | vm_compute; reflexivity].
  destruct (C10_intra_batch_duplicates_undetected
              store.World store.handler sample.emptyTable twinBatch "TWIN" [])
    as [Hbulk _].
  - reflexivity.
  - intros [].
  - intros req Hin _. split.
    + destruct Hin as [<- | [<- | []]]; vm_compute; reflexivity.
    + intros now Hnow. vm_compute in Hnow.
      destruct Hnow as [<- | [<- | []]];
        destruct Hin as [<- | [<- | []]]; vm_compute; reflexivity.
  - vm_compute. discriminate.
  - exact Hbulk.
Defined.


(* ================================================================== *)
(** * The loop of ImportVouchers *)

(** Every data row ends in exactly one of the two accumulators, its
    error carrying its row number. *)
Lemma importRows_counts :
  forall (ParseFloat : string -> option spec_float) (W : Type) (h : Handler W)
         (rows : list (list string)) (i : Z)
         (result0 : domainService.ImportResult)
         (vouchers : list entity.Voucher) (w : W)
         (result1 : domainService.ImportResult)
         (vouchers1 : list entity.Voucher) (w1 : W) (tr : list Event),
    run h (service.importRows ParseFloat rows i result0 vouchers) w
    = (result1, vouchers1, w1, tr) ->
    domainService.TotalRows result1 = domainService.TotalRows result0
    /\ domainService.Success result1 = domainService.Success result0
    /\ domainService.Failed result1 + len vouchers1
       = domainService.Failed result0 + len vouchers + len rows
    /\ len (domainService.Errors result1) - len (domainService.Errors result0)
       = domainService.Failed result1 - domainService.Failed result0
    /\ exists added,
         domainService.Errors result1 = domainService.Errors result0 ++ added
         /\ Forall (fun e => i + 2 <= domainService.Row e < i + 2 + len rows)
                   added.
Proof.
  intros ParseFloat W h rows.
  induction rows as [| record rest IH];
    intros i result0 vouchers w result1 vouchers1 w1 tr Hrun.
  - cbn [service.importRows run] in Hrun. inversion Hrun. subst.
    rewrite len_nil. repeat split; try lia.
    exists []. rewrite app_nil_r. split; [reflexivity | constructor].
  - cbn [service.importRows] in Hrun. rewrite run_bind in Hrun.
    destruct (run h (service.parseCSVRow ParseFloat record (i + 2)) w)
      as [[parsed w0] t0].
    rewrite len_cons.
    destruct parsed as [voucher | err].
    + destruct (run h (service.importRows ParseFloat rest (i + 1) result0
                         (vouchers ++ [voucher])) w0)
        as [[[r2 v2] w2] t2] eqn:Erest.
      inversion Hrun. subst. apply IH in Erest.
      destruct Erest as [H1 [H2 [H3 [H4 [added [H5 H6]]]]]].
      rewrite len_app, len_cons, len_nil in H3.
      repeat split; try assumption; try lia.
      exists added. split; [exact H5 | ].
      eapply Forall_impl; [ | exact H6]. cbv beta. intros e He.
      pose proof (len_nonneg _ rest). lia.
    + destruct (run h (service.importRows ParseFloat rest (i + 1) _ vouchers) w0)
        as [[[r2 v2] w2] t2] eqn:Erest.
      inversion Hrun. subst. apply IH in Erest.
      cbn [domainService.TotalRows domainService.Success domainService.Failed
           domainService.Errors] in Erest.
      destruct Erest as [H1 [H2 [H3 [H4 [added [H5 H6]]]]]].
      rewrite len_app, len_cons, len_nil in H4.
      repeat split; try assumption; try lia.
      exists ({| domainService.Row := i + 2;
                 domainService.Error := errors.Error err |} :: added).
      split; [rewrite H5, <- app_assoc; reflexivity | ].
      pose proof (len_nonneg _ rest).
      constructor; [cbn [domainService.Row]; lia | ].
      eapply Forall_impl; [ | exact H6]. cbv beta. intros e He. lia.
Qed.

(** A report of ImportVouchers accounts for every data row. *)
Lemma ImportVouchers_counts :
  forall (ParseFloat : string -> option spec_float) (W : Type) (h : Handler W)
         (w : W) (records : list (list string))
         (report : domainService.ImportResult),
    value (run h (service.ImportVouchers ParseFloat (Ok records)) w) = Ok report ->
    domainService.TotalRows report = len records - 1
    /\ domainService.Success report + domainService.Failed report
       = domainService.TotalRows report
    /\ len (domainService.Errors report) = domainService.Failed report
    /\ Forall (fun e => 2 <= domainService.Row e <= len records)
              (domainService.Errors report).
Proof.
  intros ParseFloat W h w records report.
  unfold service.ImportVouchers.
  destruct (len records <? 2) eqn:Hshort; [discriminate | ].
  rewrite run_bind.
  destruct (run h (service.importRows ParseFloat (tl records) 0 _ []) w)
    as [[[result1 vouchers] w1] t1] eqn:Eloop.
  apply importRows_counts in Eloop.
  cbn [domainService.TotalRows domainService.Success domainService.Failed
       domainService.Errors] in Eloop.
  rewrite !len_nil in Eloop. cbn [app] in Eloop.
  destruct Eloop as [H1 [H2 [H3 [H4 [added [H5 H6]]]]]].
  assert (len (tl records) = len records - 1) as Htl.
  { destruct records; [discriminate | ]. cbn [tl]. rewrite len_cons. lia. }
  rewrite Htl in *.
  assert (Forall (fun e => 2 <= domainService.Row e <= len records)
                 (domainService.Errors result1)) as Hrows.
  { rewrite H5. eapply Forall_impl; [ | exact H6]. cbv beta. intros e He. lia. }
  pose proof (len_nonneg _ vouchers) as Hnn.
  destruct (0 <? len vouchers) eqn:Hsome.
  - rewrite run_call_bind.
    destruct (h (repository.BulkCreate vouchers) w1) as [created w2].
    cbn [fst snd].
    destruct created as [[] | err]; unfold value; cbn [run fst];
      intros Hreport; inversion Hreport; subst report.
    cbn [domainService.TotalRows domainService.Success domainService.Failed
         domainService.Errors].
    repeat split; try assumption; lia.
  - unfold value. cbn [run fst]. intros Hreport. inversion Hreport.
    subst report. apply Z.ltb_ge in Hsome.
    repeat split; try assumption; lia.
Qed.

(* ================================================================== *)
(** * The import scenario *)

Lemma store_FindByVoucherCode_absent :
  forall (k : string) (w : store.World),
    existsb (store.hasCode k) (store.rows w) = false ->
    store.FindByVoucherCode k w = Ok None.
Proof.
  intros k w Habsent. unfold store.FindByVoucherCode. f_equal.
  destruct (find _ (store.rows w)) as [v | ] eqn:Efind; [ | reflexivity].
  apply find_some in Efind. destruct Efind as [Hin Hb].
  apply andb_prop in Hb. destruct Hb as [_ Hcode].
  assert (existsb (store.hasCode k) (store.rows w) = true) as Hex
    by (apply existsb_exists; exists v; auto).
  congruence.
Qed.

(** A date at midnight UTC is not before the truncated clock as long as
    the clock has not passed the end of that UTC day. *)
Lemma Truncate_day_not_past :
  forall now expiryDate : time.Time,
    (time.unixNano expiryDate + time.unixToInternal * time.Second)
      mod (24 * time.Hour) = 0 ->
    time.unixNano now < time.unixNano expiryDate + 24 * time.Hour ->
    time.Before expiryDate (time.Truncate now (24 * time.Hour)) = false.
Proof.
  intros now expiryDate. unfold time.Before, time.Truncate.
  change (24 * time.Hour) with 86400000000000.
  change (time.unixToInternal * time.Second) with 62135596800000000000.
  cbn [Z.leb Z.compare time.unixNano]. intros Haligned Hnow.
  apply Z.ltb_ge.
  pose proof (Z.div_mod (time.unixNano now + 62135596800000000000)
                        86400000000000 ltac:(lia)) as Hdiv.
  pose proof (Z.mod_pos_bound (time.unixNano now + 62135596800000000000)
                              86400000000000 ltac:(lia)) as Hbound.
  pose proof (Z.div_mod (time.unixNano expiryDate + 62135596800000000000)
                        86400000000000 ltac:(lia)) as Hdiv'.
  rewrite Haligned in Hdiv'. lia.
Qed.

Lemma scenario_first_row :
  forall (ParseFloat : string -> option spec_float) (w : store.World) (rowNum : Z),
    ParseFloat "10.00" = Some (float64.ofZ 10) ->
    existsb (store.hasCode "DISC10") (store.rows w) = false ->
    time.unixNano (store.now w) < time.unixNano (time.Date 2099 1 2 time.UTC) ->
    run store.handler
        (service.parseCSVRow ParseFloat ["DISC10"; "10.00"; "2099-01-01"] rowNum) w
    = (Ok (entity.literal "DISC10" (float64.ofZ 10) sample.day2099),
       store.tick w,
       [ {| evCall := repository.FindByVoucherCode "DISC10";
            evResp := Ok None |};
         {| evCall := repository.TimeNow; evResp := store.now w |} ]).
Proof.
  intros ParseFloat w rowNum Hparse Habsent Hclock.
  unfold service.parseCSVRow.
  change (len ["DISC10"; "10.00"; "2099-01-01"] <? 3) with false. cbv iota.
  cbn [nth].
  change (strings.TrimSpace "DISC10") with "DISC10".
  change (strings.TrimSpace "10.00") with "10.00".
  change (strings.TrimSpace "2099-01-01") with "2099-01-01".
  change ("DISC10" =? "")%string with false.
  change (50 <? strings.len "DISC10") with false. cbv iota.
  rewrite run_call_bind. cbn [store.handler fst snd].
  rewrite (store_FindByVoucherCode_absent _ _ Habsent).
  cbn [service.exceptNotFound]. rewrite Hparse.
  change (float64.lt (float64.ofZ 10) (float64.ofZ 1)
          || float64.gt (float64.ofZ 10) (float64.ofZ 100)) with false.
  cbv iota.
  change (time.Parse_2006_01_02 "2099-01-01") with (Some sample.day2099).
  cbv iota.
  rewrite run_call_bind. cbn [store.handler fst snd]. cbv zeta.
  rewrite Truncate_day_not_past.
  - reflexivity.
  - reflexivity.
  - exact Hclock.
Qed.

Lemma scenario_second_row :
  forall (ParseFloat : string -> option spec_float) (W : Type) (h : Handler W)
         (w : W) (rowNum : Z),
    run h (service.parseCSVRow ParseFloat [""; "20"; "2099-01-01"] rowNum) w
    = (Err (errors.New "voucher code is required"), w, []).
Proof. reflexivity. Qed.

Lemma scenario_third_row :
  forall (ParseFloat : string -> option spec_float) (w : store.World) (rowNum : Z),
    ParseFloat "200" = Some (float64.ofZ 200) ->
    existsb (store.hasCode "BAD") (store.rows w) = false ->
    run store.handler
        (service.parseCSVRow ParseFloat ["BAD"; "200"; "2099-01-01"] rowNum) w
    = (Err (errors.New "discount percent 200.00 out of range (must be 1-100)"),
       w,
       [ {| evCall := repository.FindByVoucherCode "BAD";
            evResp := Ok None |} ]).
Proof.
  intros ParseFloat w rowNum Hparse Habsent.
  unfold service.parseCSVRow.
  change (len ["BAD"; "200"; "2099-01-01"] <? 3) with false. cbv iota.
  cbn [nth].
  change (strings.TrimSpace "BAD") with "BAD".
  change (strings.TrimSpace "200") with "200".
  change ("BAD" =? "")%string with false.
  change (50 <? strings.len "BAD") with false. cbv iota.
  rewrite run_call_bind. cbn [store.handler fst snd].
  rewrite (store_FindByVoucherCode_absent _ _ Habsent).
  cbn [service.exceptNotFound]. rewrite Hparse.
  change (float64.lt (float64.ofZ 200) (float64.ofZ 1)
          || float64.gt (float64.ofZ 200) (float64.ofZ 100)) with true.
  cbv iota.
  change (float64.Sprintf_2f (float64.ofZ 200)) with "200.00".
  reflexivity.
Qed.

(** The INSERT of one new voucher with a fresh code: the row is stored
    under the next id with the time stamps of the insert. *)
Lemma insertRow_fresh :
  forall (t : time.Time) (rs : list entity.Voucher) (next : N)
         (v : entity.Voucher),
    entity.ID v = 0%N ->
    store.checkRow v = true ->
    existsb (store.hasCode (entity.VoucherCode v)) rs = false ->
    existsb (store.hasID next) rs = false ->
    store.insertRow t rs next v
    = Some (rs ++ [store.withID next (store.stamp t v)], N.succ next,
            store.withID next (store.stamp t v)).
Proof.
  intros t rs next v Hid Hcheck Hcode Hfresh. unfold store.insertRow.
  change (entity.ID (store.stamp t v)) with (entity.ID v).
  rewrite Hid. change (0 =? 0)%N with true. cbv iota beta.
  change (store.checkRow (store.withID next (store.stamp t v)))
    with (store.checkRow v).
  change (entity.VoucherCode (store.withID next (store.stamp t v)))
    with (entity.VoucherCode v).
  change (entity.ID (store.withID next (store.stamp t v))) with next.
  rewrite Hcheck, Hcode, Hfresh. reflexivity.
Qed.

(** C4: the file with a header and the rows (DISC10, 10.00, 2099-01-01),
    (empty code, 20, 2099-01-01), (BAD, 200, 2099-01-01), imported into a
    table that holds neither code while the clock has not passed 1
    January 2099 (UTC), is answered by the report: 3 rows, 1 success, 2
    failures, an error for row 3 (the code is required) and one for row 4
    (the discount is out of range); the table gains the voucher DISC10.
    And in every report of ImportVouchers each data row is counted once,
    as a success or as a failure with its row number: a failing row does
    not stop the rows after it. *)
Theorem C4_csv_scenario :
  forall (ParseFloat : string -> option spec_float) (w : store.World)
         (header : list string),
    ParseFloat "10.00" = Some (float64.ofZ 10) ->
    ParseFloat "200" = Some (float64.ofZ 200) ->
    existsb (store.hasCode "DISC10") (store.rows w) = false ->
    existsb (store.hasCode "BAD") (store.rows w) = false ->
    existsb (store.hasID (store.nextID w)) (store.rows w) = false ->
    time.unixNano (store.now w) < time.unixNano (time.Date 2099 1 2 time.UTC) ->
    (value (run store.handler
                (service.ImportVouchers ParseFloat (Ok (header :: scenarioRows)))
                w)
     = Ok scenarioReport
     /\ map entity.VoucherCode
            (store.rows
               (final (run store.handler
                           (service.ImportVouchers ParseFloat
                              (Ok (header :: scenarioRows))) w)))
        = map entity.VoucherCode (store.rows w) ++ ["DISC10"])
    /\ (forall (W : Type) (h : Handler W) (w' : W)
               (records : list (list string))
               (report : domainService.ImportResult),
          value (run h (service.ImportVouchers ParseFloat (Ok records)) w')
          = Ok report ->
          domainService.TotalRows report = len records - 1
          /\ domainService.Success report + domainService.Failed report
             = domainService.TotalRows report
          /\ len (domainService.Errors report) = domainService.Failed report
          /\ Forall (fun e => 2 <= domainService.Row e <= len records)
                    (domainService.Errors report)).
Proof.
  intros ParseFloat w header Hten Htwo Hdisc Hbad Hfresh Hclock.
  split; [ | intros W h w' records report; apply ImportVouchers_counts].
  unfold service.ImportVouchers.
  change (len (header :: scenarioRows) <? 2) with false. cbv iota.
  cbn [tl]. unfold scenarioRows. cbn [service.importRows].
  rewrite !run_bind.
  rewrite (scenario_first_row ParseFloat w _ Hten Hdisc Hclock). cbv iota beta.
  rewrite !run_bind, scenario_second_row. cbv iota beta.
  rewrite !run_bind, (scenario_third_row ParseFloat (store.tick w) _ Htwo Hbad).
  cbv iota beta. cbn [run app].
  change (0 <? len [entity.literal "DISC10" (float64.ofZ 10) sample.day2099])
    with true.
  cbv iota. rewrite run_call_bind. cbn [store.handler fst snd].
  unfold store.BulkCreate. cbn [store.insertRows].
  cbn [store.tick store.rows store.nextID].
  rewrite insertRow_fresh;
    [ | reflexivity | reflexivity | exact Hdisc | exact Hfresh ].
  unfold value, final. cbn [run fst snd store.tick store.withRows store.rows].
  split; [reflexivity | ].
  rewrite map_app. reflexivity.
Qed.


Lemma C4_csv_scenario_witness :
  value (run store.handler
             (service.ImportVouchers sample.parseFloat
                (Ok (sample.header :: scenarioRows))) sample.table)
  = Ok scenarioReport.
Proof.
  apply (C4_csv_scenario sample.parseFloat sample.table sample.header);
    try reflexivity.
Defined.


(* ================================================================== *)
(** * Calendar dates

    The day number of a civil date and the civil date of a day number
    are inverse to each other on the dates of the calendar. *)

Ltac div_lia := Z.div_mod_to_equations; lia.

(** The year of the era, recovered from the day of the era. *)
Lemma yoe_recover :
  forall yoe doy : Z,
    0 <= yoe <= 399 -> 0 <= doy <= 365 ->
    (doy = 365 -> (yoe + 1) mod 4 = 0 /\ ((yoe + 1) mod 100 <> 0 \/ yoe = 399)) ->
    (yoe * 365 + yoe / 4 - yoe / 100 + doy
     - (yoe * 365 + yoe / 4 - yoe / 100 + doy) / 1460
     + (yoe * 365 + yoe / 4 - yoe / 100 + doy) / 36524
     - (yoe * 365 + yoe / 4 - yoe / 100 + doy) / 146096) / 365 = yoe.
Proof. intros. div_lia. Qed.

(** The length of a month, as facts of arithmetic. *)
Lemma daysIn_bound :
  forall m y d : Z,
    1 <= m <= 12 -> 1 <= d <= time.daysIn m y ->
    d <= 31
    /\ (m = 4 \/ m = 6 \/ m = 9 \/ m = 11 -> d <= 30)
    /\ (m = 2 -> d <= 29)
    /\ (m = 2 -> d = 29 -> y mod 4 = 0 /\ (y mod 100 <> 0 \/ y mod 400 = 0)).
Proof.
  intros m y d Hm. unfold time.daysIn, time.isLeap.
  destruct (Z.eqb_spec m 2) as [H2 | H2].
  - destruct (Z.eqb_spec (y mod 4) 0); destruct (Z.eqb_spec (y mod 100) 0);
      destruct (Z.eqb_spec (y mod 400) 0); cbn [andb orb negb]; lia.
  - destruct (Z.eqb_spec m 4); destruct (Z.eqb_spec m 6);
      destruct (Z.eqb_spec m 9); destruct (Z.eqb_spec m 11);
      cbn [orb]; lia.
Qed.

(** The civil date of the day number of a date is that date. *)
Lemma civilFromDays_daysFromCivil :
  forall y m d : Z,
    1 <= m <= 12 -> 1 <= d <= time.daysIn m y ->
    time.civilFromDays (time.daysFromCivil y m d) = (y, m, d).
Proof.
  intros y m d Hm Hd.
  destruct (daysIn_bound m y d Hm Hd) as [H31 [H30 [H29 Hleap]]].
  unfold time.civilFromDays, time.daysFromCivil. cbv zeta.
  set (y' := if m <=? 2 then y - 1 else y).
  set (era := y' / 400). set (yoe := y' - era * 400).
  set (mp := if m >? 2 then m - 3 else m + 9).
  set (doy := (153 * mp + 2) / 5 + d - 1).
  set (doe := yoe * 365 + yoe / 4 - yoe / 100 + doy).
  assert (y' = if m <=? 2 then y - 1 else y) as Hy' by reflexivity.
  assert (mp = if m >? 2 then m - 3 else m + 9) as Hmp by reflexivity.
  clearbody y' mp.
  assert (0 <= yoe <= 399) as Hyoe by (subst yoe era; div_lia).
  assert (0 <= mp <= 11 /\ (m <= 2 -> mp = m + 9 /\ y' = y - 1)
          /\ (2 < m -> mp = m - 3 /\ y' = y)) as [Hmpb [Hlow Hhigh]].
  { destruct (Z.leb_spec m 2); destruct (Z.gtb_spec m 2); lia. }
  assert (0 <= doy <= 365
          /\ (5 * doy + 2) / 153 = mp
          /\ doy - (153 * mp + 2) / 5 + 1 = d
          /\ (doy = 365 -> m = 2 /\ d = 29)) as [Hdoy [Hmonth [Hday Hlast]]].
  { subst doy.
    assert (mp = 0 \/ mp = 1 \/ mp = 2 \/ mp = 3 \/ mp = 4 \/ mp = 5 \/ mp = 6
            \/ mp = 7 \/ mp = 8 \/ mp = 9 \/ mp = 10 \/ mp = 11) as Hc by lia.
    destruct Hc as [-> | [-> | [-> | [-> | [-> | [-> | [-> | [-> | [-> | [-> | [-> | ->]]]]]]]]]]];
      div_lia. }
  assert (0 <= doe < 146097) as Hdoe by (subst doe; div_lia).
  replace (era * 146097 + doe - 719468 + 719468) with (era * 146097 + doe) by lia.
  replace ((era * 146097 + doe) / 146097) with era by div_lia.
  replace (era * 146097 + doe - era * 146097) with doe by lia.
  replace ((doe - doe / 1460 + doe / 36524 - doe / 146096) / 365) with yoe.
  2:{ symmetry. subst doe. apply yoe_recover; [exact Hyoe | exact Hdoy | ].
      intros H365. destruct (Hlast H365) as [-> ->].
      destruct (Hleap eq_refl eq_refl) as [H4 H100].
      destruct (Hlow ltac:(lia)) as [_ ->]. subst yoe era. div_lia. }
  replace (doe - (365 * yoe + yoe / 4 - yoe / 100)) with doy by (subst doe; lia).
  rewrite Hmonth, Hday.
  destruct (Z.ltb_spec mp 10) as [Hlt | Hge].
  - destruct (Z.leb_spec (mp + 3) 2); [lia | ].
    destruct (Hhigh ltac:(lia)) as [-> ->]. subst yoe era.
    repeat (f_equal; try lia).
  - destruct (Z.leb_spec (mp - 9) 2); [ | lia].
    destruct (Hlow ltac:(lia)) as [-> ->]. subst yoe era.
    repeat (f_equal; try lia).
Qed.

(** Midnight UTC of a date falls on that date. *)
Lemma civil_Date_UTC :
  forall y m d : Z,
    time.civil (time.Date y m d time.UTC)
    = time.civilFromDays (time.daysFromCivil y m d).
Proof.
  intros y m d. unfold time.civil, time.localDay, time.Date.
  cbn [time.unixNano time.location time.zoneOffset time.UTC].
  rewrite Z.sub_0_r, Z.add_0_r.
  rewrite (Z.div_mul _ time.Second) by discriminate.
  rewrite (Z.div_mul _ time.secondsPerDay) by discriminate.
  reflexivity.
Qed.

(* ================================================================== *)
(** * Digits *)

Lemma code_digitChar :
  forall n : N, strings.code (strings.digitChar n) = (48 + n mod 10)%N.
Proof.
  intros n. unfold strings.code, strings.digitChar.
  apply N_ascii_embedding.
  pose proof (N.mod_upper_bound n 10 ltac:(discriminate)). lia.
Qed.

Lemma isDigit_digitChar :
  forall n : N, strings.isDigit (strings.digitChar n) = true.
Proof.
  intros n. unfold strings.isDigit. rewrite code_digitChar.
  pose proof (N.mod_upper_bound n 10 ltac:(discriminate)).
  pose proof (N.le_0_l (n mod 10)).
  apply andb_true_intro. split; apply N.leb_le; lia.
Qed.

(** A character that reads as the digit [a] is the character of [a]. *)
Lemma digitVal_inv :
  forall (c : ascii) (a : Z),
    strings.digitVal c = Some a -> 0 <= a <= 9 /\ c = digitOf a.
Proof.
  intros c a. unfold strings.digitVal.
  destruct ((48 <=? strings.code c) && (strings.code c <=? 57))%N eqn:Hd;
    [ | discriminate].
  intros H. inversion H. subst a. clear H.
  apply andb_prop in Hd. destruct Hd as [Hlo Hhi].
  apply N.leb_le in Hlo. apply N.leb_le in Hhi.
  split; [lia | ].
  unfold digitOf, strings.digitChar.
  replace (48 + Z.to_N (Z.of_N (strings.code c) - 48) mod 10)%N
    with (strings.code c).
  - unfold strings.code. symmetry. apply ascii_N_embedding.
  - replace (Z.to_N (Z.of_N (strings.code c) - 48)) with (strings.code c - 48)%N
      by lia.
    rewrite N.mod_small by lia. lia.
Qed.

Lemma In_digits10 : forall a : Z, 0 <= a <= 9 -> In a digits10.
Proof.
  intros a Ha. unfold digits10.
  assert (a = 0 \/ a = 1 \/ a = 2 \/ a = 3 \/ a = 4 \/ a = 5 \/ a = 6
          \/ a = 7 \/ a = 8 \/ a = 9) as Hc by lia.
  cbn [In]. intuition auto.
Qed.

(** [appendInt] at width 4 writes the four digits of every number below
    10000, and at width 2 the two digits of every number below 100. *)
Lemma fourDigitsWritten :
  forallb (fun a3 => forallb (fun a2 => forallb (fun a1 => forallb (fun a0 =>
    String.eqb (strings.appendInt (1000 * a3 + 100 * a2 + 10 * a1 + a0) 4)
               (String (digitOf a3) (String (digitOf a2)
                  (String (digitOf a1) (String (digitOf a0) EmptyString)))))
    digits10) digits10) digits10) digits10 = true.
Proof. vm_compute. reflexivity. Qed.

Lemma twoDigitsWritten :
  forallb (fun a1 => forallb (fun a0 =>
    String.eqb (strings.appendInt (10 * a1 + a0) 2)
               (String (digitOf a1) (String (digitOf a0) EmptyString)))
    digits10) digits10 = true.
Proof. vm_compute. reflexivity. Qed.

Lemma appendInt_4 :
  forall a3 a2 a1 a0 : Z,
    0 <= a3 <= 9 -> 0 <= a2 <= 9 -> 0 <= a1 <= 9 -> 0 <= a0 <= 9 ->
    strings.appendInt (1000 * a3 + 100 * a2 + 10 * a1 + a0) 4
    = String (digitOf a3) (String (digitOf a2)
        (String (digitOf a1) (String (digitOf a0) EmptyString))).
Proof.
  intros a3 a2 a1 a0 H3 H2 H1 H0.
  pose proof fourDigitsWritten as Hall.
  rewrite forallb_forall in Hall.
  specialize (Hall a3 (In_digits10 a3 H3)). rewrite forallb_forall in Hall.
  specialize (Hall a2 (In_digits10 a2 H2)). rewrite forallb_forall in Hall.
  specialize (Hall a1 (In_digits10 a1 H1)). rewrite forallb_forall in Hall.
  specialize (Hall a0 (In_digits10 a0 H0)).
  apply String.eqb_eq. exact Hall.
Qed.

Lemma appendInt_2 :
  forall a1 a0 : Z,
    0 <= a1 <= 9 -> 0 <= a0 <= 9 ->
    strings.appendInt (10 * a1 + a0) 2
    = String (digitOf a1) (String (digitOf a0) EmptyString).
Proof.
  intros a1 a0 H1 H0.
  pose proof twoDigitsWritten as Hall.
  rewrite forallb_forall in Hall.
  specialize (Hall a1 (In_digits10 a1 H1)). rewrite forallb_forall in Hall.
  specialize (Hall a0 (In_digits10 a0 H0)).
  apply String.eqb_eq. exact Hall.
Qed.

(* ================================================================== *)
(** * Parsing and formatting a date *)

(** What a parsed date is made of. *)
Lemma Parse_inv :
  forall (s : string) (t : time.Time),
    time.Parse_2006_01_02 s = Some t ->
    exists a3 a2 a1 a0 b1 b0 c1 c0 : Z,
      (0 <= a3 <= 9 /\ 0 <= a2 <= 9 /\ 0 <= a1 <= 9 /\ 0 <= a0 <= 9)
      /\ (0 <= b1 <= 9 /\ 0 <= b0 <= 9 /\ 0 <= c1 <= 9 /\ 0 <= c0 <= 9)
      /\ s = String (digitOf a3) (String (digitOf a2) (String (digitOf a1)
               (String (digitOf a0) (String "-" (String (digitOf b1)
                 (String (digitOf b0) (String "-" (String (digitOf c1)
                   (String (digitOf c0) EmptyString)))))))))
      /\ 1 <= 10 * b1 + b0 <= 12
      /\ 1 <= 10 * c1 + c0
            <= time.daysIn (10 * b1 + b0) (1000 * a3 + 100 * a2 + 10 * a1 + a0)
      /\ t = time.Date (1000 * a3 + 100 * a2 + 10 * a1 + a0) (10 * b1 + b0)
                       (10 * c1 + c0) time.UTC.
Proof.
  intros s t. unfold time.Parse_2006_01_02.
  do 10 (destruct s as [| ? s]; [discriminate | ]).
  destruct s; [ | discriminate].
  repeat match goal with
         | |- context [match strings.digitVal ?c with _ => _ end] =>
             let H := fresh "Hd" in
             destruct (strings.digitVal c) eqn:H; [ | discriminate]
         end.
  repeat match goal with
         | H : strings.digitVal _ = Some _ |- _ =>
             apply digitVal_inv in H; destruct H as [? ?]
         end.
  subst.
  match goal with
  | |- context [Ascii.eqb ?x "-"] => destruct (Ascii.eqb_spec x "-"); [ | discriminate]
  end.
  match goal with
  | |- context [Ascii.eqb ?x "-"] => destruct (Ascii.eqb_spec x "-"); [ | discriminate]
  end.
  cbn [negb orb]. subst.
  match goal with
  | |- context [(?m <=? 0) || (12 <? ?m)] =>
      destruct (Z.leb_spec m 0); [discriminate | ];
      destruct (Z.ltb_spec 12 m); [discriminate | ]
  end.
  cbn [orb].
  match goal with
  | |- context [(?d <? 1) || (?n <? ?d)] =>
      destruct (Z.ltb_spec d 1); [discriminate | ];
      destruct (Z.ltb_spec n d); [discriminate | ]
  end.
  cbn [orb]. intros Hsome. inversion Hsome. subst t.
  do 8 eexists. repeat split; try eassumption; try reflexivity; lia.
Qed.

(** Formatting a parsed date gives back the string it was parsed from. *)
Lemma Format_Parse :
  forall (s : string) (t : time.Time),
    time.Parse_2006_01_02 s = Some t -> time.Format_2006_01_02 t = s.
Proof.
  intros s t Hparse. apply Parse_inv in Hparse.
  destruct Hparse as [a3 [a2 [a1 [a0 [b1 [b0 [c1 [c0 [Ha [Hb [-> [Hm [Hd ->]]]]]]]]]]]]].
  unfold time.Format_2006_01_02, time.Year, time.Month, time.Day.
  rewrite civil_Date_UTC, civilFromDays_daysFromCivil by assumption.
  cbn [fst snd].
  rewrite appendInt_4 by tauto. rewrite !appendInt_2 by tauto.
  reflexivity.
Qed.


(* ================================================================== *)
(** * ORDER BY and LIMIT *)

Lemma insertSorted_perm :
  forall (A : Type) (leb : A -> A -> bool) (x : A) (l : list A),
    Permutation (store.insertSorted leb x l) (x :: l).
Proof.
  intros A leb x l. induction l as [| y r IH]; cbn [store.insertSorted].
  - apply Permutation_refl.
  - destruct (leb x y).
    + apply Permutation_refl.
    + apply perm_trans with (y :: x :: r).
      * apply perm_skip. exact IH.
      * apply perm_swap.
Qed.

(** Sorting keeps the rows. *)
Lemma sortBy_perm :
  forall (A : Type) (leb : A -> A -> bool) (l : list A),
    Permutation (store.sortBy leb l) l.
Proof.
  intros A leb l. induction l as [| x l IH]; cbn [store.sortBy fold_right].
  - apply perm_nil.
  - fold (store.sortBy leb l).
    apply perm_trans with (x :: store.sortBy leb l).
    + apply insertSorted_perm.
    + apply perm_skip. exact IH.
Qed.

Lemma insertSorted_createdAsc :
  forall (x : entity.Voucher) (l : list entity.Voucher),
    Sorted createdNotAfter l ->
    Sorted createdNotAfter (store.insertSorted store.createdAsc x l).
Proof.
  intros x l Hl. induction Hl as [| y r Hr IH Hhd]; cbn [store.insertSorted].
  - repeat constructor.
  - destruct (store.createdAsc x y) eqn:Hxy.
    + constructor; [constructor; assumption | ].
      constructor. unfold store.createdAsc in Hxy. apply Z.leb_le in Hxy.
      exact Hxy.
    + constructor; [exact IH | ].
      unfold store.createdAsc in Hxy. apply Z.leb_gt in Hxy.
      destruct r as [| z r]; cbn [store.insertSorted].
      * constructor. unfold createdNotAfter. lia.
      * destruct (store.createdAsc x z).
        -- constructor. unfold createdNotAfter. lia.
        -- constructor. inversion Hhd. assumption.
Qed.

(** Sorting by [created_at] ascending puts the rows in that order. *)
Lemma sortBy_createdAsc_sorted :
  forall l : list entity.Voucher,
    StronglySorted createdNotAfter (store.sortBy store.createdAsc l).
Proof.
  intros l. apply Sorted_StronglySorted.
  - intros a b c Hab Hbc. unfold createdNotAfter in *. lia.
  - induction l as [| x l IH]; cbn [store.sortBy fold_right].
    + constructor.
    + apply insertSorted_createdAsc. exact IH.
Qed.

(** The first page holds every row when the limit is not exceeded. *)
Lemma page_first_all :
  forall (A : Type) (limit : Z) (l : list A),
    len l <= limit -> store.page 0 limit l = l.
Proof.
  intros A limit l Hlen. unfold store.page.
  change (0 <? 0) with false. cbv iota.
  pose proof (len_nonneg _ l).
  destruct (Z.leb_spec 0 limit); [ | lia].
  apply firstn_all2. unfold len in Hlen. lia.
Qed.

(** A page never holds more rows than the limit. *)
Lemma page_first_length :
  forall (A : Type) (limit : Z) (l : list A),
    0 <= limit -> len (store.page 0 limit l) = Z.min limit (len l).
Proof.
  intros A limit l Hlimit. unfold store.page.
  change (0 <? 0) with false. cbv iota.
  destruct (Z.leb_spec 0 limit); [ | lia].
  unfold len. rewrite List.length_firstn. lia.
Qed.

(* ================================================================== *)
(** * The discount column *)

Lemma allDigits_String :
  forall (c : ascii) (s : string),
    strings.allDigits (String c s) = strings.isDigit c && strings.allDigits s.
Proof. reflexivity. Qed.

Lemma digitsFuel_allDigits :
  forall (fuel : nat) (n : N) (acc : string),
    strings.allDigits acc = true ->
    strings.allDigits (strings.digitsFuel fuel n acc) = true.
Proof.
  induction fuel as [| fuel IH]; intros n acc Hacc; cbn [strings.digitsFuel].
  - exact Hacc.
  - assert (strings.allDigits (String (strings.digitChar n) acc) = true) as H1.
    { rewrite allDigits_String, isDigit_digitChar, Hacc. reflexivity. }
    destruct (n <? 10)%N; [exact H1 | apply IH; exact H1].
Qed.

Lemma digitsFuel_nonempty :
  forall (fuel : nat) (n : N) (acc : string),
    acc <> EmptyString -> strings.digitsFuel fuel n acc <> EmptyString.
Proof.
  induction fuel as [| fuel IH]; intros n acc Hacc; cbn [strings.digitsFuel].
  - exact Hacc.
  - destruct (n <? 10)%N; [discriminate | apply IH; discriminate].
Qed.

(** A numeral is a non-empty string of digits. *)
Lemma itoa_digits :
  forall n : N,
    strings.allDigits (strings.itoa n) = true /\ strings.itoa n <> EmptyString.
Proof.
  intros n. unfold strings.itoa. split.
  - apply digitsFuel_allDigits. reflexivity.
  - cbn [strings.digitsFuel].
    destruct (n <? 10)%N; [discriminate | ].
    apply digitsFuel_nonempty. discriminate.
Qed.

Lemma fixed2_twoFractionDigits :
  forall h : N, twoFractionDigits (float64.fixed2 h).
Proof.
  intros h. unfold twoFractionDigits, float64.fixed2.
  exists (strings.itoa (h / 100)), (strings.digitChar (h / 10)),
         (strings.digitChar h).
  destruct (itoa_digits (h / 100)) as [Hall Hne].
  repeat split; auto using isDigit_digitChar.
Qed.

(** A discount that satisfies the CHECK constraint is a positive finite
    number. *)
Lemma constrained_discount_finite :
  forall d : spec_float,
    float64.le (float64.ofZ 1) d = true ->
    float64.le d (float64.ofZ 100) = true ->
    exists (m : positive) (e : Z), d = S754_finite false m e.
Proof.
  intros d. unfold float64.le.
  change (float64.ofZ 1) with (S754_finite false 4503599627370496 (-52)).
  change (float64.ofZ 100) with (S754_finite false 7036874417766400 (-46)).
  destruct d as [s | s | | s m e]; try (destruct s); try discriminate.
  intros _ _. exists m, e. reflexivity.
Qed.

(** Such a discount is written with exactly two digits after the point. *)
Lemma Sprintf_2f_constrained :
  forall d : spec_float,
    float64.le (float64.ofZ 1) d = true ->
    float64.le d (float64.ofZ 100) = true ->
    twoFractionDigits (float64.Sprintf_2f d).
Proof.
  intros d Hlow Hhigh.
  destruct (constrained_discount_finite d Hlow Hhigh) as [m [e ->]].
  cbn [float64.Sprintf_2f]. apply fixed2_twoFractionDigits.
Qed.

(* ================================================================== *)
(** * The export *)

(** What ExportVouchers fetches from the table and writes. *)
Lemma ExportVouchers_store :
  forall w : store.World,
    run store.handler service.ExportVouchers w
    = (Ok (headerLine
             +++ csv.WriteAll
                   (map service.exportRecord
                        (store.page 0 100000
                           (store.sortBy store.createdAsc
                              (filter store.active (store.rows w)))))),
       w,
       [{| evCall := repository.FindAll 1 100000 "" "created_at" "asc";
           evResp :=
             Ok (store.page 0 100000
                   (store.sortBy store.createdAsc
                      (filter store.active (store.rows w))),
                 len (filter store.active (store.rows w))) |}]).
Proof.
  intros w. unfold service.ExportVouchers. rewrite run_call_bind.
  cbn [store.handler fst snd]. unfold store.FindAll.
  change (negb ("" =? "")%string) with false. cbv iota.
  change (store.orderOf "created_at" "asc") with (Some store.createdAsc).
  change ((1 - 1) * 100000) with 0.
  reflexivity.
Qed.

(** C8 (as amended): when the table holds at most 100000 active vouchers,
    rows that satisfy its constraints and carry dates the service parsed,
    the export is the header line followed by the records of the active
    vouchers, one each, in ascending order of creation; the discount of
    each record has exactly two digits after the point and its date is a
    string that parses to the expiry date of the voucher. *)
Theorem C8_export_document :
  forall w : store.World,
    len (filter store.active (store.rows w)) <= 100000 ->
    (forall v, In v (store.rows w) -> store.active v = true ->
               store.checkRow v = true /\ parsedDate (entity.ExpiryDate v)) ->
    exists vs : list entity.Voucher,
      value (run store.handler service.ExportVouchers w)
      = Ok (headerLine +++ csv.WriteAll (map service.exportRecord vs))
      /\ Permutation vs (filter store.active (store.rows w))
      /\ StronglySorted createdNotAfter vs
      /\ Forall (fun v =>
                   exists date : string,
                     service.exportRecord v
                     = [entity.VoucherCode v;
                        float64.Sprintf_2f (entity.DiscountPercent v); date]
                     /\ twoFractionDigits
                          (float64.Sprintf_2f (entity.DiscountPercent v))
                     /\ time.Parse_2006_01_02 date
                        = Some (entity.ExpiryDate v)) vs.
Proof.
  intros w Hcap Hrows.
  exists (store.sortBy store.createdAsc (filter store.active (store.rows w))).
  pose proof (sortBy_perm _ store.createdAsc
                (filter store.active (store.rows w))) as Hperm.
  split; [ | split; [exact Hperm | split]].
  - rewrite ExportVouchers_store. unfold value. cbn [fst].
    rewrite page_first_all; [reflexivity | ].
    unfold len in *. rewrite (Permutation_length Hperm). exact Hcap.
  - apply sortBy_createdAsc_sorted.
  - apply Forall_forall. intros v Hv.
    apply (Permutation_in _ Hperm) in Hv. apply filter_In in Hv.
    destruct Hv as [Hin Hactive].
    destruct (Hrows v Hin Hactive) as [Hcheck [s Hparse]].
    exists s. split; [ | split].
    + unfold service.exportRecord. rewrite (Format_Parse s _ Hparse).
      reflexivity.
    + unfold store.checkRow in Hcheck.
      apply andb_prop in Hcheck. destruct Hcheck as [Hcheck _].
      apply andb_prop in Hcheck. destruct Hcheck as [Hlow Hhigh].
      apply Sprintf_2f_constrained; assumption.
    + exact Hparse.
Qed.

Lemma C8_export_document_witness :
  exists vs : list entity.Voucher,
    value (run store.handler service.ExportVouchers sample.table)
    = Ok (headerLine +++ csv.WriteAll (map service.exportRecord vs))
    /\ Permutation vs (filter store.active (store.rows sample.table))
    /\ StronglySorted createdNotAfter vs
    /\ Forall (fun v =>
                 exists date : string,
                   service.exportRecord v
                   = [entity.VoucherCode v;
                      float64.Sprintf_2f (entity.DiscountPercent v); date]
                   /\ twoFractionDigits
                        (float64.Sprintf_2f (entity.DiscountPercent v))
                   /\ time.Parse_2006_01_02 date
                      = Some (entity.ExpiryDate v)) vs.
Proof.
  apply (C8_export_document sample.table).
  - vm_compute. discriminate.
  - intros v [<- | [<- | []]] Hactive; [ | discriminate].
    split; [reflexivity | ]. exists "2099-01-01". reflexivity.
Defined.


(* ================================================================== *)
(** * Lines of a document *)

Lemma append_assoc :
  forall a b c : string, (a +++ b) +++ c = a +++ (b +++ c).
Proof.
  induction a as [| x a IH]; intros b c; cbn [String.append].
  - reflexivity.
  - rewrite IH. reflexivity.
Qed.

Lemma lineFeeds_app :
  forall a b : string, lineFeeds (a +++ b) = lineFeeds a + lineFeeds b.
Proof.
  induction a as [| c a IH]; intros b; cbn [String.append lineFeeds].
  - reflexivity.
  - rewrite IH. lia.
Qed.

Lemma lineFeeds_nonneg : forall s : string, 0 <= lineFeeds s.
Proof.
  induction s as [| c s IH]; cbn [lineFeeds]; [lia | ].
  destruct (Ascii.eqb c csv.lf); lia.
Qed.

(** Every record written ends a line. *)
Lemma lineFeeds_Write :
  forall record : list string,
    lineFeeds (csv.Write record) = lineFeeds (csv.writeFields record) + 1.
Proof.
  intros record. unfold csv.Write. rewrite lineFeeds_app. reflexivity.
Qed.

Lemma lineFeeds_WriteAll_ge :
  forall records : list (list string),
    len records <= lineFeeds (csv.WriteAll records).
Proof.
  induction records as [| r rest IH]; cbn [csv.WriteAll].
  - rewrite len_nil. cbn [lineFeeds]. lia.
  - rewrite len_cons, lineFeeds_app, lineFeeds_Write.
    pose proof (lineFeeds_nonneg (csv.writeFields r)). lia.
Qed.

Lemma documentLines_line :
  forall a rest : string,
    lineFeeds a = 0 ->
    documentLines (a +++ String csv.lf rest) = a :: documentLines rest.
Proof.
  induction a as [| c a IH]; intros rest Hno; cbn [String.append documentLines].
  - change (Ascii.eqb csv.lf csv.lf) with true. reflexivity.
  - cbn [lineFeeds] in Hno. pose proof (lineFeeds_nonneg a).
    destruct (Ascii.eqb c csv.lf); [lia | ].
    rewrite IH by lia. reflexivity.
Qed.

(** Records whose written form has no line feed of its own are the lines
    of the document. *)
Lemma documentLines_WriteAll :
  forall records : list (list string),
    Forall (fun r => lineFeeds (csv.writeFields r) = 0) records ->
    documentLines (csv.WriteAll records) = map csv.writeFields records
    /\ lineFeeds (csv.WriteAll records) = len records.
Proof.
  intros records Hall. induction Hall as [| r rest Hr Hrest IH].
  - split; reflexivity.
  - destruct IH as [IHlines IHcount]. cbn [csv.WriteAll map].
    unfold csv.Write. rewrite append_assoc. cbn [String.append].
    rewrite documentLines_line by exact Hr.
    rewrite !lineFeeds_app. cbn [lineFeeds].
    change (Ascii.eqb csv.lf csv.lf) with true.
    rewrite IHlines, IHcount, Hr, len_cons. split; [reflexivity | lia].
Qed.

(* ================================================================== *)
(** * Line feeds of written fields *)

Lemma lineFeeds_escape :
  forall s : string, lineFeeds (csv.escape s) = lineFeeds s.
Proof.
  induction s as [| c s IH]; cbn [csv.escape lineFeeds]; [reflexivity | ].
  destruct (Ascii.eqb_spec c csv.quote) as [-> | Hc]; cbn [lineFeeds].
  - change (Ascii.eqb csv.quote csv.lf) with false. cbv iota. rewrite IH. lia.
  - rewrite IH. reflexivity.
Qed.

(** Quoting a field adds no line feed. *)
Lemma lineFeeds_writeField :
  forall field : string, lineFeeds (csv.writeField field) = lineFeeds field.
Proof.
  intros field. unfold csv.writeField.
  destruct (csv.fieldNeedsQuotes field); [ | reflexivity].
  cbn [lineFeeds]. change (Ascii.eqb csv.quote csv.lf) with false.
  rewrite lineFeeds_app, lineFeeds_escape. cbn [lineFeeds].
  change (Ascii.eqb csv.quote csv.lf) with false. cbv iota. lia.
Qed.

Lemma lineFeeds_writeFields3 :
  forall a b c : string,
    lineFeeds (csv.writeFields [a; b; c])
    = lineFeeds a + lineFeeds b + lineFeeds c.
Proof.
  intros a b c. cbn [csv.writeFields].
  rewrite !lineFeeds_app. cbn [lineFeeds].
  change (Ascii.eqb csv.comma csv.lf) with false.
  rewrite !lineFeeds_app. cbn [lineFeeds].
  change (Ascii.eqb csv.comma csv.lf) with false.
  cbv iota. rewrite !lineFeeds_writeField. lia.
Qed.

Lemma allDigits_lineFeeds :
  forall s : string, strings.allDigits s = true -> lineFeeds s = 0.
Proof.
  induction s as [| c s IH]; [reflexivity | ].
  rewrite allDigits_String. intros H. apply andb_prop in H.
  destruct H as [Hc Hs]. cbn [lineFeeds]. rewrite (IH Hs).
  destruct (Ascii.eqb_spec c csv.lf) as [-> | _]; [discriminate | reflexivity].
Qed.

(* ================================================================== *)
(** * Export of a table kept in order of creation *)

Lemma sortBy_sorted :
  forall (A : Type) (leb : A -> A -> bool) (l : list A),
    Sorted (fun a b => leb a b = true) l -> store.sortBy leb l = l.
Proof.
  intros A leb l Hl. induction Hl as [| x l Hs IH Hhd];
    cbn [store.sortBy fold_right]; [reflexivity | ].
  fold (store.sortBy leb l). rewrite IH.
  destruct Hhd as [| y r Hxy]; cbn [store.insertSorted]; [reflexivity | ].
  rewrite Hxy. reflexivity.
Qed.

Lemma filter_all :
  forall (A : Type) (f : A -> bool) (l : list A),
    Forall (fun a => f a = true) l -> filter f l = l.
Proof.
  intros A f l Hl. induction Hl as [| a l Ha Hl IH]; cbn [filter];
    [reflexivity | ].
  rewrite Ha, IH. reflexivity.
Qed.

(** The export of a table whose rows are all active and stand in order of
    creation: the first rows, up to the limit. *)
Lemma ExportVouchers_ordered_table :
  forall w : store.World,
    Forall (fun v => store.active v = true) (store.rows w) ->
    Sorted (fun a b => store.createdAsc a b = true) (store.rows w) ->
    value (run store.handler service.ExportVouchers w)
    = Ok (headerLine
            +++ csv.WriteAll
                  (map service.exportRecord (firstn exportLimit (store.rows w)))).
Proof.
  intros w Hactive Hsorted. rewrite ExportVouchers_store.
  unfold value. cbn [fst].
  rewrite (filter_all _ _ _ Hactive), (sortBy_sorted _ _ _ Hsorted).
  unfold store.page. change (0 <? 0) with false.
  change (0 <=? 100000) with true. cbv iota.
  reflexivity.
Qed.

(* ================================================================== *)
(** * The table at the limit *)

Lemma Sorted_map_seq :
  forall (A : Type) (R : A -> A -> Prop) (f : nat -> A),
    (forall i, R (f i) (f (S i))) ->
    forall n a, Sorted R (map f (seq a n)).
Proof.
  intros A R f Hstep. induction n as [| n IH]; intros a; cbn [seq map].
  - constructor.
  - constructor; [apply IH | ].
    destruct n as [| n]; cbn [seq map]; constructor. apply Hstep.
Qed.

Lemma bigRows_sorted :
  forall n, Sorted (fun a b => store.createdAsc a b = true) (bigRows n).
Proof.
  intros n. unfold bigRows. apply Sorted_map_seq.
  intros i. unfold store.createdAsc, bigRow. cbn [entity.CreatedAt time.unixNano].
  apply Z.leb_le. lia.
Qed.

Lemma bigRows_active :
  forall n, Forall (fun v => store.active v = true) (bigRows n).
Proof.
  intros n. apply Forall_forall. intros v Hv. unfold bigRows in Hv.
  apply in_map_iff in Hv. destruct Hv as [i [<- _]]. reflexivity.
Qed.

Lemma bigRows_length : forall n, List.length (bigRows n) = n.
Proof. intros n. unfold bigRows. rewrite List.length_map, List.length_seq. reflexivity. Qed.

Lemma firstn_seq_le :
  forall k n a, (k <= n)%nat -> firstn k (seq a n) = seq a k.
Proof.
  induction k as [| k IH]; intros n a Hk; [reflexivity | ].
  destruct n as [| n]; [lia | ].
  cbn [seq firstn]. rewrite IH by lia. reflexivity.
Qed.

Lemma bigRows_firstn :
  forall k n, (k <= n)%nat -> firstn k (bigRows n) = bigRows k.
Proof.
  intros k n Hk. unfold bigRows. rewrite firstn_map, firstn_seq_le by exact Hk.
  reflexivity.
Qed.

Lemma exportRecord_bigRow :
  forall i, service.exportRecord (bigRow i) = [bigCode i; "10.00"; "2099-01-01"].
Proof.
  intros i. unfold service.exportRecord, bigRow.
  cbn [entity.VoucherCode entity.DiscountPercent entity.ExpiryDate].
  change (float64.Sprintf_2f (float64.ofZ 10)) with "10.00".
  change (time.Format_2006_01_02 sample.day2099) with "2099-01-01".
  reflexivity.
Qed.

Lemma lineFeeds_bigCode : forall i, lineFeeds (bigCode i) = 0.
Proof.
  intros i. unfold bigCode. rewrite lineFeeds_app.
  rewrite (allDigits_lineFeeds (strings.itoa (N.of_nat i)))
    by apply itoa_digits.
  reflexivity.
Qed.

(** The records of these vouchers take one line each. *)
Lemma bigRows_one_line_each :
  forall n,
    Forall (fun r => lineFeeds (csv.writeFields r) = 0)
           (map service.exportRecord (bigRows n)).
Proof.
  intros n. apply Forall_forall. intros r Hr.
  apply in_map_iff in Hr. destruct Hr as [v [<- Hv]].
  unfold bigRows in Hv. apply in_map_iff in Hv. destruct Hv as [i [<- _]].
  rewrite exportRecord_bigRow, lineFeeds_writeFields3, lineFeeds_bigCode.
  reflexivity.
Qed.

(** The export of a document written from [n] such records. *)
Lemma lineFeeds_bigRows_document :
  forall n,
    lineFeeds (headerLine +++ csv.WriteAll (map service.exportRecord (bigRows n)))
    = 1 + Z.of_nat n.
Proof.
  intros n. rewrite lineFeeds_app.
  destruct (documentLines_WriteAll _ (bigRows_one_line_each n)) as [_ Hcount].
  rewrite Hcount. unfold len. rewrite List.length_map, bigRows_length.
  reflexivity.
Qed.

Lemma ExportVouchers_bigTable :
  forall n, (exportLimit <= n)%nat ->
    value (run store.handler service.ExportVouchers (bigTable n))
    = Ok (headerLine
            +++ csv.WriteAll (map service.exportRecord (bigRows exportLimit))).
Proof.
  intros n Hn. rewrite ExportVouchers_ordered_table.
  - cbn [bigTable store.rows]. rewrite bigRows_firstn by exact Hn. reflexivity.
  - apply bigRows_active.
  - apply bigRows_sorted.
Qed.

(** C8 does not hold as stated: of the 100001 active vouchers of this
    table the export writes 100000; its document has 100001 lines, the
    header included, and is not the header followed by one record for
    each active voucher. *)
Lemma C8_counterexample :
  len (filter store.active (store.rows (bigTable (S exportLimit)))) = 100001
  /\ (exists doc : string,
         value (run store.handler service.ExportVouchers
                    (bigTable (S exportLimit))) = Ok doc
         /\ lineFeeds doc = 100001)
  /\ ~ (exists vs : list entity.Voucher,
           value (run store.handler service.ExportVouchers
                      (bigTable (S exportLimit)))
           = Ok (headerLine +++ csv.WriteAll (map service.exportRecord vs))
           /\ Permutation vs
                (filter store.active (store.rows (bigTable (S exportLimit))))).
Proof.
  assert (len (filter store.active (store.rows (bigTable (S exportLimit))))
          = 100001) as Hcount.
  { cbn [bigTable store.rows].
    rewrite (filter_all _ _ _ (bigRows_active (S exportLimit))).
    unfold len. rewrite bigRows_length. unfold exportLimit. lia. }
  assert (value (run store.handler service.ExportVouchers
                     (bigTable (S exportLimit)))
          = Ok (headerLine
                  +++ csv.WriteAll
                        (map service.exportRecord (bigRows exportLimit))))
    as Hexport by (apply ExportVouchers_bigTable; lia).
  split; [exact Hcount | split].
  - eexists. split; [exact Hexport | ].
    rewrite lineFeeds_bigRows_document. unfold exportLimit. lia.
  - intros [vs [Hdoc Hperm]]. rewrite Hexport in Hdoc.
    assert (forall a b : string,
               @Ok string a = Ok b -> lineFeeds a = lineFeeds b) as Hlines
      by (intros a b Hab; congruence).
    apply Hlines in Hdoc. clear Hlines. rename Hdoc into Hsame.
    rewrite lineFeeds_bigRows_document in Hsame.
    rewrite lineFeeds_app in Hsame.
    pose proof (lineFeeds_WriteAll_ge (map service.exportRecord vs)) as Hge.
    unfold len in Hge, Hcount. rewrite List.length_map in Hge.
    rewrite (Permutation_length Hperm) in Hge.
    change (lineFeeds headerLine) with 1 in Hsame.
    unfold exportLimit in Hsame. lia.
Qed.


(* ================================================================== *)
(** * From import to export *)

(** What an accepted row becomes. *)
Lemma parseCSVRow_Ok :
  forall (ParseFloat : string -> option spec_float) (W : Type) (h : Handler W)
         (w : W) (record : list string) (rowNum : Z) (v : entity.Voucher),
    value (run h (service.parseCSVRow ParseFloat record rowNum) w) = Ok v ->
    exists (d : spec_float) (e : time.Time),
      ParseFloat (strings.TrimSpace (nth 1 record EmptyString)) = Some d
      /\ time.Parse_2006_01_02 (strings.TrimSpace (nth 2 record EmptyString))
         = Some e
      /\ codeOK (strings.TrimSpace (nth 0 record EmptyString))
      /\ ~ outOfRange d
      /\ 3 <= len record
      /\ v = entity.literal (strings.TrimSpace (nth 0 record EmptyString)) d e.
Proof.
  intros ParseFloat W h w record rowNum v. unfold service.parseCSVRow.
  destruct (len record <? 3) eqn:Hlen; [discriminate | ].
  destruct (String.eqb _ EmptyString) eqn:Hne; [discriminate | ].
  destruct (50 <? strings.len _) eqn:Hlong; [discriminate | ].
  rewrite run_call_bind.
  destruct (service.exceptNotFound _) as [[existing | ] | err];
    try discriminate.
  destruct (ParseFloat _) as [d | ]; [ | discriminate].
  destruct (float64.lt d _ || float64.gt d _) eqn:Hrange; [discriminate | ].
  destruct (time.Parse_2006_01_02 _) as [e | ]; [ | discriminate].
  rewrite run_call_bind. cbv zeta.
  destruct (time.Before e _); [discriminate | ].
  unfold value. cbn [run fst]. intros Hv. inversion Hv.
  exists d, e. repeat split.
  - apply String.eqb_neq. exact Hne.
  - apply Z.ltb_ge. exact Hlong.
  - apply orb_false_elim in Hrange. destruct Hrange as [Hlow Hhigh].
    intros [Hlt | Hgt]; congruence.
  - apply Z.ltb_ge. exact Hlen.
Qed.

(** Every data row either leaves an error under its row number or a
    voucher made of its trimmed code, its discount and its date. *)
Lemma importRows_rows :
  forall (ParseFloat : string -> option spec_float) (W : Type) (h : Handler W)
         (rows : list (list string)) (i : Z)
         (result0 : domainService.ImportResult)
         (vouchers : list entity.Voucher) (w : W)
         (result1 : domainService.ImportResult)
         (vouchers1 : list entity.Voucher) (w1 : W) (tr : list Event),
    run h (service.importRows ParseFloat rows i result0 vouchers) w
    = (result1, vouchers1, w1, tr) ->
    (exists added addedVouchers,
        domainService.Errors result1 = domainService.Errors result0 ++ added
        /\ vouchers1 = vouchers ++ addedVouchers)
    /\ forall (j : nat) (record : list string),
         nth_error rows j = Some record ->
         In (i + Z.of_nat j + 2)
            (map domainService.Row (domainService.Errors result1))
         \/ exists (d : spec_float) (e : time.Time),
              ParseFloat (strings.TrimSpace (nth 1 record EmptyString)) = Some d
              /\ time.Parse_2006_01_02
                   (strings.TrimSpace (nth 2 record EmptyString)) = Some e
              /\ In (entity.literal
                       (strings.TrimSpace (nth 0 record EmptyString)) d e)
                    vouchers1.
Proof.
  intros ParseFloat W h rows.
  induction rows as [| row rest IH];
    intros i result0 vouchers w result1 vouchers1 w1 tr Hrun.
  - cbn [service.importRows run] in Hrun. inversion Hrun. subst. split.
    + exists [], []. rewrite !app_nil_r. split; reflexivity.
    + intros j record Hj. destruct j; discriminate.
  - cbn [service.importRows] in Hrun. rewrite run_bind in Hrun.
    destruct (run h (service.parseCSVRow ParseFloat row (i + 2)) w)
      as [[parsed w0] t0] eqn:Eparse.
    assert (value (run h (service.parseCSVRow ParseFloat row (i + 2)) w)
            = parsed) as Hparsed by (rewrite Eparse; reflexivity).
    destruct parsed as [voucher | err].
    + destruct (run h (service.importRows ParseFloat rest (i + 1) result0
                         (vouchers ++ [voucher])) w0)
        as [[[r2 v2] w2] t2] eqn:Erest.
      inversion Hrun. subst r2 v2 w2 tr. apply IH in Erest.
      destruct Erest as [[added [addedV [Herr Hvs]]] Hrows]. split.
      * exists added, ([voucher] ++ addedV). split; [exact Herr | ].
        rewrite Hvs, <- app_assoc. reflexivity.
      * intros j record Hj. destruct j as [| j].
        -- cbn [nth_error] in Hj. inversion Hj. subst record. right.
           apply parseCSVRow_Ok in Hparsed.
           destruct Hparsed as [d [e [Hd [He [_ [_ [_ Hv]]]]]]].
           exists d, e. split; [exact Hd | split; [exact He | ]].
           rewrite Hvs, <- Hv. apply in_or_app. left.
           apply in_or_app. right. left. reflexivity.
        -- cbn [nth_error] in Hj. specialize (Hrows j record Hj).
           replace (i + Z.of_nat (S j) + 2) with (i + 1 + Z.of_nat j + 2)
             by lia.
           exact Hrows.
    + destruct (run h (service.importRows ParseFloat rest (i + 1) _ vouchers) w0)
        as [[[r2 v2] w2] t2] eqn:Erest.
      inversion Hrun. subst r2 v2 w2 tr. apply IH in Erest.
      cbn [domainService.Errors] in Erest.
      destruct Erest as [[added [addedV [Herr Hvs]]] Hrows]. split.
      * exists ([{| domainService.Row := i + 2;
                    domainService.Error := errors.Error err |}] ++ added),
               addedV.
        split; [rewrite Herr, <- app_assoc; reflexivity | exact Hvs].
      * intros j record Hj. destruct j as [| j].
        -- left. rewrite Herr, !map_app. apply in_or_app. left.
           apply in_or_app. right. cbn [map domainService.Row In].
           left. lia.
        -- cbn [nth_error] in Hj. specialize (Hrows j record Hj).
           replace (i + Z.of_nat (S j) + 2) with (i + 1 + Z.of_nat j + 2)
             by lia.
           exact Hrows.
Qed.

(** The row an INSERT stores keeps the code, the discount, the expiry
    date and the deletion mark of the voucher handed over. *)
Lemma insertRow_fields :
  forall (t : time.Time) (rs : list entity.Voucher) (next : N)
         (v : entity.Voucher) (rs' : list entity.Voucher) (next' : N)
         (v' : entity.Voucher),
    store.insertRow t rs next v = Some (rs', next', v') ->
    rs' = rs ++ [v']
    /\ entity.VoucherCode v' = entity.VoucherCode v
    /\ entity.DiscountPercent v' = entity.DiscountPercent v
    /\ entity.ExpiryDate v' = entity.ExpiryDate v
    /\ entity.DeletedAt v' = entity.DeletedAt v.
Proof.
  intros t rs next v rs' next' v'. unfold store.insertRow.
  destruct ((entity.ID (store.stamp t v) =? 0)%N);
    match goal with
    | |- context [if ?c then _ else _] => destruct c; [ | discriminate]
    end;
    intros H; inversion H; subst; repeat split; reflexivity.
Qed.

Lemma insertRows_stored :
  forall (t : time.Time) (vs : list entity.Voucher)
         (rs : list entity.Voucher) (next : N)
         (rs' : list entity.Voucher) (next' : N),
    store.insertRows t rs next vs = Some (rs', next') ->
    (forall r, In r rs -> In r rs')
    /\ forall v, In v vs ->
         exists v', In v' rs'
           /\ entity.VoucherCode v' = entity.VoucherCode v
           /\ entity.DiscountPercent v' = entity.DiscountPercent v
           /\ entity.ExpiryDate v' = entity.ExpiryDate v
           /\ entity.DeletedAt v' = entity.DeletedAt v.
Proof.
  intros t vs. induction vs as [| v rest IH]; intros rs next rs' next' Hins.
  - cbn [store.insertRows] in Hins. inversion Hins. subst.
    split; [auto | intros v []].
  - cbn [store.insertRows] in Hins.
    destruct (store.insertRow t rs next v) as [[[rs1 next1] v1] | ] eqn:Erow;
      [ | discriminate].
    apply insertRow_fields in Erow.
    destruct Erow as [Hrs [Hcode [Hdisc [Hexp Hdel]]]].
    apply IH in Hins. destruct Hins as [Hkeep Hrest]. split.
    + intros r Hr. apply Hkeep. subst rs1. apply in_or_app. left. exact Hr.
    + intros v0 [<- | Hv0].
      * exists v1. split; [ | auto].
        apply Hkeep. subst rs1. apply in_or_app. right. left. reflexivity.
      * apply Hrest. exact Hv0.
Qed.

(** C9 (as amended): when an import is answered by a report and the
    table then holds at most 100000 active vouchers, every data row that
    left no error in the report has a record in the export that follows:
    its trimmed code, its discount written with two decimals, and its
    trimmed date, which is a date in the format of the parser. *)
Theorem C9_import_then_export :
  forall (ParseFloat : string -> option spec_float) (w : store.World)
         (records : list (list string)) (report : domainService.ImportResult),
    value (run store.handler
               (service.ImportVouchers ParseFloat (Ok records)) w) = Ok report ->
    len (filter store.active
           (store.rows
              (final (run store.handler
                          (service.ImportVouchers ParseFloat (Ok records)) w))))
    <= 100000 ->
    forall (j : nat) (record : list string),
      nth_error (tl records) j = Some record ->
      ~ In (Z.of_nat j + 2)
           (map domainService.Row (domainService.Errors report)) ->
      exists (d : spec_float) (e : time.Time) (vs : list entity.Voucher),
        ParseFloat (strings.TrimSpace (nth 1 record EmptyString)) = Some d
        /\ time.Parse_2006_01_02 (strings.TrimSpace (nth 2 record EmptyString))
           = Some e
        /\ value (run store.handler service.ExportVouchers
                      (final (run store.handler
                                  (service.ImportVouchers ParseFloat (Ok records))
                                  w)))
           = Ok (headerLine +++ csv.WriteAll (map service.exportRecord vs))
        /\ In [ strings.TrimSpace (nth 0 record EmptyString);
                float64.Sprintf_2f d;
                strings.TrimSpace (nth 2 record EmptyString) ]
              (map service.exportRecord vs).
Proof.
  intros ParseFloat w records report.
  unfold service.ImportVouchers.
  destruct (len records <? 2); [discriminate | ].
  rewrite run_bind.
  destruct (run store.handler
              (service.importRows ParseFloat (tl records) 0 _ []) w)
    as [[[result1 vouchers] w1] t1] eqn:Eloop.
  apply importRows_rows in Eloop. destruct Eloop as [_ Hrows].
  assert (forall (table : store.World) (j : nat) (record : list string)
                 (d : spec_float) (e : time.Time) (v' : entity.Voucher),
             len (filter store.active (store.rows table)) <= 100000 ->
             time.Parse_2006_01_02
               (strings.TrimSpace (nth 2 record EmptyString)) = Some e ->
             In v' (store.rows table) ->
             entity.VoucherCode v' = strings.TrimSpace (nth 0 record EmptyString) ->
             entity.DiscountPercent v' = d ->
             entity.ExpiryDate v' = e ->
             entity.DeletedAt v' = None ->
             exists vs : list entity.Voucher,
               value (run store.handler service.ExportVouchers table)
               = Ok (headerLine +++ csv.WriteAll (map service.exportRecord vs))
               /\ In [ strings.TrimSpace (nth 0 record EmptyString);
                       float64.Sprintf_2f d;
                       strings.TrimSpace (nth 2 record EmptyString) ]
                     (map service.exportRecord vs)) as Hexport.
  { intros table j record d e v' Hcap He Hin Hcode Hdisc Hexp Hdel.
    exists (store.sortBy store.createdAsc
              (filter store.active (store.rows table))).
    pose proof (sortBy_perm _ store.createdAsc
                  (filter store.active (store.rows table))) as Hperm.
    split.
    - rewrite ExportVouchers_store. unfold value. cbn [fst].
      rewrite page_first_all; [reflexivity | ].
      unfold len in *. rewrite (Permutation_length Hperm). exact Hcap.
    - apply in_map_iff. exists v'. split.
      + unfold service.exportRecord.
        rewrite Hcode, Hdisc, Hexp, (Format_Parse _ _ He). reflexivity.
      + apply Permutation_sym in Hperm. apply (Permutation_in _ Hperm).
        apply filter_In. split; [exact Hin | ].
        unfold store.active. rewrite Hdel. reflexivity. }
  destruct (0 <? len vouchers) eqn:Hsome.
  - rewrite run_call_bind. cbn [store.handler fst snd].
    unfold store.BulkCreate.
    destruct vouchers as [| v0 vs0]; [discriminate | ].
    destruct (store.insertRows (store.now w1) (store.rows w1)
                               (store.nextID w1) (v0 :: vs0))
      as [[rs next] | ] eqn:Eins.
    + unfold value, final. cbn [run fst snd store.tick store.withRows store.rows].
      intros Hreport Hcap j record Hj Hnoerr.
      inversion Hreport. subst report. cbn [domainService.Errors] in Hnoerr.
      destruct (Hrows j record Hj) as [Herr | [d [e [Hd [He Hv]]]]];
        [cbn [Z.add] in Herr; contradiction | ].
      apply insertRows_stored in Eins. destruct Eins as [_ Hstored].
      destruct (Hstored _ Hv) as [v' [Hin [Hcode [Hdisc [Hexp Hdel]]]]].
      cbn [entity.literal entity.VoucherCode entity.DiscountPercent
           entity.ExpiryDate entity.DeletedAt] in Hcode, Hdisc, Hexp, Hdel.
      exists d, e.
      destruct (Hexport {| store.rows := rs; store.nextID := next;
                           store.clock := store.clock w1;
                           store.ticks := S (store.ticks w1) |}
                        j record d e v' Hcap He Hin Hcode Hdisc Hexp Hdel)
        as [vs [Hdoc Hrec]].
      exists vs. auto.
    + unfold value. cbn [run fst]. discriminate.
  - unfold value, final. cbn [run fst snd].
    intros Hreport Hcap j record Hj Hnoerr.
    inversion Hreport. subst report.
    apply Z.ltb_ge in Hsome. pose proof (len_nonneg _ vouchers) as Hnn.
    assert (vouchers = []) as ->.
    { destruct vouchers; [reflexivity | rewrite len_cons in Hsome].
      pose proof (len_nonneg _ vouchers). lia. }
    destruct (Hrows j record Hj) as [Herr | [d [e [_ [_ []]]]]].
    cbn [Z.add] in Herr. contradiction.
Qed.

Lemma C9_import_then_export_witness :
  exists (d : spec_float) (e : time.Time) (vs : list entity.Voucher),
    sample.parseFloat (strings.TrimSpace "10.00") = Some d
    /\ time.Parse_2006_01_02 (strings.TrimSpace "2099-01-01") = Some e
    /\ value (run store.handler service.ExportVouchers
                  (final (run store.handler
                              (service.ImportVouchers sample.parseFloat
                                 (Ok oneRowFile)) sample.emptyTable)))
       = Ok (headerLine +++ csv.WriteAll (map service.exportRecord vs))
    /\ In [ strings.TrimSpace "DISC10"; float64.Sprintf_2f d;
            strings.TrimSpace "2099-01-01" ]
          (map service.exportRecord vs).
Proof.
  apply (C9_import_then_export sample.parseFloat sample.emptyTable oneRowFile
           oneRowReport)
    with (j := 0%nat) (record := ["DISC10"; "10.00"; "2099-01-01"]).
  - vm_compute. reflexivity.
  - vm_compute. discriminate.
  - reflexivity.
  - intros [].
Defined.

(* ================================================================== *)
(** * Import into a table at the limit *)

Lemma Sorted_snoc :
  forall (A : Type) (R : A -> A -> Prop) (l : list A) (x : A),
    Sorted R l -> (forall y, In y l -> R y x) -> Sorted R (l ++ [x]).
Proof.
  intros A R l x Hl. induction Hl as [| a l Hs IH Hhd]; intros Hx; cbn [app].
  - repeat constructor.
  - constructor.
    + apply IH. intros y Hy. apply Hx. right. exact Hy.
    + destruct Hhd as [| b r Hab]; cbn [app]; constructor.
      * apply Hx. left. reflexivity.
      * exact Hab.
Qed.

Lemma bigRows_no_code :
  forall (code : string) (n : nat),
    (forall i, String.eqb (bigCode i) code = false) ->
    existsb (store.hasCode code) (bigRows n) = false.
Proof.
  intros code n Hcode. apply not_true_is_false. intros Hex.
  apply existsb_exists in Hex. destruct Hex as [v [Hv Hhas]].
  unfold bigRows in Hv. apply in_map_iff in Hv. destruct Hv as [i [<- _]].
  unfold store.hasCode, bigRow in Hhas. cbn [entity.VoucherCode] in Hhas.
  rewrite Hcode in Hhas. discriminate.
Qed.

Lemma bigRows_no_id :
  forall n m : nat,
    (n <= m)%nat ->
    existsb (store.hasID (N.of_nat (S m))) (bigRows n) = false.
Proof.
  intros n m Hnm. apply not_true_is_false. intros Hex.
  apply existsb_exists in Hex. destruct Hex as [v [Hv Hhas]].
  unfold bigRows in Hv. apply in_map_iff in Hv. destruct Hv as [i [<- Hi]].
  apply in_seq in Hi.
  unfold store.hasID, bigRow in Hhas. cbn [entity.ID] in Hhas.
  apply N.eqb_eq in Hhas. lia.
Qed.

(** The import of the one-row file into the table of [n] vouchers: the
    row is accepted and stored behind the others. *)
Lemma import_into_bigTable :
  forall n : nat,
    value (run store.handler
               (service.ImportVouchers sample.parseFloat (Ok oneRowFile))
               (bigTable n))
    = Ok oneRowReport
    /\ store.rows
         (final (run store.handler
                     (service.ImportVouchers sample.parseFloat (Ok oneRowFile))
                     (bigTable n)))
       = bigRows n ++ [oneRowStored (N.of_nat (S n))].
Proof.
  intros n.
  assert (existsb (store.hasCode "DISC10") (store.rows (bigTable n)) = false)
    as Hcode by (apply bigRows_no_code; intros i; reflexivity).
  assert (time.unixNano (store.now (bigTable n))
          < time.unixNano (time.Date 2099 1 2 time.UTC)) as Hclock
    by reflexivity.
  unfold service.ImportVouchers, oneRowFile.
  change (len [sample.header; ["DISC10"; "10.00"; "2099-01-01"]] <? 2)
    with false.
  cbv iota. cbn [tl service.importRows]. rewrite !run_bind.
  rewrite (scenario_first_row sample.parseFloat (bigTable n) _ eq_refl
             Hcode Hclock).
  cbv iota beta. cbn [run app].
  change (0 <? len [entity.literal "DISC10" (float64.ofZ 10) sample.day2099])
    with true.
  cbv iota. rewrite run_call_bind. cbn [store.handler fst snd].
  unfold store.BulkCreate. cbn [store.insertRows].
  cbn [store.tick store.rows store.nextID bigTable].
  rewrite insertRow_fresh;
    [ | reflexivity | reflexivity
      | apply bigRows_no_code; intros i; reflexivity
      | apply bigRows_no_id; apply Nat.le_refl ].
  unfold value, final. cbn [run fst snd store.tick store.withRows store.rows].
  split; reflexivity.
Qed.

Lemma bigRows_before_noon :
  forall (n : nat) (id : N) (v : entity.Voucher),
    (n <= exportLimit)%nat -> In v (bigRows n) ->
    store.createdAsc v (oneRowStored id) = true.
Proof.
  intros n id v Hn Hv. unfold bigRows in Hv. apply in_map_iff in Hv.
  destruct Hv as [i [<- Hi]]. apply in_seq in Hi.
  unfold store.createdAsc, bigRow. cbn [entity.CreatedAt time.unixNano].
  change (time.unixNano (entity.CreatedAt (oneRowStored id)))
    with 1773057600000000000.
  change (time.unixNano (sample.wallClock 2026 1 1 0 0 time.UTC))
    with 1767225600000000000.
  apply Z.leb_le. unfold exportLimit in Hn. lia.
Qed.

(** The record of a voucher of this table is not the record of DISC10. *)
Lemma bigRow_line :
  forall i : nat,
    csv.writeFields (service.exportRecord (bigRow i)) <> "DISC10,10.00,2099-01-01".
Proof.
  intros i. rewrite exportRecord_bigRow. cbn [csv.writeFields].
  unfold csv.writeField at 1.
  destruct (csv.fieldNeedsQuotes (bigCode i)); unfold bigCode;
    cbn [String.append]; discriminate.
Qed.

(** After that import the export is the document of the first 100000
    vouchers, as before the import. *)
Lemma ExportVouchers_after_import :
  value (run store.handler service.ExportVouchers
             (final (run store.handler
                         (service.ImportVouchers sample.parseFloat
                            (Ok oneRowFile))
                         (bigTable exportLimit))))
  = Ok (headerLine
          +++ csv.WriteAll (map service.exportRecord (bigRows exportLimit))).
Proof.
  destruct (import_into_bigTable exportLimit) as [_ Hrows].
  rewrite ExportVouchers_ordered_table; rewrite Hrows.
  - rewrite firstn_app, bigRows_length, Nat.sub_diag.
    rewrite bigRows_firstn by apply Nat.le_refl.
    rewrite firstn_O, app_nil_r. reflexivity.
  - apply Forall_app. split; [apply bigRows_active | ].
    repeat constructor.
  - apply Sorted_snoc; [apply bigRows_sorted | ].
    intros y Hy. apply (bigRows_before_noon exportLimit).
    + apply Nat.le_refl.
    + exact Hy.
Qed.

(** No line of that document is the record of DISC10. *)
Lemma bigRows_document_lines :
  forall n : nat,
    ~ In "DISC10,10.00,2099-01-01"
         (documentLines
            (headerLine +++ csv.WriteAll (map service.exportRecord (bigRows n)))).
Proof.
  intros n.
  destruct (documentLines_WriteAll _ (bigRows_one_line_each n)) as [Hlines _].
  generalize dependent (csv.WriteAll (map service.exportRecord (bigRows n))).
  intros body Hlines.
  change (headerLine +++ body)
    with ("voucher_code,discount_percent,expiry_date" +++ String csv.lf body).
  rewrite (documentLines_line "voucher_code,discount_percent,expiry_date")
    by reflexivity.
  rewrite Hlines. intros [Hheader | Hline]; [discriminate | ].
  rewrite map_map in Hline. apply in_map_iff in Hline.
  destruct Hline as [v [Hv Hin]]. unfold bigRows in Hin.
  apply in_map_iff in Hin. destruct Hin as [i [<- _]].
  exact (bigRow_line i Hv).
Qed.

(** C9 does not hold as stated: the table holds 100000 active vouchers,
    the import accepts the row (DISC10, 10.00, 2099-01-01) and stores it,
    and the export that follows is the document it was before the
    import: none of its lines is DISC10,10.00,2099-01-01. *)
Lemma C9_counterexample :
  value (run store.handler
             (service.ImportVouchers sample.parseFloat (Ok oneRowFile))
             (bigTable exportLimit))
  = Ok oneRowReport
  /\ exists doc : string,
       value (run store.handler service.ExportVouchers
                  (final (run store.handler
                              (service.ImportVouchers sample.parseFloat
                                 (Ok oneRowFile))
                              (bigTable exportLimit))))
       = Ok doc
       /\ ~ In "DISC10,10.00,2099-01-01" (documentLines doc)
       /\ value (run store.handler service.ExportVouchers
                     (bigTable exportLimit))
          = Ok doc.
Proof.
  split; [apply import_into_bigTable | ].
  exists (headerLine
            +++ csv.WriteAll (map service.exportRecord (bigRows exportLimit))).
  split; [exact ExportVouchers_after_import | split].
  - apply bigRows_document_lines.
  - apply ExportVouchers_bigTable. apply Nat.le_refl.
Qed.


(* ================================================================== *)
(** * The two date tests *)

(** The day number of the civil date of a day number is that number. *)
Lemma daysFromCivil_civilFromDays :
  forall z : Z,
    time.daysFromCivil (fst (fst (time.civilFromDays z)))
                       (snd (fst (time.civilFromDays z)))
                       (snd (time.civilFromDays z)) = z.
Proof.
  intros z. unfold time.civilFromDays. cbv zeta. cbn [fst snd].
  set (era := (z + 719468) / 146097).
  set (doe := z + 719468 - era * 146097).
  set (yoe := (doe - doe / 1460 + doe / 36524 - doe / 146096) / 365).
  set (doy := doe - (365 * yoe + yoe / 4 - yoe / 100)).
  set (mp := (5 * doy + 2) / 153).
  set (d := doy - (153 * mp + 2) / 5 + 1).
  set (m := if mp <? 10 then mp + 3 else mp - 9).
  assert (0 <= doe < 146097) as Hdoe by (subst doe era; div_lia).
  assert (0 <= yoe <= 399) as Hyoe by (subst yoe; div_lia).
  assert (0 <= doy <= 365) as Hdoy.
  { subst doy yoe. div_lia. }
  assert (0 <= mp <= 11) as Hmp by (subst mp; div_lia).
  unfold time.daysFromCivil. cbv zeta.
  assert (m = (if mp <? 10 then mp + 3 else mp - 9)) as Hm by reflexivity.
  clearbody m.
  assert ((if m <=? 2 then yoe + era * 400 + (if m <=? 2 then 1 else 0) - 1
           else yoe + era * 400 + (if m <=? 2 then 1 else 0))
          = yoe + era * 400) as Hy.
  { destruct (Z.leb_spec m 2); lia. }
  rewrite Hy.
  assert ((if m >? 2 then m - 3 else m + 9) = mp) as Hmp'.
  { destruct (Z.ltb_spec mp 10); destruct (Z.gtb_spec m 2); lia. }
  rewrite Hmp'.
  replace ((yoe + era * 400) / 400) with era by div_lia.
  replace (yoe + era * 400 - era * 400) with yoe by lia.
  subst d doy. 
  replace ((153 * mp + 2) / 5 + (doe - (365 * yoe + yoe / 4 - yoe / 100) - (153 * mp + 2) / 5 + 1) - 1)
    with (doe - (365 * yoe + yoe / 4 - yoe / 100)) by lia.
  subst doe. lia.
Qed.

(** The date of an instant names the day it falls on. *)
Lemma daysFromCivil_Date :
  forall t : time.Time,
    time.daysFromCivil (time.Year t) (time.Month t) (time.Day t)
    = time.localDay t.
Proof.
  intros t. unfold time.Year, time.Month, time.Day, time.civil.
  apply daysFromCivil_civilFromDays.
Qed.

(** Two midnights of one location are ordered as their day numbers. *)
Lemma Before_Date :
  forall (y1 m1 d1 y2 m2 d2 : Z) (loc : time.Location),
    time.Before (time.Date y1 m1 d1 loc) (time.Date y2 m2 d2 loc)
    = (time.daysFromCivil y1 m1 d1 <? time.daysFromCivil y2 m2 d2).
Proof.
  intros. unfold time.Before, time.Date. cbn [time.unixNano].
  unfold time.secondsPerDay, time.Second.
  destruct (Z.ltb_spec (time.daysFromCivil y1 m1 d1)
                       (time.daysFromCivil y2 m2 d2));
    [apply Z.ltb_lt | apply Z.ltb_ge]; lia.
Qed.

(** The test of Create and Update compares the day of the expiry date
    with the day of the clock in the clock's location. *)
Lemma localDateNotPast_days :
  forall now expiryDate : time.Time,
    localDateNotPast now expiryDate
    = (time.localDay now <=? time.localDay expiryDate).
Proof.
  intros now expiryDate. unfold localDateNotPast.
  rewrite Before_Date, !daysFromCivil_Date.
  destruct (Z.ltb_spec (time.localDay expiryDate) (time.localDay now));
    cbn [negb]; symmetry; [apply Z.leb_gt | apply Z.leb_le]; lia.
Qed.

Lemma localDay_Date_UTC :
  forall y m d : Z,
    time.localDay (time.Date y m d time.UTC) = time.daysFromCivil y m d.
Proof.
  intros y m d. unfold time.localDay, time.Date.
  cbn [time.unixNano time.location time.zoneOffset time.UTC].
  rewrite Z.sub_0_r, Z.add_0_r.
  rewrite (Z.div_mul _ time.Second) by discriminate.
  rewrite (Z.div_mul _ time.secondsPerDay) by discriminate.
  reflexivity.
Qed.

(** The test of validateAndConvert and parseCSVRow compares the day of a
    parsed date with the UTC day of the clock. *)
Lemma truncatedNotPast_days :
  forall (s : string) (now expiryDate : time.Time),
    time.Parse_2006_01_02 s = Some expiryDate ->
    truncatedNotPast now expiryDate
    = (time.localDay (inUTC now) <=? time.localDay expiryDate).
Proof.
  intros s now expiryDate Hparse. apply Parse_inv in Hparse.
  destruct Hparse as [a3 [a2 [a1 [a0 [b1 [b0 [c1 [c0 [_ [_ [_ [_ [_ ->]]]]]]]]]]]]].
  rewrite localDay_Date_UTC. unfold truncatedNotPast, time.Before, time.Truncate.
  change (24 * time.Hour <=? 0) with false. cbv iota.
  unfold time.localDay, inUTC, time.Date.
  cbn [time.unixNano time.location time.zoneOffset time.UTC].
  change (24 * time.Hour) with 86400000000000.
  change (time.unixToInternal * time.Second) with 62135596800000000000.
  unfold time.secondsPerDay, time.Second.
  set (day := time.daysFromCivil _ _ _). clearbody day.
  rewrite Z.add_0_r.
  destruct (Z.leb_spec (time.unixNano now / 1000000000 / 86400) day);
    [apply negb_true_iff; apply Z.ltb_ge | apply negb_false_iff; apply Z.ltb_lt];
    div_lia.
Qed.

(** X1: once the code is free and the date parses, Create decides by the
    calendar days in the location of the clock: an expiry day before the
    clock's day ends the call with the past-date error and without a
    write; any other day lets the voucher through to the repository,
    whose answer is returned. *)
Theorem X1_Create_compares_local_days :
  forall (W : Type) (h : Handler W) (w : W)
         (req : request.CreateVoucherRequest) (expiryDate : time.Time),
    codeIsFree h w req ->
    time.Parse_2006_01_02 (request.ExpiryDate req) = Some expiryDate ->
    (time.localDay expiryDate < time.localDay (clockAfterLookup h w req) ->
       value (run h (service.Create req) w) = Err pastDate
       /\ existsb isWrite (calls (trace (run h (service.Create req) w))) = false)
    /\ (time.localDay (clockAfterLookup h w req) <= time.localDay expiryDate ->
          value (run h (service.Create req) w)
          = fst (h (repository.Create
                      (entity.literal (request.VoucherCode req)
                                      (request.DiscountPercent req) expiryDate))
                   (snd (h repository.TimeNow (afterLookup h w req))))).
Proof.
  intros W h w req expiryDate Hfree Hparse.
  unfold codeIsFree in Hfree. unfold clockAfterLookup, afterLookup.
  unfold service.Create.
  rewrite run_call_bind, Hfree, Hparse, run_call_bind. cbv zeta.
  rewrite Before_Date, !daysFromCivil_Date.
  destruct (Z.ltb_spec (time.localDay expiryDate)
              (time.localDay
                 (fst (h repository.TimeNow
                         (snd (h (repository.FindByVoucherCode
                                    (request.VoucherCode req)) w))))))
    as [Hpast | Hfuture].
  - split; [intros _; split; reflexivity | intros Hle; lia].
  - split; [intros Hlt; lia | intros _].
    rewrite run_call_bind.
    destruct (h (repository.Create _) _) as [saved w3].
    destruct saved; reflexivity.
Qed.

Lemma X1_Create_compares_local_days_witness :
  value (run mock.handler (service.Create sample.reqMarch9)
             (mockAt sample.earlyMorningEast))
  = Err pastDate.
Proof.
  destruct (X1_Create_compares_local_days
              mock.World mock.handler (mockAt sample.earlyMorningEast)
              sample.reqMarch9 (time.Date 2026 3 9 time.UTC)
              eq_refl eq_refl) as [Hpast _].
  apply Hpast. vm_compute. reflexivity.
Defined.

(** X2: the validation of ImportBatch decides by UTC days: a candidate
    with a valid code and discount whose date parses passes exactly when
    the day of that date is not before the UTC day of the clock; its
    error otherwise names the date. *)
Theorem X2_batch_validation_compares_UTC_days :
  forall (now : time.Time) (req : request.CreateVoucherRequest)
         (expiryDate : time.Time),
    codeOK (request.VoucherCode req) ->
    ~ outOfRange (request.DiscountPercent req) ->
    time.Parse_2006_01_02 (request.ExpiryDate req) = Some expiryDate ->
    verdictAt now req
    = if time.localDay (inUTC now) <=? time.localDay expiryDate
      then Ok (entity.literal (request.VoucherCode req)
                              (request.DiscountPercent req) expiryDate)
      else Err (errors.New ("expiry date " +++ request.ExpiryDate req
                              +++ " must be today or in the future")).
Proof.
  intros now req expiryDate Hcode Hrange Hparse.
  apply codeOK_tests in Hcode. destruct Hcode as [Hne Hlen].
  assert (float64.lt (request.DiscountPercent req) (float64.ofZ 1)
          || float64.gt (request.DiscountPercent req) (float64.ofZ 100)
          = false) as Hin.
  { apply not_true_is_false. intros Hout. apply Hrange.
    apply orb_prop in Hout. exact Hout. }
  rewrite <- (truncatedNotPast_days _ now expiryDate Hparse).
  unfold verdictAt, service.validateAndConvert.
  rewrite Hne, Hlen, Hin, Hparse, run_call_bind.
  change (fst (mock.handler repository.TimeNow (mockAt now))) with now.
  cbv zeta. unfold truncatedNotPast.
  destruct (time.Before expiryDate _); reflexivity.
Qed.

Lemma X2_batch_validation_compares_UTC_days_witness :
  isOk (verdictAt sample.earlyMorningEast sample.reqMarch9) = true.
Proof.
  rewrite (X2_batch_validation_compares_UTC_days
             sample.earlyMorningEast sample.reqMarch9
             (time.Date 2026 3 9 time.UTC)).
  - reflexivity.
  - split; [discriminate | vm_compute; discriminate].
  - intros [H | H]; vm_compute in H; discriminate.
  - reflexivity.
Defined.

(** X3: the date test of Create and Update and the date test of the
    import paths give different answers on a parsed date exactly when
    its day lies from the UTC day of the clock up to, but not including,
    the clock's local day, or the other way round; for a clock in UTC
    they agree. *)
Theorem X3_date_tests_differ_between_the_two_days :
  forall (s : string) (now expiryDate : time.Time),
    time.Parse_2006_01_02 s = Some expiryDate ->
    (localDateNotPast now expiryDate <> truncatedNotPast now expiryDate
     <-> (time.localDay (inUTC now) <= time.localDay expiryDate
            < time.localDay now)
         \/ (time.localDay now <= time.localDay expiryDate
               < time.localDay (inUTC now)))
    /\ (time.zoneOffset (time.location now) = 0 ->
        localDateNotPast now expiryDate = truncatedNotPast now expiryDate).
Proof.
  intros s now expiryDate Hparse.
  rewrite localDateNotPast_days, (truncatedNotPast_days s now expiryDate Hparse).
  split.
  - destruct (Z.leb_spec (time.localDay now) (time.localDay expiryDate));
      destruct (Z.leb_spec (time.localDay (inUTC now))
                           (time.localDay expiryDate));
      split; intros Hdiff; try lia; try congruence; try discriminate.
  - intros Hutc. unfold time.localDay, inUTC.
    cbn [time.unixNano time.location time.zoneOffset time.UTC].
    rewrite Hutc. reflexivity.
Qed.

Lemma X3_date_tests_differ_witness :
  localDateNotPast sample.earlyMorningEast (time.Date 2026 3 9 time.UTC)
  <> truncatedNotPast sample.earlyMorningEast (time.Date 2026 3 9 time.UTC).
Proof.
  apply (X3_date_tests_differ_between_the_two_days
           "2026-03-09" sample.earlyMorningEast (time.Date 2026 3 9 time.UTC)
           eq_refl).
  left. vm_compute. split; [discriminate | reflexivity].
Defined.


(* ================================================================== *)
(** * Validation and the constraints of the table *)

Lemma SFcompare_antisym :
  forall (x y : spec_float) (c : comparison),
    SFcompare x y = Some c -> SFcompare y x = Some (CompOpp c).
Proof.
  intros x y c.
  destruct x as [sx | sx | | sx mx ex]; destruct y as [sy | sy | | sy my ey];
    cbn [SFcompare]; try discriminate;
    try (destruct sx); try (destruct sy);
    intros H; inversion H; subst; try reflexivity; f_equal;
    rewrite (Z.compare_antisym ex ey); destruct (ex ?= ey);
    cbn [CompOpp]; try reflexivity;
    replace (Pos.compare_cont Eq my mx)
      with (CompOpp (Pos.compare_cont Eq mx my))
      by apply (Pos.compare_cont_antisym mx my Eq);
    destruct (Pos.compare_cont Eq mx my); reflexivity.
Qed.

(** Neither below [lo] nor a NaN means at least [lo], for a number [lo]. *)
Lemma not_lt_le :
  forall d lo : spec_float,
    d <> S754_nan -> lo <> S754_nan ->
    float64.lt d lo = false -> float64.le lo d = true.
Proof.
  intros d lo Hd Hlo. unfold float64.lt, float64.le, SFltb, SFleb.
  destruct (SFcompare d lo) as [c | ] eqn:Hc.
  - rewrite (SFcompare_antisym _ _ _ Hc).
    destruct c; cbn [CompOpp]; intros; try reflexivity; discriminate.
  - destruct d; destruct lo; try discriminate; congruence.
Qed.

Lemma length_list_ascii_of_string :
  forall s : string, List.length (list_ascii_of_string s) = String.length s.
Proof.
  induction s as [| c s IH]; cbn [list_ascii_of_string List.length String.length];
    [reflexivity | rewrite IH; reflexivity].
Qed.

(** A string has no more characters than bytes. *)
Lemma runeCount_le_len :
  forall s : string, store.runeCount s <= strings.len s.
Proof.
  intros s. unfold store.runeCount, strings.len.
  rewrite <- length_list_ascii_of_string. apply len_filter_le.
Qed.

(** A voucher made by validation from a discount that is a number meets
    the constraints of the columns. *)
Lemma validated_checkRow :
  forall (code : string) (d : spec_float) (e : time.Time),
    codeOK code -> ~ outOfRange d -> d <> S754_nan ->
    store.checkRow (entity.literal code d e) = true.
Proof.
  intros code d e [_ Hlen] Hrange Hnan. unfold store.checkRow.
  cbn [entity.literal entity.DiscountPercent entity.VoucherCode].
  assert (float64.lt d (float64.ofZ 1) = false) as Hlow.
  { apply not_true_is_false. intros H. apply Hrange. left. exact H. }
  assert (float64.gt d (float64.ofZ 100) = false) as Hhigh.
  { apply not_true_is_false. intros H. apply Hrange. right. exact H. }
  rewrite (not_lt_le d (float64.ofZ 1) Hnan ltac:(discriminate) Hlow).
  rewrite (not_lt_le (float64.ofZ 100) d ltac:(discriminate) Hnan Hhigh).
  cbn [andb]. apply Z.leb_le.
  pose proof (runeCount_le_len code). lia.
Qed.

(** X4: what the validation of either import path accepts meets the
    constraints of the columns, the CHECK on the discount and the length
    of the code, as long as the discount is a number: the table can then
    refuse the bulk insert for a code or an id already taken only. *)
Theorem X4_validated_vouchers_meet_column_constraints :
  (forall (now : time.Time) (req : request.CreateVoucherRequest)
          (v : entity.Voucher),
      verdictAt now req = Ok v ->
      entity.DiscountPercent v <> S754_nan ->
      store.checkRow v = true)
  /\ (forall (ParseFloat : string -> option spec_float) (W : Type)
             (h : Handler W) (w : W) (record : list string) (rowNum : Z)
             (v : entity.Voucher),
        value (run h (service.parseCSVRow ParseFloat record rowNum) w) = Ok v ->
        entity.DiscountPercent v <> S754_nan ->
        store.checkRow v = true).
Proof.
  split.
  - intros now req v Hv Hnan. apply verdictAt_Ok in Hv.
    destruct Hv as [Hcode [Hrange [e [_ [_ ->]]]]].
    apply validated_checkRow; assumption.
  - intros ParseFloat W h w record rowNum v Hv Hnan.
    apply parseCSVRow_Ok in Hv.
    destruct Hv as [d [e [_ [_ [Hcode [Hrange [_ ->]]]]]]].
    apply validated_checkRow; assumption.
Qed.

Lemma X4_validated_vouchers_witness :
  store.checkRow (entity.literal "A" (float64.ofZ 10) (time.Date 2026 3 9 time.UTC))
  = true.
Proof.
  destruct X4_validated_vouchers_meet_column_constraints as [Hbatch _].
  apply (Hbatch sample.earlyMorningEast sample.reqMarch9).
  - vm_compute. reflexivity.
  - discriminate.
Defined.

(* ================================================================== *)
(** * Rows the table accepts from parseCSVRow *)

(** On the table an accepted row costs one reading of the clock and
    nothing else. *)
Lemma store_parseCSVRow_Ok :
  forall (ParseFloat : string -> option spec_float) (w : store.World)
         (record : list string) (rowNum : Z) (v : entity.Voucher),
    value (run store.handler (service.parseCSVRow ParseFloat record rowNum) w)
    = Ok v ->
    fst (run store.handler (service.parseCSVRow ParseFloat record rowNum) w)
    = (Ok v, store.tick w).
Proof.
  intros ParseFloat w record rowNum v. unfold service.parseCSVRow.
  destruct (len record <? 3); [discriminate | ].
  destruct (String.eqb _ EmptyString); [discriminate | ].
  destruct (50 <? strings.len _); [discriminate | ].
  rewrite run_call_bind. cbn [store.handler fst snd].
  destruct (service.exceptNotFound _) as [[existing | ] | err];
    try discriminate.
  destruct (ParseFloat _) as [d | ]; [ | discriminate].
  destruct (float64.lt d _ || float64.gt d _); [discriminate | ].
  destruct (time.Parse_2006_01_02 _) as [e | ]; [ | discriminate].
  rewrite run_call_bind. cbn [store.handler fst snd]. cbv zeta.
  destruct (time.Before e _); [discriminate | ].
  unfold value. cbn [run fst]. intros Hv. inversion Hv. reflexivity.
Qed.

(** X5: a CSV file with two data rows that the table accepts one after
    the other and whose trimmed codes are the same is not imported: both
    rows pass the lookup, since nothing is written before the end, the
    table refuses the bulk insert for the repeated code, and the import
    ends with that error and leaves the table as it was. *)
Theorem X5_csv_rows_sharing_a_code_fail_the_import :
  forall (ParseFloat : string -> option spec_float) (w : store.World)
         (header row1 row2 : list string),
    isOk (value (run store.handler
                     (service.parseCSVRow ParseFloat row1 2) w)) = true ->
    isOk (value (run store.handler
                     (service.parseCSVRow ParseFloat row2 3) (store.tick w)))
    = true ->
    strings.TrimSpace (nth 0 row1 EmptyString)
    = strings.TrimSpace (nth 0 row2 EmptyString) ->
    value (run store.handler
               (service.ImportVouchers ParseFloat (Ok [header; row1; row2])) w)
    = Err (errors.Wrap "failed to insert vouchers: " store.violation)
    /\ store.rows
         (final (run store.handler
                     (service.ImportVouchers ParseFloat
                        (Ok [header; row1; row2])) w))
       = store.rows w.
Proof.
  intros ParseFloat w header row1 row2 Hrow1 Hrow2 Hsame.
  destruct (value (run store.handler
                       (service.parseCSVRow ParseFloat row1 2) w))
    as [v1 | ] eqn:Hv1; [ | discriminate].
  destruct (value (run store.handler
                       (service.parseCSVRow ParseFloat row2 3) (store.tick w)))
    as [v2 | ] eqn:Hv2; [ | discriminate].
  pose proof (store_parseCSVRow_Ok _ _ _ _ _ Hv1) as Hrun1.
  pose proof (store_parseCSVRow_Ok _ _ _ _ _ Hv2) as Hrun2.
  apply parseCSVRow_Ok in Hv1. apply parseCSVRow_Ok in Hv2.
  destruct Hv1 as [d1 [e1 [_ [_ [_ [_ [_ Hlit1]]]]]]].
  destruct Hv2 as [d2 [e2 [_ [_ [_ [_ [_ Hlit2]]]]]]].
  unfold service.ImportVouchers.
  change (len [header; row1; row2] <? 2) with false. cbv iota.
  cbn [tl service.importRows].
  change (0 + 2) with 2. change (0 + 1 + 2) with 3.
  rewrite run_bind, run_bind.
  destruct (run store.handler (service.parseCSVRow ParseFloat row1 2) w)
    as [[parsed1 w1] t1].
  cbn [fst] in Hrun1. inversion Hrun1. subst parsed1 w1.
  cbv iota beta. rewrite run_bind.
  destruct (run store.handler (service.parseCSVRow ParseFloat row2 3)
                (store.tick w))
    as [[parsed2 w2] t2].
  cbn [fst] in Hrun2. inversion Hrun2. subst parsed2 w2.
  cbv iota beta. cbn [run]. cbv iota beta. cbn [app].
  change (0 <? len [v1; v2]) with true.
  cbv iota. rewrite run_call_bind. cbn [store.handler fst snd].
  unfold store.BulkCreate.
  destruct (store.insertRows _ _ _ [v1; v2]) as [[rs next] | ] eqn:Eins.
  - apply (insertRows_distinct_codes
             _ (strings.TrimSpace (nth 0 row1 EmptyString))) in Eins.
    subst v1 v2. unfold store.hasCode in Eins.
    cbn [filter entity.literal entity.VoucherCode] in Eins.
    rewrite <- Hsame, String.eqb_refl in Eins.
    rewrite !len_cons, len_nil in Eins. lia.
  - unfold value, final. cbn [run fst snd]. split; reflexivity.
Qed.

Lemma X5_csv_rows_sharing_a_code_witness :
  value (run store.handler
             (service.ImportVouchers sample.parseFloat
                (Ok [ sample.header;
                      ["TWIN"; "10.00"; "2099-01-01"];
                      [" TWIN "; "20"; "2099-01-01"] ]))
             sample.emptyTable)
  = Err (errors.Wrap "failed to insert vouchers: " store.violation).
Proof.
  apply (X5_csv_rows_sharing_a_code_fail_the_import
           sample.parseFloat sample.emptyTable sample.header
           ["TWIN"; "10.00"; "2099-01-01"] [" TWIN "; "20"; "2099-01-01"]);
    vm_compute; reflexivity.
Defined.

Lemma store_FindByVoucherCode_free :
  forall (k : string) (w : store.World),
    holdsActive w k = false -> store.FindByVoucherCode k w = Ok None.
Proof.
  intros k w Hfree. unfold store.FindByVoucherCode. f_equal.
  destruct (find _ (store.rows w)) as [v | ] eqn:Efind; [ | reflexivity].
  apply find_some in Efind. destruct Efind as [Hin Hb].
  assert (holdsActive w k = true) as Hheld
    by (apply existsb_exists; exists v; auto).
  congruence.
Qed.

(** The table takes no voucher whose discount is not a number. *)
Lemma insertRow_NaN :
  forall (t : time.Time) (rs : list entity.Voucher) (next : N)
         (code : string) (e : time.Time),
    store.insertRow t rs next (entity.literal code S754_nan e) = None.
Proof.
  intros t rs next code e. unfold store.insertRow.
  change (entity.ID (store.stamp t (entity.literal code S754_nan e)) =? 0)%N
    with true.
  cbv iota beta.
  change (store.checkRow
            (store.withID next
               (store.stamp t (entity.literal code S754_nan e))))
    with false.
  reflexivity.
Qed.

(** X6: a discount that parses to NaN is neither below 1 nor above 100
    for the range check of parseCSVRow, so a row with such a discount and
    an otherwise valid code and date is not reported as a failed row: it
    goes into the bulk insert, the table refuses it, and the import of
    the file fails as a whole. *)
Theorem X6_NaN_discount_passes_the_range_check :
  forall (ParseFloat : string -> option spec_float) (w : store.World)
         (header record : list string) (expiryDate : time.Time),
    3 <= len record ->
    codeOK (strings.TrimSpace (nth 0 record EmptyString)) ->
    holdsActive w (strings.TrimSpace (nth 0 record EmptyString)) = false ->
    ParseFloat (strings.TrimSpace (nth 1 record EmptyString)) = Some S754_nan ->
    time.Parse_2006_01_02 (strings.TrimSpace (nth 2 record EmptyString))
    = Some expiryDate ->
    time.localDay (inUTC (store.now w)) <= time.localDay expiryDate ->
    value (run store.handler (service.parseCSVRow ParseFloat record 2) w)
    = Ok (entity.literal (strings.TrimSpace (nth 0 record EmptyString))
                         S754_nan expiryDate)
    /\ value (run store.handler
                  (service.ImportVouchers ParseFloat (Ok [header; record])) w)
       = Err (errors.Wrap "failed to insert vouchers: " store.violation).
Proof.
  intros ParseFloat w header record expiryDate Hlen Hcode Hfree Hnan Hparse Hday.
  apply codeOK_tests in Hcode. destruct Hcode as [Hne Hshort].
  apply Z.ltb_ge in Hlen. apply Z.leb_le in Hday.
  rewrite <- (truncatedNotPast_days _ _ _ Hparse) in Hday.
  unfold truncatedNotPast in Hday. apply negb_true_iff in Hday.
  assert (run store.handler (service.parseCSVRow ParseFloat record 2) w
          = (Ok (entity.literal (strings.TrimSpace (nth 0 record EmptyString))
                                S754_nan expiryDate),
             store.tick w,
             [ {| evCall := repository.FindByVoucherCode
                              (strings.TrimSpace (nth 0 record EmptyString));
                  evResp := Ok None |};
               {| evCall := repository.TimeNow; evResp := store.now w |} ]))
    as Hrow.
  { unfold service.parseCSVRow. rewrite Hlen, Hne, Hshort, run_call_bind.
    cbn [store.handler fst snd].
    rewrite (store_FindByVoucherCode_free _ _ Hfree).
    cbn [service.exceptNotFound]. rewrite Hnan.
    change (float64.lt S754_nan (float64.ofZ 1)
            || float64.gt S754_nan (float64.ofZ 100)) with false.
    cbv iota. rewrite Hparse, run_call_bind. cbn [store.handler fst snd].
    cbv zeta. rewrite Hday. reflexivity. }
  split; [rewrite Hrow; reflexivity | ].
  unfold service.ImportVouchers.
  change (len [header; record] <? 2) with false. cbv iota.
  cbn [tl service.importRows]. change (0 + 2) with 2.
  rewrite run_bind, run_bind, Hrow. cbv iota beta. cbn [run]. cbv iota beta.
  cbn [app].
  change (0 <? len [entity.literal
                      (strings.TrimSpace (nth 0 record EmptyString))
                      S754_nan expiryDate]) with true.
  cbv iota. rewrite run_call_bind. cbn [store.handler fst snd].
  unfold store.BulkCreate. cbn [store.insertRows].
  rewrite insertRow_NaN. reflexivity.
Qed.

Lemma X6_NaN_discount_witness :
  value (run store.handler
             (service.ImportVouchers parseNaN
                (Ok [sample.header; ["NOTANUMBER"; "NaN"; "2099-01-01"]]))
             sample.emptyTable)
  = Err (errors.Wrap "failed to insert vouchers: " store.violation).
Proof.
  apply (X6_NaN_discount_passes_the_range_check
           parseNaN sample.emptyTable sample.header
           ["NOTANUMBER"; "NaN"; "2099-01-01"] sample.day2099).
  - vm_compute. discriminate.
  - split; [discriminate | vm_compute; discriminate].
  - reflexivity.
  - reflexivity.
  - reflexivity.
  - vm_compute. discriminate.
Defined.
